(** * Planejamento Tributario: the tax-simulation engine

    A shallow embedding of [utils/calculations.ts] (the four regime
    calculators), [utils/simplesTables.ts] (the Simples Nacional bracket
    tables), the record types of [types.ts] and the [results] memo of the
    Dashboard component (LALUR totals, the choice of the best current regime
    and the call of the reform calculator).

    Numbers.  A TypeScript [number] is an IEEE double.  Amounts and rates are
    modelled as exact rationals [Q]: sums, differences, products and quotients
    by a non-zero divisor are computed without rounding.  The only operation
    of the calculators that can leave the finite numbers is the division by
    [data.revenueAnnual] that computes [effectiveRate]; that field is a
    [JS.number], which has the values IEEE arithmetic gives a division by
    zero.  Zero carries no sign.

    A double rounds after every operation, so a total accumulated in the
    source can differ in its last bits from the exact sum, the order of the
    additions can matter there, and a comparison of a computed quotient with a
    threshold can fall on the other side when the exact value is within a
    rounding error of it.  The definitions that accumulate ([Ledger.sumByTag],
    [Ledger.creditBase], [Reform.accumulate], [Dashboard.addAdjustment]) keep
    the order of the source; no statement below compares two orders of the
    same additions, and the statements on the Factor R keep clear of its
    threshold. *)

From Stdlib Require Import QArith Qminmax Qabs Lqa Lia List String Bool.
Import ListNotations.
Open Scope Q_scope.

(** ** JavaScript numbers *)

Module JS.

(** The outcome of a floating-point division of finite numbers. *)
Inductive number : Type :=
| Fin (q : Q)
| PosInf
| NegInf
| NaN.

(** [x > y] and [x < y] on finite numbers. *)
Definition gt (x y : Q) : bool := negb (Qle_bool x y).
Definition lt (x y : Q) : bool := negb (Qle_bool y x).
(** [x >= y] and [x <= y]. *)
Definition ge (x y : Q) : bool := Qle_bool y x.
Definition le (x y : Q) : bool := Qle_bool x y.

(** [a / b] for finite [a] and [b]: [0 / 0] is NaN, [a / 0] is an infinity
    of the sign of [a]. *)
Definition div (a b : Q) : number :=
  if Qeq_bool b 0 then
    if Qeq_bool a 0 then NaN
    else if lt 0 a then PosInf else NegInf
  else Fin (a / b).

(** [x * k] for a finite [k]: an infinity times zero is NaN. *)
Definition mul (x : number) (k : Q) : number :=
  match x with
  | Fin q => Fin (q * k)
  | PosInf => if Qeq_bool k 0 then NaN else if lt 0 k then PosInf else NegInf
  | NegInf => if Qeq_bool k 0 then NaN else if lt 0 k then NegInf else PosInf
  | NaN => NaN
  end.

(** [Number.isFinite]. *)
Definition isFinite (x : number) : bool :=
  match x with Fin _ => true | _ => false end.

(** [x || 0] on a finite number: [0] is the only falsy one. *)
Definition or_zero (x : Q) : Q := if Qeq_bool x 0 then 0 else x.

(** Truthiness of an optional boolean ([undefined] is falsy). *)
Definition truthy (b : option bool) : bool :=
  match b with Some true => true | _ => false end.

End JS.

(** ** types.ts *)

Inductive ActivityType : Type :=
| COMERCIO
| INDUSTRIA
| SERVICO_ANEXO_III
| SERVICO_ANEXO_IV
| SERVICO_ANEXO_V.

Inductive LineTag : Type :=
| RECEITA | DEDUCAO | IMPOSTO_VENDA | IRPJ_CSLL | FOLHA | CUSTO | DESPESA
| REC_FIN | DESP_FIN | OUTROS | IGNORE.

Inductive LineType : Type := ANALYTICAL | SYNTHETIC.

Inductive LalurAdjustment : Type := ADDITION | EXCLUSION.

Inductive StatementSection : Type := DRE | BALANCO | EBITDA.

Module DRELineItem.
Record t : Type := mk {
  description : string;
  value : Q;
  isTotal : bool;
  section : StatementSection;
  level : Z;
  tag : option LineTag;
  lineType : LineType;
  useForCredit : option bool;
  reformCreditRate : option Q;
  lalurAdjustment : option LalurAdjustment
}.
End DRELineItem.

(** [originalLines] and [composition] are not read by the calculators and
    are left out. *)
Module FinancialData.
Record t : Type := mk {
  revenueAnnual : Q;
  revenueCurrent : Q;
  deductions : Q;
  taxesOnSales : Q;
  taxesIncome : Q;
  payrollBase : Q;
  expenses : Q;
  financialRevenues : Q;
  financialExpenses : Q;
  cogs : Q;
  profitBeforeTax : Q;
  realCreditBase : option Q
}.
End FinancialData.

Module TaxRateConfig.
Record t : Type := mk {
  pis : Q;
  cofins : Q;
  irpj : Q;
  irpjAdicional : Q;
  csll : Q;
  ipi : Q;
  iss : Q;
  icms : Q;
  rat : Q;
  cpp : Q;
  inssTerceiros : Q;
  fgts : Q;
  presuncaoIRPJ : Q;
  presuncaoCSLL : Q;
  pisFinancial : Q;
  cofinsFinancial : Q
}.
End TaxRateConfig.

Module ReformConfig.
Record t : Type := mk {
  ibsRate : Q;
  cbsRate : Q;
  selectiveTaxRate : Q;
  standardCreditRate : Q
}.
End ReformConfig.

Module TaxBreakdown.
Record t : Type := mk {
  taxSales : Q;
  taxIncome : Q;
  taxPayroll : Q;
  charges : Q
}.
End TaxBreakdown.

Module TaxDetailedBreakdown.
Record t : Type := mk {
  pis : Q;
  cofins : Q;
  irpj : Q;
  irpjAdicional : Q;
  csll : Q;
  ipi : Q;
  iss : Q;
  icms : Q;
  rat : Q;
  cpp : Q;
  inssTerceiros : Q;
  fgts : Q;
  simplesDAS : Q;
  pisFinancial : Q;
  cofinsFinancial : Q;
  ibs : option Q;
  cbs : option Q;
  selectiveTax : option Q
}.
End TaxDetailedBreakdown.

Inductive Regime : Type :=
| SimplesNacional
| LucroPresumido
| LucroReal
| ReformaTributaria.

(** A note of a result.  The source builds the text from a template and
    [formatBRL]; the model keeps which template it is and the amounts it is
    given. *)
Inductive Note : Type :=
| NoteExcedeLimite (faturamento limite : Q)
| NoteFatorR
| NotePrejuizoFiscal
| NoteAdicoesLALUR (additions : Q)
| NoteExclusoesLALUR (exclusions : Q).

Module Result.
Record t : Type := mk {
  regime : Regime;
  totalTax : Q;
  effectiveRate : JS.number;
  breakdown : TaxBreakdown.t;
  detailed : TaxDetailedBreakdown.t;
  details : list (string * Q);
  notes : option (list Note);
  isBlocked : option bool
}.
End Result.

(** [ReformSimulationResult extends TaxSimulationResult]. *)
Module ReformResult.
Record t : Type := mk {
  base : Result.t;
  totalCredits : Q;
  debitIBS : Q;
  debitCBS : Q;
  creditIBS : Q;
  creditCBS : Q
}.
End ReformResult.

Coercion ReformResult.base : ReformResult.t >-> Result.t.

Module SimplesTableRange.
Record t : Type := mk {
  limit : Q;
  aliquota : Q;
  deducao : Q
}.
End SimplesTableRange.

Module SimplesAnnex.
Record t : Type := mk {
  name : string;
  ranges : list SimplesTableRange.t
}.
End SimplesAnnex.

(** ** utils/simplesTables.ts *)

Definition SIMPLES_LIMIT : Q := 4800000.

Definition ANEXO_I : SimplesAnnex.t :=
  SimplesAnnex.mk "Anexo I - Comércio"
    [ SimplesTableRange.mk 180000 4.0 0;
      SimplesTableRange.mk 360000 7.3 5940;
      SimplesTableRange.mk 720000 9.5 13860;
      SimplesTableRange.mk 1800000 10.7 22500;
      SimplesTableRange.mk 3600000 14.3 87300;
      SimplesTableRange.mk 4800000 19.0 378000 ].

Definition ANEXO_II : SimplesAnnex.t :=
  SimplesAnnex.mk "Anexo II - Indústria"
    [ SimplesTableRange.mk 180000 4.5 0;
      SimplesTableRange.mk 360000 7.8 5940;
      SimplesTableRange.mk 720000 10.0 13860;
      SimplesTableRange.mk 1800000 11.2 22500;
      SimplesTableRange.mk 3600000 14.7 85500;
      SimplesTableRange.mk 4800000 30.0 720000 ].

Definition ANEXO_III : SimplesAnnex.t :=
  SimplesAnnex.mk "Anexo III - Serviços (Geral)"
    [ SimplesTableRange.mk 180000 6.0 0;
      SimplesTableRange.mk 360000 11.2 9360;
      SimplesTableRange.mk 720000 13.5 17640;
      SimplesTableRange.mk 1800000 16.0 35640;
      SimplesTableRange.mk 3600000 21.0 125640;
      SimplesTableRange.mk 4800000 33.0 648000 ].

Definition ANEXO_IV : SimplesAnnex.t :=
  SimplesAnnex.mk "Anexo IV - Serviços (Limpeza, Advocacia, Obras)"
    [ SimplesTableRange.mk 180000 4.5 0;
      SimplesTableRange.mk 360000 9.0 8100;
      SimplesTableRange.mk 720000 10.2 12420;
      SimplesTableRange.mk 1800000 14.0 39780;
      SimplesTableRange.mk 3600000 22.0 183780;
      SimplesTableRange.mk 4800000 33.0 828000 ].

Definition ANEXO_V : SimplesAnnex.t :=
  SimplesAnnex.mk "Anexo V - Serviços (Intelectuais, Tecnologia)"
    [ SimplesTableRange.mk 180000 15.5 0;
      SimplesTableRange.mk 360000 18.0 4500;
      SimplesTableRange.mk 720000 19.5 9900;
      SimplesTableRange.mk 1800000 20.5 17100;
      SimplesTableRange.mk 3600000 23.0 62100;
      SimplesTableRange.mk 4800000 30.5 540000 ].

Definition ALL_ANEXOS : list SimplesAnnex.t :=
  [ANEXO_I; ANEXO_II; ANEXO_III; ANEXO_IV; ANEXO_V].

(** ** utils/calculations.ts *)

Definition THRESHOLD_ADICIONAL_IRPJ : Q := 240000.

Definition isComercioIndustria (activity : ActivityType) : bool :=
  match activity with
  | COMERCIO | INDUSTRIA => true
  | _ => false
  end.

(** *** Simples Nacional *)

Module Simples.
Section calculateSimples.
Variables (data : FinancialData.t) (activity : ActivityType).

Local Abbreviation revenueAnnual := (FinancialData.revenueAnnual data).
Local Abbreviation payrollBase := (FinancialData.payrollBase data).

Definition emptyDetailed : TaxDetailedBreakdown.t :=
  {| TaxDetailedBreakdown.pis := 0; TaxDetailedBreakdown.cofins := 0;
     TaxDetailedBreakdown.irpj := 0; TaxDetailedBreakdown.irpjAdicional := 0;
     TaxDetailedBreakdown.csll := 0; TaxDetailedBreakdown.ipi := 0;
     TaxDetailedBreakdown.iss := 0; TaxDetailedBreakdown.icms := 0;
     TaxDetailedBreakdown.rat := 0; TaxDetailedBreakdown.cpp := 0;
     TaxDetailedBreakdown.inssTerceiros := 0; TaxDetailedBreakdown.fgts := 0;
     TaxDetailedBreakdown.simplesDAS := 0;
     TaxDetailedBreakdown.pisFinancial := 0;
     TaxDetailedBreakdown.cofinsFinancial := 0;
     TaxDetailedBreakdown.ibs := None; TaxDetailedBreakdown.cbs := None;
     TaxDetailedBreakdown.selectiveTax := None |}.

(** The early return of the calculator. *)
Definition blockedResult : Result.t :=
  {| Result.regime := SimplesNacional;
     Result.totalTax := 0;
     Result.effectiveRate := JS.Fin 0;
     Result.breakdown :=
       {| TaxBreakdown.taxSales := 0; TaxBreakdown.taxIncome := 0;
          TaxBreakdown.taxPayroll := 0; TaxBreakdown.charges := 0 |};
     Result.detailed := emptyDetailed;
     Result.details := [];
     Result.isBlocked := Some true;
     Result.notes := Some [NoteExcedeLimite revenueAnnual SIMPLES_LIMIT] |}.

Definition CHARGES_LABOR_ONLY_PCT : Q := 0.1911.
Definition payrollTotalEst : Q := payrollBase * (1 + CHARGES_LABOR_ONLY_PCT).

(** The quotient is exact; the source rounds the uplifted payroll and the
    quotient to doubles, so within a rounding error of 0.28 the comparison in
    [annex] can differ from the one made here. *)
Definition factorR : Q :=
  match activity with
  | SERVICO_ANEXO_V =>
      if JS.gt revenueAnnual 0 then payrollTotalEst / revenueAnnual else 0
  | _ => 0
  end.

Definition annex : SimplesAnnex.t :=
  match activity with
  | COMERCIO => ANEXO_I
  | INDUSTRIA => ANEXO_II
  | SERVICO_ANEXO_III => ANEXO_III
  | SERVICO_ANEXO_IV => ANEXO_IV
  | SERVICO_ANEXO_V => if JS.ge factorR 0.28 then ANEXO_III else ANEXO_V
  end.

Definition rbt12 : Q := revenueAnnual.

(** [annex.ranges.find(r => rbt12 <= r.limit)]. *)
Definition found : option SimplesTableRange.t :=
  find (fun r => JS.le rbt12 (SimplesTableRange.limit r))
       (SimplesAnnex.ranges annex).

(** [found || annex.ranges[annex.ranges.length - 1]]; the five tables are
    not empty, so the default of [last] is never returned
    ([annex_ranges_not_nil]). *)
Definition range : SimplesTableRange.t :=
  match found with
  | Some r => r
  | None => last (SimplesAnnex.ranges annex) (SimplesTableRange.mk 0 0 0)
  end.

Definition nominalRate : Q :=
  if JS.gt rbt12 0 then
    ((rbt12 * (SimplesTableRange.aliquota range / 100))
     - SimplesTableRange.deducao range) / rbt12
  else 0.

Definition dasTax : Q := revenueAnnual * nominalRate.

Definition fgtsAmount : Q := payrollBase * 0.08.

Definition cppAmount : Q :=
  match activity with
  | SERVICO_ANEXO_IV => payrollBase * 0.278
  | _ => 0
  end.

Definition totalTax : Q := dasTax + cppAmount + fgtsAmount.

Definition detailed : TaxDetailedBreakdown.t :=
  {| TaxDetailedBreakdown.pis := 0; TaxDetailedBreakdown.cofins := 0;
     TaxDetailedBreakdown.irpj := 0; TaxDetailedBreakdown.irpjAdicional := 0;
     TaxDetailedBreakdown.csll := 0; TaxDetailedBreakdown.ipi := 0;
     TaxDetailedBreakdown.iss := 0; TaxDetailedBreakdown.icms := 0;
     TaxDetailedBreakdown.rat := 0; TaxDetailedBreakdown.cpp := cppAmount;
     TaxDetailedBreakdown.inssTerceiros := 0;
     TaxDetailedBreakdown.fgts := fgtsAmount;
     TaxDetailedBreakdown.simplesDAS := dasTax;
     TaxDetailedBreakdown.pisFinancial := 0;
     TaxDetailedBreakdown.cofinsFinancial := 0;
     TaxDetailedBreakdown.ibs := None; TaxDetailedBreakdown.cbs := None;
     TaxDetailedBreakdown.selectiveTax := None |}.

Definition calculateSimples : Result.t :=
  if JS.gt revenueAnnual SIMPLES_LIMIT then blockedResult
  else
    {| Result.regime := SimplesNacional;
       Result.totalTax := dasTax + cppAmount + fgtsAmount;
       Result.effectiveRate :=
         JS.mul (JS.div (dasTax + cppAmount + fgtsAmount) revenueAnnual) 100;
       Result.breakdown :=
         {| TaxBreakdown.taxSales := dasTax;
            TaxBreakdown.taxIncome := 0;
            TaxBreakdown.taxPayroll := cppAmount;
            TaxBreakdown.charges := fgtsAmount + cppAmount |};
       Result.detailed := detailed;
       Result.details :=
         [ (("Anexo: " ++ SimplesAnnex.name annex)%string, 0);
           ("DAS (Guia Única)"%string, dasTax);
           ("FGTS"%string, fgtsAmount);
           match activity with
           | SERVICO_ANEXO_IV =>
               ("INSS Patronal (Externo ao DAS)"%string, cppAmount)
           | _ => ("INSS Patronal (Incluso no DAS)"%string, 0)
           end ];
       Result.notes :=
         Some (if JS.ge factorR 0.28
                  && match activity with SERVICO_ANEXO_V => true | _ => false end
               then [NoteFatorR] else []);
       Result.isBlocked := None |}.

End calculateSimples.
End Simples.

(** *** Lucro Presumido *)

Module Presumido.
Section calculatePresumido.
Variables (data : FinancialData.t) (activity : ActivityType)
          (config : TaxRateConfig.t).

Local Abbreviation revenueAnnual := (FinancialData.revenueAnnual data).
Local Abbreviation payrollBase := (FinancialData.payrollBase data).
Local Abbreviation financialRevenues := (FinancialData.financialRevenues data).

Definition fgtsRate : Q := TaxRateConfig.fgts config / 100.

Definition cppVal : Q := payrollBase * (TaxRateConfig.cpp config / 100).
Definition ratVal : Q := payrollBase * (TaxRateConfig.rat config / 100).
Definition terceirosVal : Q :=
  payrollBase * (TaxRateConfig.inssTerceiros config / 100).
Definition fgtsVal : Q := payrollBase * fgtsRate.

Definition cppAmount : Q := cppVal + ratVal + terceirosVal.
Definition chargesAmount : Q := cppAmount + fgtsVal.

Definition calculationBase : Q := revenueAnnual.

Definition percentualPresuncaoIRPJ : Q :=
  TaxRateConfig.presuncaoIRPJ config / 100.
Definition percentualPresuncaoCSLL : Q :=
  TaxRateConfig.presuncaoCSLL config / 100.

Definition baseIRPJ : Q :=
  (calculationBase * percentualPresuncaoIRPJ) + financialRevenues.
Definition baseCSLL : Q :=
  (calculationBase * percentualPresuncaoCSLL) + financialRevenues.

Definition irpjBasico : Q := baseIRPJ * (TaxRateConfig.irpj config / 100).
Definition irpjAdicional : Q :=
  Qmax 0 (baseIRPJ - THRESHOLD_ADICIONAL_IRPJ)
  * (TaxRateConfig.irpjAdicional config / 100).
Definition totalIRPJ : Q := irpjBasico + irpjAdicional.
Definition totalCSLL : Q := baseCSLL * (TaxRateConfig.csll config / 100).

Definition pis : Q := calculationBase * (TaxRateConfig.pis config / 100).
Definition cofins : Q :=
  calculationBase * (TaxRateConfig.cofins config / 100).
Definition ipi : Q := calculationBase * (TaxRateConfig.ipi config / 100).

Definition iss : Q :=
  if negb (isComercioIndustria activity)
  then calculationBase * (TaxRateConfig.iss config / 100) else 0.
Definition icms : Q :=
  if isComercioIndustria activity
  then calculationBase * (TaxRateConfig.icms config / 100) else 0.

Definition totalSalesTax : Q := pis + cofins + iss + icms + ipi.
Definition totalTax : Q :=
  totalIRPJ + totalCSLL + totalSalesTax + cppAmount + fgtsVal.

Definition detailed : TaxDetailedBreakdown.t :=
  {| TaxDetailedBreakdown.pis := pis;
     TaxDetailedBreakdown.cofins := cofins;
     TaxDetailedBreakdown.irpj := irpjBasico;
     TaxDetailedBreakdown.irpjAdicional := irpjAdicional;
     TaxDetailedBreakdown.csll := totalCSLL;
     TaxDetailedBreakdown.ipi := ipi;
     TaxDetailedBreakdown.iss := iss;
     TaxDetailedBreakdown.icms := icms;
     TaxDetailedBreakdown.cpp := cppVal;
     TaxDetailedBreakdown.rat := ratVal;
     TaxDetailedBreakdown.inssTerceiros := terceirosVal;
     TaxDetailedBreakdown.fgts := fgtsVal;
     TaxDetailedBreakdown.simplesDAS := 0;
     TaxDetailedBreakdown.pisFinancial := 0;
     TaxDetailedBreakdown.cofinsFinancial := 0;
     TaxDetailedBreakdown.ibs := None; TaxDetailedBreakdown.cbs := None;
     TaxDetailedBreakdown.selectiveTax := None |}.

Definition calculatePresumido : Result.t :=
  {| Result.regime := LucroPresumido;
     Result.totalTax := totalTax;
     Result.effectiveRate := JS.mul (JS.div totalTax revenueAnnual) 100;
     Result.breakdown :=
       {| TaxBreakdown.taxSales := totalSalesTax;
          TaxBreakdown.taxIncome := totalIRPJ + totalCSLL;
          TaxBreakdown.taxPayroll := cppAmount;
          TaxBreakdown.charges := chargesAmount |};
     Result.detailed := detailed;
     Result.details :=
       [ ("PIS/COFINS"%string, pis + cofins);
         ("IRPJ/CSLL"%string, totalIRPJ + totalCSLL);
         ("ISS/ICMS/IPI"%string, iss + icms + ipi);
         ("INSS Patronal"%string, cppAmount);
         ("FGTS"%string, fgtsVal) ];
     Result.notes := None;
     Result.isBlocked := None |}.

End calculatePresumido.
End Presumido.

(** *** Lucro Real *)

(** The type of the parameter [lalurAdjustments]; where the source omits
    the argument it is [{ additions: 0, exclusions: 0 }]. *)
Module LalurAdjustments.
Record t : Type := mk { additions : Q; exclusions : Q }.
End LalurAdjustments.

Module Real.
Section calculateReal.
Variables (data : FinancialData.t) (activity : ActivityType)
          (config : TaxRateConfig.t) (lalurAdjustments : LalurAdjustments.t).

Local Abbreviation revenueAnnual := (FinancialData.revenueAnnual data).
Local Abbreviation deductions := (FinancialData.deductions data).
Local Abbreviation payrollBase := (FinancialData.payrollBase data).
Local Abbreviation financialRevenues := (FinancialData.financialRevenues data).
Local Abbreviation financialExpenses := (FinancialData.financialExpenses data).
Local Abbreviation additions := (LalurAdjustments.additions lalurAdjustments).
Local Abbreviation exclusions := (LalurAdjustments.exclusions lalurAdjustments).

Definition fgtsRate : Q := TaxRateConfig.fgts config / 100.

Definition cppVal : Q := payrollBase * (TaxRateConfig.cpp config / 100).
Definition ratVal : Q := payrollBase * (TaxRateConfig.rat config / 100).
Definition terceirosVal : Q :=
  payrollBase * (TaxRateConfig.inssTerceiros config / 100).
Definition fgtsVal : Q := payrollBase * fgtsRate.

Definition cppAmount : Q := cppVal + ratVal + terceirosVal.
Definition chargesAmount : Q := cppAmount + fgtsVal.

Definition pisRate : Q := TaxRateConfig.pis config / 100.
Definition cofinsRate : Q := TaxRateConfig.cofins config / 100.

Definition revenueBase : Q := Qmax 0 (revenueAnnual - deductions).
Definition debitoPis : Q := revenueBase * pisRate.
Definition debitoCofins : Q := revenueBase * cofinsRate.

Definition creditBase : Q :=
  match FinancialData.realCreditBase data with
  | Some override => override
  | None =>
      if isComercioIndustria activity then FinancialData.cogs data
      else FinancialData.expenses data * 0.20
  end.

Definition creditoPis : Q := creditBase * pisRate.
Definition creditoCofins : Q := creditBase * cofinsRate.

Definition pisPayable : Q := Qmax 0 (debitoPis - creditoPis).
Definition cofinsPayable : Q := Qmax 0 (debitoCofins - creditoCofins).

Definition pisFinRate : Q :=
  JS.or_zero (TaxRateConfig.pisFinancial config) / 100.
Definition cofinsFinRate : Q :=
  JS.or_zero (TaxRateConfig.cofinsFinancial config) / 100.
Definition pisFinancial : Q := financialRevenues * pisFinRate.
Definition cofinsFinancial : Q := financialRevenues * cofinsFinRate.
Definition totalFinancialTaxes : Q := pisFinancial + cofinsFinancial.

Definition ipi : Q := revenueAnnual * (TaxRateConfig.ipi config / 100).
Definition iss : Q :=
  if negb (isComercioIndustria activity)
  then revenueAnnual * (TaxRateConfig.iss config / 100) else 0.
Definition icms : Q :=
  if isComercioIndustria activity
  then revenueAnnual * (TaxRateConfig.icms config / 100) else 0.

Definition totalSalesTax : Q := pisPayable + cofinsPayable + iss + icms + ipi.

Definition netRevenue : Q := revenueAnnual - deductions - totalSalesTax.
Definition totalDeductibleExpenses : Q :=
  FinancialData.cogs data + FinancialData.expenses data + payrollBase
  + chargesAmount.
Definition operationalResult : Q := netRevenue - totalDeductibleExpenses.

Definition financialResult : Q :=
  financialRevenues - totalFinancialTaxes - financialExpenses.
Definition profitBeforeTax : Q := operationalResult + financialResult.

Definition taxableIncome : Q :=
  Qmax 0 (profitBeforeTax + additions - exclusions).

Definition irpjBasico : Q := taxableIncome * (TaxRateConfig.irpj config / 100).
Definition irpjAdicional : Q :=
  Qmax 0 (taxableIncome - THRESHOLD_ADICIONAL_IRPJ)
  * (TaxRateConfig.irpjAdicional config / 100).
Definition totalIRPJ : Q := irpjBasico + irpjAdicional.
Definition totalCSLL : Q := taxableIncome * (TaxRateConfig.csll config / 100).

Definition totalTax : Q :=
  totalIRPJ + totalCSLL + totalSalesTax + totalFinancialTaxes + cppAmount
  + fgtsVal.

Definition detailed : TaxDetailedBreakdown.t :=
  {| TaxDetailedBreakdown.pis := pisPayable;
     TaxDetailedBreakdown.cofins := cofinsPayable;
     TaxDetailedBreakdown.irpj := irpjBasico;
     TaxDetailedBreakdown.irpjAdicional := irpjAdicional;
     TaxDetailedBreakdown.csll := totalCSLL;
     TaxDetailedBreakdown.ipi := ipi;
     TaxDetailedBreakdown.iss := iss;
     TaxDetailedBreakdown.icms := icms;
     TaxDetailedBreakdown.cpp := cppVal;
     TaxDetailedBreakdown.rat := ratVal;
     TaxDetailedBreakdown.inssTerceiros := terceirosVal;
     TaxDetailedBreakdown.fgts := fgtsVal;
     TaxDetailedBreakdown.simplesDAS := 0;
     TaxDetailedBreakdown.pisFinancial := pisFinancial;
     TaxDetailedBreakdown.cofinsFinancial := cofinsFinancial;
     TaxDetailedBreakdown.ibs := None; TaxDetailedBreakdown.cbs := None;
     TaxDetailedBreakdown.selectiveTax := None |}.

Definition notes : list Note :=
  (if JS.le taxableIncome 0 then [NotePrejuizoFiscal] else [])
  ++ (if JS.gt additions 0 then [NoteAdicoesLALUR additions] else [])
  ++ (if JS.gt exclusions 0 then [NoteExclusoesLALUR exclusions] else []).

Definition calculateReal : Result.t :=
  {| Result.regime := LucroReal;
     Result.totalTax := totalTax;
     Result.effectiveRate := JS.mul (JS.div totalTax revenueAnnual) 100;
     Result.breakdown :=
       {| TaxBreakdown.taxSales := totalSalesTax;
          TaxBreakdown.taxIncome := totalIRPJ + totalCSLL;
          TaxBreakdown.taxPayroll := cppAmount;
          TaxBreakdown.charges := chargesAmount |};
     Result.detailed := detailed;
     Result.details :=
       [ ("PIS/COFINS (Liq)"%string, pisPayable + cofinsPayable);
         ("PIS/COFINS (Fin)"%string, totalFinancialTaxes);
         ("IRPJ/CSLL"%string, totalIRPJ + totalCSLL);
         ("ISS/ICMS"%string, iss + icms);
         ("INSS Patronal"%string, cppAmount);
         ("FGTS"%string, fgtsVal) ];
     Result.notes := Some notes;
     Result.isBlocked := None |}.

End calculateReal.
End Real.

(** *** Reforma Tributaria (IBS + CBS) *)

Module Reform.
Section calculateReform.
Variables (data : FinancialData.t) (displayLines : list DRELineItem.t)
          (reformConfig : ReformConfig.t) (currentBestScenario : Result.t).

Local Abbreviation ibsRate := (ReformConfig.ibsRate reformConfig).
Local Abbreviation cbsRate := (ReformConfig.cbsRate reformConfig).

Definition revenueBase : Q :=
  Qmax 0 (FinancialData.revenueAnnual data - FinancialData.deductions data).

Definition ibsDebit : Q := revenueBase * (ibsRate / 100).
Definition cbsDebit : Q := revenueBase * (cbsRate / 100).
Definition selectiveTax : Q :=
  revenueBase * (ReformConfig.selectiveTaxRate reformConfig / 100).

(** [line.lineType === 'ANALYTICAL' &&
     (line.tag === 'CUSTO' || line.tag === 'DESPESA')]. *)
Definition isCostOrExpense (line : DRELineItem.t) : bool :=
  match DRELineItem.lineType line, DRELineItem.tag line with
  | ANALYTICAL, Some CUSTO | ANALYTICAL, Some DESPESA => true
  | _, _ => false
  end.

Definition creditRate (line : DRELineItem.t) : Q :=
  match DRELineItem.reformCreditRate line with
  | Some r => r
  | None => 0
  end.

Definition eligibleBase (line : DRELineItem.t) : Q :=
  Qabs (DRELineItem.value line) * (creditRate line / 100).

(** The body of the [forEach]; the state is the pair of the accumulators
    [ibsCredit] and [cbsCredit].  The additions are exact; the source rounds
    each to a double, in the order of the lines. *)
Definition accumulate (acc : Q * Q) (line : DRELineItem.t) : Q * Q :=
  if isCostOrExpense line then
    if JS.gt (creditRate line) 0 then
      (fst acc + eligibleBase line * (ibsRate / 100),
       snd acc + eligibleBase line * (cbsRate / 100))
    else acc
  else acc.

Definition credits : Q * Q := fold_left accumulate displayLines (0, 0).
Definition ibsCredit : Q := fst credits.
Definition cbsCredit : Q := snd credits.

Definition ibsPayable : Q := Qmax 0 (ibsDebit - ibsCredit).
Definition cbsPayable : Q := Qmax 0 (cbsDebit - cbsCredit).
Definition totalIVA : Q := ibsPayable + cbsPayable + selectiveTax.

Definition taxIncome : Q :=
  TaxBreakdown.taxIncome (Result.breakdown currentBestScenario).
Definition taxPayroll : Q :=
  TaxBreakdown.taxPayroll (Result.breakdown currentBestScenario).
Definition charges : Q :=
  TaxBreakdown.charges (Result.breakdown currentBestScenario).

Definition totalTax : Q := totalIVA + taxIncome + taxPayroll + charges.

Definition detailed : TaxDetailedBreakdown.t :=
  {| TaxDetailedBreakdown.pis := 0; TaxDetailedBreakdown.cofins := 0;
     TaxDetailedBreakdown.irpj := 0; TaxDetailedBreakdown.irpjAdicional := 0;
     TaxDetailedBreakdown.csll := 0; TaxDetailedBreakdown.ipi := 0;
     TaxDetailedBreakdown.iss := 0; TaxDetailedBreakdown.icms := 0;
     TaxDetailedBreakdown.rat := 0; TaxDetailedBreakdown.cpp := 0;
     TaxDetailedBreakdown.inssTerceiros := 0; TaxDetailedBreakdown.fgts := 0;
     TaxDetailedBreakdown.simplesDAS := 0;
     TaxDetailedBreakdown.pisFinancial := 0;
     TaxDetailedBreakdown.cofinsFinancial := 0;
     TaxDetailedBreakdown.ibs := Some ibsPayable;
     TaxDetailedBreakdown.cbs := Some cbsPayable;
     TaxDetailedBreakdown.selectiveTax := Some selectiveTax |}.

Definition calculateReform : ReformResult.t :=
  {| ReformResult.base :=
       {| Result.regime := ReformaTributaria;
          Result.totalTax := totalTax;
          Result.effectiveRate :=
            JS.mul (JS.div totalTax (FinancialData.revenueAnnual data)) 100;
          Result.breakdown :=
            {| TaxBreakdown.taxSales := totalIVA;
               TaxBreakdown.taxIncome := taxIncome;
               TaxBreakdown.taxPayroll := taxPayroll;
               TaxBreakdown.charges := charges |};
          Result.detailed := detailed;
          Result.details :=
            [ ("IBS a Pagar"%string, ibsPayable);
              ("CBS a Pagar"%string, cbsPayable);
              ("Imposto Seletivo"%string, selectiveTax);
              ("Créditos Tomados"%string, ibsCredit + cbsCredit);
              ("IRPJ/CSLL (Estimado)"%string, taxIncome) ];
          Result.notes := None;
          Result.isBlocked := None |};
     ReformResult.totalCredits := ibsCredit + cbsCredit;
     ReformResult.debitIBS := ibsDebit;
     ReformResult.debitCBS := cbsDebit;
     ReformResult.creditIBS := ibsCredit;
     ReformResult.creditCBS := cbsCredit |}.

End calculateReform.
End Reform.

(** ** components/Dashboard.tsx: the [results] memo *)

Definition DEFAULT_PRESUMIDO_CONFIG : TaxRateConfig.t :=
  {| TaxRateConfig.pis := 0.65; TaxRateConfig.cofins := 3.00;
     TaxRateConfig.irpj := 15.00; TaxRateConfig.irpjAdicional := 10.00;
     TaxRateConfig.csll := 9.00; TaxRateConfig.ipi := 0.00;
     TaxRateConfig.iss := 5.00; TaxRateConfig.icms := 18.00;
     TaxRateConfig.rat := 2.00; TaxRateConfig.cpp := 20.00;
     TaxRateConfig.inssTerceiros := 5.80; TaxRateConfig.fgts := 8.00;
     TaxRateConfig.presuncaoIRPJ := 32.00;
     TaxRateConfig.presuncaoCSLL := 32.00;
     TaxRateConfig.pisFinancial := 0; TaxRateConfig.cofinsFinancial := 0 |}.

Definition DEFAULT_REAL_CONFIG : TaxRateConfig.t :=
  {| TaxRateConfig.pis := 1.65; TaxRateConfig.cofins := 7.60;
     TaxRateConfig.irpj := 15.00; TaxRateConfig.irpjAdicional := 10.00;
     TaxRateConfig.csll := 9.00; TaxRateConfig.ipi := 0.00;
     TaxRateConfig.iss := 5.00; TaxRateConfig.icms := 18.00;
     TaxRateConfig.rat := 2.00; TaxRateConfig.cpp := 20.00;
     TaxRateConfig.inssTerceiros := 5.80; TaxRateConfig.fgts := 8.00;
     TaxRateConfig.presuncaoIRPJ := 0; TaxRateConfig.presuncaoCSLL := 0;
     TaxRateConfig.pisFinancial := 0.65;
     TaxRateConfig.cofinsFinancial := 4.00 |}.

Definition DEFAULT_REFORM_CONFIG : ReformConfig.t :=
  {| ReformConfig.ibsRate := 17.5; ReformConfig.cbsRate := 9.0;
     ReformConfig.selectiveTaxRate := 0;
     ReformConfig.standardCreditRate := 100 |}.

Module Dashboard.

(** The callback of the [reduce] that totals the LALUR adjustments.  The
    additions are exact; the source rounds each to a double, in the order of
    the lines. *)
Definition addAdjustment (acc : LalurAdjustments.t) (curr : DRELineItem.t)
  : LalurAdjustments.t :=
  match DRELineItem.lalurAdjustment curr with
  | Some ADDITION =>
      {| LalurAdjustments.additions :=
           LalurAdjustments.additions acc + Qabs (DRELineItem.value curr);
         LalurAdjustments.exclusions := LalurAdjustments.exclusions acc |}
  | Some EXCLUSION =>
      {| LalurAdjustments.additions := LalurAdjustments.additions acc;
         LalurAdjustments.exclusions :=
           LalurAdjustments.exclusions acc + Qabs (DRELineItem.value curr) |}
  | None => acc
  end.

(** [l.lineType === 'ANALYTICAL' && l.lalurAdjustment]. *)
Definition hasAdjustment (l : DRELineItem.t) : bool :=
  match DRELineItem.lineType l, DRELineItem.lalurAdjustment l with
  | ANALYTICAL, Some _ => true
  | _, _ => false
  end.

Definition lalurAdjustments (displayLines : list DRELineItem.t)
  : LalurAdjustments.t :=
  fold_left addAdjustment (filter hasAdjustment displayLines)
            {| LalurAdjustments.additions := 0;
               LalurAdjustments.exclusions := 0 |}.

(** [(prev, curr) => prev.totalTax < curr.totalTax ? prev : curr]. *)
Definition cheaper (prev curr : Result.t) : Result.t :=
  if JS.lt (Result.totalTax prev) (Result.totalTax curr) then prev else curr.

(** [[simples, presumido, real].filter(r => !r.isBlocked)]. *)
Definition allCurrent (simples presumido real : Result.t) : list Result.t :=
  filter (fun r => negb (JS.truthy (Result.isBlocked r)))
         [simples; presumido; real].

(** [allCurrent.length > 0 ? allCurrent.reduce(cheaper) : real]; a [reduce]
    with no initial value starts from the first element. *)
Definition bestCurrent (simples presumido real : Result.t) : Result.t :=
  match allCurrent simples presumido real with
  | [] => real
  | first :: rest => fold_left cheaper rest first
  end.

Module Results.
Record t : Type := mk {
  simples : Result.t;
  presumido : Result.t;
  real : Result.t;
  reform : ReformResult.t;
  allCurrent : list Result.t;
  bestCurrent : Result.t;
  lalurAdjustments : LalurAdjustments.t
}.
End Results.

Definition results (editableData : FinancialData.t)
    (activityType : ActivityType)
    (presumidoConfig realConfig : TaxRateConfig.t)
    (reformConfig : ReformConfig.t) (displayLines : list DRELineItem.t)
  : Results.t :=
  let lalur := lalurAdjustments displayLines in
  let simples := Simples.calculateSimples editableData activityType in
  let presumido :=
    Presumido.calculatePresumido editableData activityType presumidoConfig in
  let real :=
    Real.calculateReal editableData activityType realConfig lalur in
  let best := bestCurrent simples presumido real in
  {| Results.simples := simples;
     Results.presumido := presumido;
     Results.real := real;
     Results.reform :=
       Reform.calculateReform editableData displayLines reformConfig best;
     Results.allCurrent := allCurrent simples presumido real;
     Results.bestCurrent := best;
     Results.lalurAdjustments := lalur |}.

End Dashboard.

(** ** components/Dashboard.tsx: classification, totals and line edits *)

(** An element of [data.originalLines] as it arrives from the parsed JSON:
    [tag], [lineType] and [lalurAdjustment] may be missing. *)
Module RawLine.
Record t : Type := mk {
  description : string;
  value : Q;
  isTotal : bool;
  section : StatementSection;
  level : Z;
  tag : option LineTag;
  lineType : option LineType;
  useForCredit : option bool;
  reformCreditRate : option Q;
  lalurAdjustment : option LalurAdjustment
}.
End RawLine.

Definition LineTag_eqb (a b : LineTag) : bool :=
  match a, b with
  | RECEITA, RECEITA | DEDUCAO, DEDUCAO | IMPOSTO_VENDA, IMPOSTO_VENDA
  | IRPJ_CSLL, IRPJ_CSLL | FOLHA, FOLHA | CUSTO, CUSTO | DESPESA, DESPESA
  | REC_FIN, REC_FIN | DESP_FIN, DESP_FIN | OUTROS, OUTROS
  | IGNORE, IGNORE => true
  | _, _ => false
  end.

(** [s.includes(sub)]. *)
Fixpoint includes (s sub : string) : bool :=
  if String.prefix sub s then true
  else match s with
       | EmptyString => false
       | String _ rest => includes rest sub
       end.

Module Init.
Section init.
(** [String.prototype.toUpperCase], a built-in of the platform. *)
Variable toUpperCase : string -> string.

(** The tag computed by the callback of [data.originalLines.map]. *)
Definition inferTag (line : RawLine.t) : LineTag :=
  let tag := match RawLine.tag line with Some t => t | None => OUTROS end in
  let desc := toUpperCase (RawLine.description line) in
  if LineTag_eqb tag OUTROS
     || match RawLine.tag line with Some _ => false | None => true end
  then
    if includes desc "RECEITA BRUTA" || includes desc "VENDAS"
       || includes desc "SERVIÇOS PRESTADOS" then RECEITA
    else if includes desc "DEVOLU" || includes desc "CANCELAMENTO"
            || includes desc "ABATIMENTO" then DEDUCAO
    else if includes desc "SIMPLES" || includes desc "PIS"
            || includes desc "COFINS" || includes desc "ICMS"
            || includes desc "ISS" then IMPOSTO_VENDA
    else if includes desc "IMPOSTO DE RENDA" || includes desc "IRPJ"
            || includes desc "CSLL" then IRPJ_CSLL
    else if includes desc "FOLHA" || includes desc "SALÁRIOS"
            || includes desc "PRÓ-LABORE" then FOLHA
    else if includes desc "CUSTO" || includes desc "CMV"
            || includes desc "CSP" then CUSTO
    else if includes desc "FINANCEIRA" || includes desc "JUROS" then
      if JS.gt (RawLine.value line) 0 then REC_FIN else DESP_FIN
    else if JS.lt (RawLine.value line) 0 && negb (RawLine.isTotal line)
    then DESPESA
    else tag
  else tag.

(** [line.lineType || (line.isTotal ? 'SYNTHETIC' : 'ANALYTICAL')]. *)
Definition inferredType (line : RawLine.t) : LineType :=
  match RawLine.lineType line with
  | Some t => t
  | None => if RawLine.isTotal line then SYNTHETIC else ANALYTICAL
  end.

(** [{ ...line, tag, lineType: inferredType, lalurAdjustment,
       reformCreditRate: 0 }]. *)
Definition initialLine (line : RawLine.t) : DRELineItem.t :=
  {| DRELineItem.description := RawLine.description line;
     DRELineItem.value := RawLine.value line;
     DRELineItem.isTotal := RawLine.isTotal line;
     DRELineItem.section := RawLine.section line;
     DRELineItem.level := RawLine.level line;
     DRELineItem.tag := Some (inferTag line);
     DRELineItem.lineType := inferredType line;
     DRELineItem.useForCredit := RawLine.useForCredit line;
     DRELineItem.reformCreditRate := Some 0;
     DRELineItem.lalurAdjustment := RawLine.lalurAdjustment line |}.

Definition initialLines (originalLines : list RawLine.t)
  : list DRELineItem.t :=
  map initialLine originalLines.

End init.
End Init.

Module Ledger.

Definition isAnalytical (l : DRELineItem.t) : bool :=
  match DRELineItem.lineType l with ANALYTICAL => true | SYNTHETIC => false end.

(** [l.tag === tag]. *)
Definition hasTag (tag : LineTag) (l : DRELineItem.t) : bool :=
  match DRELineItem.tag l with
  | Some t => LineTag_eqb t tag
  | None => false
  end.

(** [(acc, curr) => acc + Math.abs(curr.value)].  The addition is exact; the
    source rounds it to a double, so the totals [sumByTag] and [creditBase]
    are those of the source up to the rounding of each step, taken in the
    order of the lines. *)
Definition addAbs (acc : Q) (curr : DRELineItem.t) : Q :=
  acc + Qabs (DRELineItem.value curr).

Definition sumByTag (lines : list DRELineItem.t) (tag : LineTag) : Q :=
  fold_left addAbs (filter (fun l => hasTag tag l && isAnalytical l) lines) 0.

(** [l.useForCredit && (l.tag === 'DESPESA' || l.tag === 'CUSTO')
     && l.lineType === 'ANALYTICAL']. *)
Definition countsForCredit (l : DRELineItem.t) : bool :=
  JS.truthy (DRELineItem.useForCredit l)
  && (hasTag DESPESA l || hasTag CUSTO l)
  && isAnalytical l.

Definition creditBase (lines : list DRELineItem.t) : Q :=
  fold_left addAbs (filter countsForCredit lines) 0.

(** [recalcTotals]: the summary set by [setEditableData]; [data] is the
    property of the component, whose other fields are copied. *)
Definition recalcTotals (data : FinancialData.t) (lines : list DRELineItem.t)
  : FinancialData.t :=
  {| FinancialData.revenueAnnual := sumByTag lines RECEITA;
     FinancialData.revenueCurrent := FinancialData.revenueCurrent data;
     FinancialData.deductions := sumByTag lines DEDUCAO;
     FinancialData.taxesOnSales := sumByTag lines IMPOSTO_VENDA;
     FinancialData.taxesIncome := sumByTag lines IRPJ_CSLL;
     FinancialData.payrollBase := sumByTag lines FOLHA;
     FinancialData.expenses := sumByTag lines DESPESA;
     FinancialData.financialRevenues := sumByTag lines REC_FIN;
     FinancialData.financialExpenses := sumByTag lines DESP_FIN;
     FinancialData.cogs := sumByTag lines CUSTO;
     FinancialData.profitBeforeTax := FinancialData.profitBeforeTax data;
     FinancialData.realCreditBase := Some (creditBase lines) |}.

(** The two pieces of state that the line editor writes. *)
Module State.
Record t : Type := mk {
  displayLines : list DRELineItem.t;
  editableData : FinancialData.t
}.
End State.

(** The pair [(field, value)] of a call of [handleLineChange]. *)
Inductive LineEdit : Type :=
| EditDescription (v : string)
| EditValue (v : Q)
| EditIsTotal (v : bool)
| EditSection (v : StatementSection)
| EditLevel (v : Z)
| EditTag (v : option LineTag)
| EditLineType (v : LineType)
| EditUseForCredit (v : option bool)
| EditReformCreditRate (v : option Q)
| EditLalurAdjustment (v : option LalurAdjustment).

(** [{ ...line, [field]: value }]. *)
Definition applyEdit (e : LineEdit) (l : DRELineItem.t) : DRELineItem.t :=
  let d := DRELineItem.description l in
  let v := DRELineItem.value l in
  let t := DRELineItem.isTotal l in
  let s := DRELineItem.section l in
  let lv := DRELineItem.level l in
  let tg := DRELineItem.tag l in
  let ty := DRELineItem.lineType l in
  let u := DRELineItem.useForCredit l in
  let r := DRELineItem.reformCreditRate l in
  let a := DRELineItem.lalurAdjustment l in
  match e with
  | EditDescription x => DRELineItem.mk x v t s lv tg ty u r a
  | EditValue x => DRELineItem.mk d x t s lv tg ty u r a
  | EditIsTotal x => DRELineItem.mk d v x s lv tg ty u r a
  | EditSection x => DRELineItem.mk d v t x lv tg ty u r a
  | EditLevel x => DRELineItem.mk d v t s x tg ty u r a
  | EditTag x => DRELineItem.mk d v t s lv x ty u r a
  | EditLineType x => DRELineItem.mk d v t s lv tg x u r a
  | EditUseForCredit x => DRELineItem.mk d v t s lv tg ty x r a
  | EditReformCreditRate x => DRELineItem.mk d v t s lv tg ty u x a
  | EditLalurAdjustment x => DRELineItem.mk d v t s lv tg ty u r x
  end.

(** [field !== 'reformCreditRate' && field !== 'lalurAdjustment']. *)
Definition recalculates (e : LineEdit) : bool :=
  match e with
  | EditReformCreditRate _ | EditLalurAdjustment _ => false
  | _ => true
  end.

(** [newLines[index] = x] on a copy of the list, for an index in range. *)
Fixpoint replaceAt (index : nat) (x : DRELineItem.t)
    (lines : list DRELineItem.t) : list DRELineItem.t :=
  match lines, index with
  | [], _ => []
  | _ :: rest, O => x :: rest
  | l :: rest, S i => l :: replaceAt i x rest
  end.

(** [handleLineChange].  The editor calls it with
    [displayLines.indexOf(line)] of a displayed line; at an index outside the
    list the source would store an object that has the edited field only,
    which is no [DRELineItem], and the model returns [None]. *)
Definition handleLineChange (data : FinancialData.t) (st : State.t)
    (index : nat) (e : LineEdit) : option State.t :=
  match nth_error (State.displayLines st) index with
  | None => None
  | Some line =>
      let newLines :=
        replaceAt index (applyEdit e line) (State.displayLines st) in
      Some {| State.displayLines := newLines;
              State.editableData :=
                if recalculates e then recalcTotals data newLines
                else State.editableData st |}
  end.

(** The state after the initialisation of a new simulation:
    [setDisplayLines(initialLines); recalcTotals(initialLines)]. *)
Definition initialState (toUpperCase : string -> string)
    (data : FinancialData.t) (originalLines : list RawLine.t) : State.t :=
  let lines := Init.initialLines toUpperCase originalLines in
  {| State.displayLines := lines;
     State.editableData := recalcTotals data lines |}.

(** The summary agrees with the lines. *)
Definition consistent (data : FinancialData.t) (st : State.t) : Prop :=
  State.editableData st = recalcTotals data (State.displayLines st).

(** The fields of a line that the summary reads. *)
Definition summaryKey (l : DRELineItem.t)
  : option LineTag * LineType * Q * option bool :=
  (DRELineItem.tag l, DRELineItem.lineType l, DRELineItem.value l,
   DRELineItem.useForCredit l).

(** A classified line read again as an element of [originalLines]. *)
Definition asRaw (l : DRELineItem.t) : RawLine.t :=
  {| RawLine.description := DRELineItem.description l;
     RawLine.value := DRELineItem.value l;
     RawLine.isTotal := DRELineItem.isTotal l;
     RawLine.section := DRELineItem.section l;
     RawLine.level := DRELineItem.level l;
     RawLine.tag := DRELineItem.tag l;
     RawLine.lineType := Some (DRELineItem.lineType l);
     RawLine.useForCredit := DRELineItem.useForCredit l;
     RawLine.reformCreditRate := DRELineItem.reformCreditRate l;
     RawLine.lalurAdjustment := DRELineItem.lalurAdjustment l |}.

End Ledger.

(** ** components/Dashboard.tsx: figures computed while rendering *)

Module Render.

(** [x || 1] on a finite number. *)
Definition orOne (x : Q) : Q := if Qeq_bool x 0 then 1 else x.

(** The percentage of the revenue shown beside an amount by [renderDRERow]
    and by [renderRow]:
    [(Math.abs(amount) / (editableData.revenueAnnual || 1)) * 100]. *)
Definition verticalPercent (editableData : FinancialData.t) (amount : Q)
  : JS.number :=
  JS.mul (JS.div (Qabs amount)
                 (orOne (FinancialData.revenueAnnual editableData)))
         100.

(** [renderCurrentVsReformTable]:
    [diff = reform.totalTax - current.totalTax]. *)
Definition diff (res : Dashboard.Results.t) : Q :=
  Result.totalTax (Dashboard.Results.reform res)
  - Result.totalTax (Dashboard.Results.bestCurrent res).

(** [isSaving = diff < 0]. *)
Definition isSaving (res : Dashboard.Results.t) : bool :=
  JS.lt (diff res) 0.

End Render.

(** ** Sample inputs

    Concrete inputs on which the properties below are exercised. *)

Module Sample.

Definition noAdjustments : LalurAdjustments.t :=
  {| LalurAdjustments.additions := 0; LalurAdjustments.exclusions := 0 |}.

(** The end-to-end scenario: revenue 1,000,000, cost of goods 300,000,
    expenses 200,000, payroll 150,000, no deductions, no financial items. *)
Definition services : FinancialData.t :=
  {| FinancialData.revenueAnnual := 1000000;
     FinancialData.revenueCurrent := 0;
     FinancialData.deductions := 0;
     FinancialData.taxesOnSales := 0;
     FinancialData.taxesIncome := 0;
     FinancialData.payrollBase := 150000;
     FinancialData.expenses := 200000;
     FinancialData.financialRevenues := 0;
     FinancialData.financialExpenses := 0;
     FinancialData.cogs := 300000;
     FinancialData.profitBeforeTax := 0;
     FinancialData.realCreditBase := None |}.

(** A company whose expenses exceed its revenue. *)
Definition lossMaking : FinancialData.t :=
  {| FinancialData.revenueAnnual := 100000;
     FinancialData.revenueCurrent := 0;
     FinancialData.deductions := 0;
     FinancialData.taxesOnSales := 0;
     FinancialData.taxesIncome := 0;
     FinancialData.payrollBase := 50000;
     FinancialData.expenses := 200000;
     FinancialData.financialRevenues := 1000;
     FinancialData.financialExpenses := 3000;
     FinancialData.cogs := 0;
     FinancialData.profitBeforeTax := 0;
     FinancialData.realCreditBase := None |}.

Definition someAdjustments : LalurAdjustments.t :=
  {| LalurAdjustments.additions := 5000;
     LalurAdjustments.exclusions := 2000 |}.

(** Returns and cancellations above the revenue, with the credit base set
    to revenue minus deductions. *)
Definition deductionsAboveRevenue : FinancialData.t :=
  {| FinancialData.revenueAnnual := 100;
     FinancialData.revenueCurrent := 0;
     FinancialData.deductions := 150;
     FinancialData.taxesOnSales := 0;
     FinancialData.taxesIncome := 0;
     FinancialData.payrollBase := 0;
     FinancialData.expenses := 0;
     FinancialData.financialRevenues := 0;
     FinancialData.financialExpenses := 0;
     FinancialData.cogs := 0;
     FinancialData.profitBeforeTax := 0;
     FinancialData.realCreditBase := Some (100 - 150) |}.

(** The end-to-end scenario with every sale creditable. *)
Definition fullCredit : FinancialData.t :=
  {| FinancialData.revenueAnnual := 1000000;
     FinancialData.revenueCurrent := 0;
     FinancialData.deductions := 40000;
     FinancialData.taxesOnSales := 0;
     FinancialData.taxesIncome := 0;
     FinancialData.payrollBase := 150000;
     FinancialData.expenses := 200000;
     FinancialData.financialRevenues := 0;
     FinancialData.financialExpenses := 0;
     FinancialData.cogs := 300000;
     FinancialData.profitBeforeTax := 0;
     FinancialData.realCreditBase := Some 960000 |}.

(** A company with no activity in the year. *)
Definition noActivity : FinancialData.t :=
  {| FinancialData.revenueAnnual := 0;
     FinancialData.revenueCurrent := 0;
     FinancialData.deductions := 0;
     FinancialData.taxesOnSales := 0;
     FinancialData.taxesIncome := 0;
     FinancialData.payrollBase := 0;
     FinancialData.expenses := 0;
     FinancialData.financialRevenues := 0;
     FinancialData.financialExpenses := 0;
     FinancialData.cogs := 0;
     FinancialData.profitBeforeTax := 0;
     FinancialData.realCreditBase := None |}.

(** A result of which only the regime, the total and the block flag
    matter. *)
Definition withTotal (regime : Regime) (total : Q) (blocked : option bool)
  : Result.t :=
  {| Result.regime := regime;
     Result.totalTax := total;
     Result.effectiveRate := JS.Fin 0;
     Result.breakdown :=
       {| TaxBreakdown.taxSales := total; TaxBreakdown.taxIncome := 0;
          TaxBreakdown.taxPayroll := 0; TaxBreakdown.charges := 0 |};
     Result.detailed := Simples.emptyDetailed;
     Result.details := [];
     Result.notes := None;
     Result.isBlocked := blocked |}.

(** An expense line of value -100,000 with a reform credit rate of 50%. *)
Definition expenseLine : DRELineItem.t :=
  {| DRELineItem.description := "Despesas administrativas";
     DRELineItem.value := -100000;
     DRELineItem.isTotal := false;
     DRELineItem.section := DRE;
     DRELineItem.level := 1%Z;
     DRELineItem.tag := Some DESPESA;
     DRELineItem.lineType := ANALYTICAL;
     DRELineItem.useForCredit := None;
     DRELineItem.reformCreditRate := Some 50;
     DRELineItem.lalurAdjustment := None |}.

(** A cost line with a reform credit rate of zero. *)
Definition costLineNoCredit : DRELineItem.t :=
  {| DRELineItem.description := "CMV";
     DRELineItem.value := -300000;
     DRELineItem.isTotal := false;
     DRELineItem.section := DRE;
     DRELineItem.level := 1%Z;
     DRELineItem.tag := Some CUSTO;
     DRELineItem.lineType := ANALYTICAL;
     DRELineItem.useForCredit := None;
     DRELineItem.reformCreditRate := Some 0;
     DRELineItem.lalurAdjustment := None |}.

(** The end-to-end scenario at another revenue. *)
Definition withRevenue (revenue : Q) : FinancialData.t :=
  {| FinancialData.revenueAnnual := revenue;
     FinancialData.revenueCurrent := 0;
     FinancialData.deductions := 0;
     FinancialData.taxesOnSales := 0;
     FinancialData.taxesIncome := 0;
     FinancialData.payrollBase := 150000;
     FinancialData.expenses := 200000;
     FinancialData.financialRevenues := 0;
     FinancialData.financialExpenses := 0;
     FinancialData.cogs := 300000;
     FinancialData.profitBeforeTax := 0;
     FinancialData.realCreditBase := None |}.

(** A summary with a negative revenue. *)
Definition negativeRevenue : FinancialData.t := withRevenue (-1000).

(** A payroll and no revenue. *)
Definition payrollOnly : FinancialData.t := withRevenue 0.

End Sample.

(** ** Vocabulary of the properties *)

(** The sum of a list of amounts. *)
Definition sumQ (l : list Q) : Q := fold_right Qplus 0 l.

(** A line qualifies for reform credit when it is an analytical cost or
    expense line whose credit percentage is positive. *)
Definition qualifiesForCredit (line : DRELineItem.t) : bool :=
  Reform.isCostOrExpense line && JS.gt (Reform.creditRate line) 0.

(** The rate fields of a [TaxRateConfig]. *)
Inductive RateField : Type :=
| F_pis | F_cofins | F_irpj | F_irpjAdicional | F_csll | F_ipi | F_iss
| F_icms | F_rat | F_cpp | F_inssTerceiros | F_fgts | F_presuncaoIRPJ
| F_presuncaoCSLL | F_pisFinancial | F_cofinsFinancial.

Definition getRate (f : RateField) (c : TaxRateConfig.t) : Q :=
  match f with
  | F_pis => TaxRateConfig.pis c
  | F_cofins => TaxRateConfig.cofins c
  | F_irpj => TaxRateConfig.irpj c
  | F_irpjAdicional => TaxRateConfig.irpjAdicional c
  | F_csll => TaxRateConfig.csll c
  | F_ipi => TaxRateConfig.ipi c
  | F_iss => TaxRateConfig.iss c
  | F_icms => TaxRateConfig.icms c
  | F_rat => TaxRateConfig.rat c
  | F_cpp => TaxRateConfig.cpp c
  | F_inssTerceiros => TaxRateConfig.inssTerceiros c
  | F_fgts => TaxRateConfig.fgts c
  | F_presuncaoIRPJ => TaxRateConfig.presuncaoIRPJ c
  | F_presuncaoCSLL => TaxRateConfig.presuncaoCSLL c
  | F_pisFinancial => TaxRateConfig.pisFinancial c
  | F_cofinsFinancial => TaxRateConfig.cofinsFinancial c
  end.

(** [{ ...c, [f]: v }]: the configuration that differs from [c] in the
    field [f] only. *)
Definition setRate (f : RateField) (v : Q) (c : TaxRateConfig.t)
  : TaxRateConfig.t :=
  let pick g := if match f, g with
                   | F_pis, F_pis | F_cofins, F_cofins | F_irpj, F_irpj
                   | F_irpjAdicional, F_irpjAdicional | F_csll, F_csll
                   | F_ipi, F_ipi | F_iss, F_iss | F_icms, F_icms
                   | F_rat, F_rat | F_cpp, F_cpp
                   | F_inssTerceiros, F_inssTerceiros | F_fgts, F_fgts
                   | F_presuncaoIRPJ, F_presuncaoIRPJ
                   | F_presuncaoCSLL, F_presuncaoCSLL
                   | F_pisFinancial, F_pisFinancial
                   | F_cofinsFinancial, F_cofinsFinancial => true
                   | _, _ => false
                   end
                then v else getRate g c in
  {| TaxRateConfig.pis := pick F_pis;
     TaxRateConfig.cofins := pick F_cofins;
     TaxRateConfig.irpj := pick F_irpj;
     TaxRateConfig.irpjAdicional := pick F_irpjAdicional;
     TaxRateConfig.csll := pick F_csll;
     TaxRateConfig.ipi := pick F_ipi;
     TaxRateConfig.iss := pick F_iss;
     TaxRateConfig.icms := pick F_icms;
     TaxRateConfig.rat := pick F_rat;
     TaxRateConfig.cpp := pick F_cpp;
     TaxRateConfig.inssTerceiros := pick F_inssTerceiros;
     TaxRateConfig.fgts := pick F_fgts;
     TaxRateConfig.presuncaoIRPJ := pick F_presuncaoIRPJ;
     TaxRateConfig.presuncaoCSLL := pick F_presuncaoCSLL;
     TaxRateConfig.pisFinancial := pick F_pisFinancial;
     TaxRateConfig.cofinsFinancial := pick F_cofinsFinancial |}.

(** The default actual-profit rates with IRPJ and CSLL at 60% each. *)
Definition heavyIncomeRates : TaxRateConfig.t :=
  setRate F_csll 60 (setRate F_irpj 60 DEFAULT_REAL_CONFIG).

(** Every rate of the configuration is non-negative. *)
Definition nonNegativeRates (c : TaxRateConfig.t) : Prop :=
  forall f, 0 <= getRate f c.

(** Pointwise order on configurations. *)
Definition ratesLe (c c' : TaxRateConfig.t) : Prop :=
  forall f, getRate f c <= getRate f c'.

(** What the breakdown of a current-regime result satisfies: the charges
    are the payroll tax plus the FGTS; the total is sales tax, income tax and
    charges, plus the PIS/COFINS on financial revenue; so the four fields of
    the breakdown add up to that part of the total plus the payroll tax once
    more. *)
Definition chargesContainPayrollTax (x : Result.t) : Prop :=
  let b := Result.breakdown x in
  let det := Result.detailed x in
  TaxBreakdown.charges b
    == TaxBreakdown.taxPayroll b + TaxDetailedBreakdown.fgts det
  /\ Result.totalTax x
       == TaxBreakdown.taxSales b + TaxBreakdown.taxIncome b
          + TaxBreakdown.charges b
          + (TaxDetailedBreakdown.pisFinancial det
             + TaxDetailedBreakdown.cofinsFinancial det)
  /\ TaxBreakdown.taxSales b + TaxBreakdown.taxIncome b
     + TaxBreakdown.taxPayroll b + TaxBreakdown.charges b
     == Result.totalTax x
        - (TaxDetailedBreakdown.pisFinancial det
           + TaxDetailedBreakdown.cofinsFinancial det)
        + TaxBreakdown.taxPayroll b.

(** ** Vocabulary of the further properties *)

(** The amount a line adds to a total that selects lines with [p]. *)
Definition absIf (p : DRELineItem.t -> bool) (l : DRELineItem.t) : Q :=
  if p l then Qabs (DRELineItem.value l) else 0.

(** The sum of the fifteen amounts of a detailed breakdown. *)
Definition detailedTotal (d : TaxDetailedBreakdown.t) : Q :=
  TaxDetailedBreakdown.pis d + TaxDetailedBreakdown.cofins d
  + TaxDetailedBreakdown.irpj d + TaxDetailedBreakdown.irpjAdicional d
  + TaxDetailedBreakdown.csll d + TaxDetailedBreakdown.ipi d
  + TaxDetailedBreakdown.iss d + TaxDetailedBreakdown.icms d
  + TaxDetailedBreakdown.rat d + TaxDetailedBreakdown.cpp d
  + TaxDetailedBreakdown.inssTerceiros d + TaxDetailedBreakdown.fgts d
  + TaxDetailedBreakdown.simplesDAS d + TaxDetailedBreakdown.pisFinancial d
  + TaxDetailedBreakdown.cofinsFinancial d.

(** The sum of the values of the [details] rows of a result. *)
Definition detailsTotal (r : Result.t) : Q :=
  sumQ (map snd (Result.details r)).

(** [{ ...data, realCreditBase: base }]. *)
Definition withCreditBase (base : Q) (data : FinancialData.t)
  : FinancialData.t :=
  {| FinancialData.revenueAnnual := FinancialData.revenueAnnual data;
     FinancialData.revenueCurrent := FinancialData.revenueCurrent data;
     FinancialData.deductions := FinancialData.deductions data;
     FinancialData.taxesOnSales := FinancialData.taxesOnSales data;
     FinancialData.taxesIncome := FinancialData.taxesIncome data;
     FinancialData.payrollBase := FinancialData.payrollBase data;
     FinancialData.expenses := FinancialData.expenses data;
     FinancialData.financialRevenues := FinancialData.financialRevenues data;
     FinancialData.financialExpenses := FinancialData.financialExpenses data;
     FinancialData.cogs := FinancialData.cogs data;
     FinancialData.profitBeforeTax := FinancialData.profitBeforeTax data;
     FinancialData.realCreditBase := Some base |}.

(** The line contributes to no total of the summary. *)
Definition outsideTotals (l : DRELineItem.t) : Prop :=
  DRELineItem.lineType l = SYNTHETIC
  \/ DRELineItem.tag l = None
  \/ DRELineItem.tag l = Some OUTROS
  \/ DRELineItem.tag l = Some IGNORE.

(** Sales taxes, PIS/COFINS on financial revenue and employer charges of
    the actual-profit regime: what the calculator deducts from the profit
    besides the costs. *)
Definition realLevies (data : FinancialData.t) (activity : ActivityType)
    (k : TaxRateConfig.t) : Q :=
  Real.totalSalesTax data activity k + Real.totalFinancialTaxes data k
  + Real.chargesAmount data k.

(** The adjusted profit of the actual-profit regime before those levies. *)
Definition profitBeforeLevies (data : FinancialData.t)
    (adj : LalurAdjustments.t) : Q :=
  FinancialData.revenueAnnual data - FinancialData.deductions data
  - (FinancialData.cogs data + FinancialData.expenses data
     + FinancialData.payrollBase data)
  + FinancialData.financialRevenues data
  - FinancialData.financialExpenses data
  + LalurAdjustments.additions adj - LalurAdjustments.exclusions adj.

(** Income tax, surtax and social contribution on a taxable income. *)
Definition incomeTaxOn (k : TaxRateConfig.t) (t : Q) : Q :=
  t * (TaxRateConfig.irpj k / 100)
  + Qmax 0 (t - 240000) * (TaxRateConfig.irpjAdicional k / 100)
  + t * (TaxRateConfig.csll k / 100).

(** An analytical line flagged with the LALUR adjustment [a]. *)
Definition hasLalur (a : LalurAdjustment) (l : DRELineItem.t) : bool :=
  match DRELineItem.lineType l, DRELineItem.lalurAdjustment l, a with
  | ANALYTICAL, Some ADDITION, ADDITION
  | ANALYTICAL, Some EXCLUSION, EXCLUSION => true
  | _, _, _ => false
  end.

(** ** The reform credit in the words of the specification

    Written from the specification, not from [Reform.accumulate]: the line
    that earns credit is an ANALYTICAL line tagged COST or EXPENSE whose
    credit percentage is greater than zero, and its eligible amount is the
    absolute value of the line times the percentage over 100. *)

Definition creditPercentage (line : DRELineItem.t) : Q :=
  match DRELineItem.reformCreditRate line with
  | Some p => p
  | None => 0
  end.

Definition earnsCreditBySpec (line : DRELineItem.t) : bool :=
  match DRELineItem.lineType line with
  | ANALYTICAL =>
      match DRELineItem.tag line with
      | Some CUSTO | Some DESPESA => JS.gt (creditPercentage line) 0
      | _ => false
      end
  | SYNTHETIC => false
  end.

Definition eligibleAmountBySpec (line : DRELineItem.t) : Q :=
  Qabs (DRELineItem.value line) * (creditPercentage line / 100).

Module SampleLines.

(** A subtotal of the expenses, with a credit rate of 100%. *)
Definition expensesSubtotal : DRELineItem.t :=
  {| DRELineItem.description := "DESPESAS OPERACIONAIS";
     DRELineItem.value := -500000;
     DRELineItem.isTotal := true;
     DRELineItem.section := DRE;
     DRELineItem.level := 0%Z;
     DRELineItem.tag := Some DESPESA;
     DRELineItem.lineType := SYNTHETIC;
     DRELineItem.useForCredit := None;
     DRELineItem.reformCreditRate := Some 100;
     DRELineItem.lalurAdjustment := None |}.

(** A revenue line that carries a credit rate of 50%. *)
Definition revenueWithRate : DRELineItem.t :=
  {| DRELineItem.description := "Receita de vendas";
     DRELineItem.value := 1000000;
     DRELineItem.isTotal := false;
     DRELineItem.section := DRE;
     DRELineItem.level := 1%Z;
     DRELineItem.tag := Some RECEITA;
     DRELineItem.lineType := ANALYTICAL;
     DRELineItem.useForCredit := None;
     DRELineItem.reformCreditRate := Some 50;
     DRELineItem.lalurAdjustment := None |}.

End SampleLines.

(** * Properties *)

(** ** Comparisons and [Math.max] *)

Lemma gt_true_iff (x y : Q) : JS.gt x y = true <-> y < x.
Proof.
  unfold JS.gt. rewrite negb_true_iff, <- not_true_iff_false, Qle_bool_iff.
  split; [apply Qnot_le_lt | apply Qlt_not_le].
Qed.

Lemma gt_false_iff (x y : Q) : JS.gt x y = false <-> x <= y.
Proof.
  unfold JS.gt. rewrite negb_false_iff. apply Qle_bool_iff.
Qed.

Lemma lt_true_iff (x y : Q) : JS.lt x y = true <-> x < y.
Proof. apply (gt_true_iff y x). Qed.

Lemma lt_false_iff (x y : Q) : JS.lt x y = false <-> y <= x.
Proof. apply (gt_false_iff y x). Qed.

Lemma le_true_iff (x y : Q) : JS.le x y = true <-> x <= y.
Proof. apply Qle_bool_iff. Qed.

Lemma le_false_iff (x y : Q) : JS.le x y = false <-> y < x.
Proof.
  unfold JS.le. rewrite <- not_true_iff_false, Qle_bool_iff.
  split; [apply Qnot_le_lt | apply Qlt_not_le].
Qed.

Lemma ge_true_iff (x y : Q) : JS.ge x y = true <-> y <= x.
Proof. apply Qle_bool_iff. Qed.

Lemma or_zero_eq (x : Q) : JS.or_zero x == x.
Proof.
  unfold JS.or_zero. destruct (Qeq_bool x 0) eqn:E; [|reflexivity].
  apply Qeq_bool_eq in E. symmetry. exact E.
Qed.

(** Replaces every [Qmax a b] by a fresh variable that carries the
    specification of the maximum, so that linear and non-linear arithmetic
    can finish. *)
Ltac qmax_name a b :=
  let m := fresh "m" in
  let Hm := fresh "Hm" in
  pose proof (Q.max_spec a b) as Hm;
  set (m := Qmax a b) in *; clearbody m.

Ltac qmax_specs :=
  repeat match goal with
         | |- context [Qmax ?a ?b] => qmax_name a b
         | H : context [Qmax ?a ?b] |- _ => qmax_name a b
         end.

Lemma max0_nonneg (x : Q) : 0 <= Qmax 0 x.
Proof. apply Q.le_max_l. Qed.

Lemma max0_of_nonpos (x : Q) : x <= 0 -> Qmax 0 x == 0.
Proof. intro H. apply Q.max_l. exact H. Qed.

Lemma max0_of_nonneg (x : Q) : 0 <= x -> Qmax 0 x == x.
Proof. intro H. apply Q.max_r. exact H. Qed.

(** ** Lucro Real: the profit derivation *)

Lemma real_notes_loss data activity config adj :
  Real.taxableIncome data activity config adj <= 0 ->
  In NotePrejuizoFiscal (Real.notes data activity config adj).
Proof.
  intro H. unfold Real.notes.
  apply le_true_iff in H. rewrite H. simpl. left. reflexivity.
Qed.

Lemma real_notes_additions data activity config adj :
  0 < LalurAdjustments.additions adj ->
  In (NoteAdicoesLALUR (LalurAdjustments.additions adj))
     (Real.notes data activity config adj).
Proof.
  intro H. unfold Real.notes. apply gt_true_iff in H. rewrite H.
  apply in_or_app. right. apply in_or_app. left. simpl. auto.
Qed.

Lemma real_notes_exclusions data activity config adj :
  0 < LalurAdjustments.exclusions adj ->
  In (NoteExclusoesLALUR (LalurAdjustments.exclusions adj))
     (Real.notes data activity config adj).
Proof.
  intro H. unfold Real.notes. apply gt_true_iff in H. rewrite H.
  apply in_or_app. right. apply in_or_app. right. simpl. auto.
Qed.

(** C1.  The actual-profit calculator derives the profit in the order of the
    source: net revenue, operating result, financial result, pre-tax profit,
    and taxable income as the pre-tax profit plus additions minus exclusions,
    floored at zero; income tax, surtax and social contribution are computed
    on the taxable income.  When the adjusted profit is not positive the
    taxable income is zero, so are income tax and social contribution, the
    notes contain the projected-fiscal-loss note, and the notes still report
    the additions and the exclusions that are positive. *)
Theorem real_profit_derivation
    (data : FinancialData.t) (activity : ActivityType)
    (config : TaxRateConfig.t) (adj : LalurAdjustments.t) :
  let r := Real.calculateReal data activity config adj in
  let det := Result.detailed r in
  let netRevenue := Real.netRevenue data activity config in
  let operationalResult := Real.operationalResult data activity config in
  let financialResult := Real.financialResult data config in
  let profitBeforeTax := Real.profitBeforeTax data activity config in
  let adjusted :=
    profitBeforeTax + LalurAdjustments.additions adj
    - LalurAdjustments.exclusions adj in
  let taxableIncome := Real.taxableIncome data activity config adj in
  netRevenue ==
    FinancialData.revenueAnnual data - FinancialData.deductions data
    - (TaxDetailedBreakdown.pis det + TaxDetailedBreakdown.cofins det
       + (TaxDetailedBreakdown.iss det + TaxDetailedBreakdown.icms det)
       + TaxDetailedBreakdown.ipi det)
  /\ operationalResult ==
       netRevenue
       - (FinancialData.cogs data + FinancialData.expenses data
          + FinancialData.payrollBase data
          + TaxBreakdown.charges (Result.breakdown r))
  /\ financialResult ==
       FinancialData.financialRevenues data
       - (TaxDetailedBreakdown.pisFinancial det
          + TaxDetailedBreakdown.cofinsFinancial det)
       - FinancialData.financialExpenses data
  /\ profitBeforeTax == operationalResult + financialResult
  /\ taxableIncome = Qmax 0 adjusted
  /\ TaxDetailedBreakdown.irpj det
       == taxableIncome * (TaxRateConfig.irpj config / 100)
  /\ TaxDetailedBreakdown.irpjAdicional det
       == Qmax 0 (taxableIncome - 240000)
          * (TaxRateConfig.irpjAdicional config / 100)
  /\ TaxDetailedBreakdown.csll det
       == taxableIncome * (TaxRateConfig.csll config / 100)
  /\ TaxBreakdown.taxIncome (Result.breakdown r)
       == TaxDetailedBreakdown.irpj det
          + TaxDetailedBreakdown.irpjAdicional det
          + TaxDetailedBreakdown.csll det
  /\ (adjusted <= 0 ->
      taxableIncome == 0
      /\ TaxDetailedBreakdown.irpj det == 0
      /\ TaxDetailedBreakdown.irpjAdicional det == 0
      /\ TaxDetailedBreakdown.csll det == 0
      /\ TaxBreakdown.taxIncome (Result.breakdown r) == 0
      /\ exists notes,
           Result.notes r = Some notes
           /\ In NotePrejuizoFiscal notes
           /\ (0 < LalurAdjustments.additions adj ->
               In (NoteAdicoesLALUR (LalurAdjustments.additions adj)) notes)
           /\ (0 < LalurAdjustments.exclusions adj ->
               In (NoteExclusoesLALUR (LalurAdjustments.exclusions adj))
                  notes)).
Proof.
  cbv zeta.
  assert (Hti : Real.profitBeforeTax data activity config
                + LalurAdjustments.additions adj
                - LalurAdjustments.exclusions adj <= 0 ->
                Real.taxableIncome data activity config adj == 0).
  { intro H. unfold Real.taxableIncome. apply max0_of_nonpos. exact H. }
  repeat match goal with |- _ /\ _ => split end.
  - unfold Real.netRevenue, Real.totalSalesTax. simpl. ring.
  - unfold Real.operationalResult, Real.totalDeductibleExpenses. simpl. ring.
  - unfold Real.financialResult, Real.totalFinancialTaxes. simpl. ring.
  - reflexivity.
  - reflexivity.
  - reflexivity.
  - reflexivity.
  - reflexivity.
  - simpl. unfold Real.totalIRPJ. ring.
  - intro H. specialize (Hti H).
    assert (Hb : Real.irpjBasico data activity config adj == 0).
    { unfold Real.irpjBasico. rewrite Hti. ring. }
    assert (Ha : Real.irpjAdicional data activity config adj == 0).
    { unfold Real.irpjAdicional. rewrite Hti.
      rewrite max0_of_nonpos; [ring | unfold THRESHOLD_ADICIONAL_IRPJ; lra]. }
    assert (Hc : Real.totalCSLL data activity config adj == 0).
    { unfold Real.totalCSLL. rewrite Hti. ring. }
    simpl. split; [exact Hti|]. split; [exact Hb|]. split; [exact Ha|].
    split; [exact Hc|]. split.
    + unfold Real.totalIRPJ. rewrite Hb, Ha, Hc. ring.
    + exists (Real.notes data activity config adj). repeat split.
      * apply real_notes_loss. rewrite Hti. apply Qle_refl.
      * apply real_notes_additions.
      * apply real_notes_exclusions.
Qed.

Lemma real_profit_derivation_loss :
  let data := Sample.lossMaking in
  let adj := Sample.someAdjustments in
  let r := Real.calculateReal data SERVICO_ANEXO_III DEFAULT_REAL_CONFIG adj in
  Real.taxableIncome data SERVICO_ANEXO_III DEFAULT_REAL_CONFIG adj == 0
  /\ TaxBreakdown.taxIncome (Result.breakdown r) == 0
  /\ Result.notes r
     = Some [NotePrejuizoFiscal; NoteAdicoesLALUR 5000;
             NoteExclusoesLALUR 2000].
Proof.
  cbv zeta.
  pose proof (real_profit_derivation Sample.lossMaking SERVICO_ANEXO_III
                DEFAULT_REAL_CONFIG Sample.someAdjustments) as H.
  cbv zeta in H.
  destruct H as (_ & _ & _ & _ & _ & _ & _ & _ & _ & H).
  destruct H as (Hti & _ & _ & _ & Hinc & _).
  - vm_compute. discriminate.
  - split; [exact Hti | split; [exact Hinc | reflexivity]].
Defined.

(** ** Lucro Real: non-cumulative PIS/COFINS *)

(** At deductions above the revenue the PIS debit is zero, not (revenue -
    deductions) times the rate, and a credit base equal to revenue minus
    deductions leaves a positive PIS and COFINS payable. *)
Lemma real_pis_cofins_deductions_above_revenue :
  let data := Sample.deductionsAboveRevenue in
  let config := DEFAULT_REAL_CONFIG in
  let r := Real.calculateReal data COMERCIO config Sample.noAdjustments in
  Real.creditBase data COMERCIO
    == FinancialData.revenueAnnual data - FinancialData.deductions data
  /\ ~ Real.debitoPis data config
       == (FinancialData.revenueAnnual data - FinancialData.deductions data)
          * (TaxRateConfig.pis config / 100)
  /\ ~ Real.debitoCofins data config
       == (FinancialData.revenueAnnual data - FinancialData.deductions data)
          * (TaxRateConfig.cofins config / 100)
  /\ ~ TaxDetailedBreakdown.pis (Result.detailed r) == 0
  /\ ~ TaxDetailedBreakdown.cofins (Result.detailed r) == 0.
Proof.
  cbv zeta. repeat split; vm_compute; discriminate.
Qed.

(** C2 (amended).  The PIS and COFINS debits are the revenue minus the
    deductions, floored at zero, times each rate; the credits are the credit
    base times the same rates, the credit base being the override of the
    financial summary when present, else the cost of goods for trade and
    industry, else 20% of the operating expenses; each payable is
    max(0, debit - credit), computed per tax, and never negative; a credit
    base equal to the floored revenue minus deductions makes both payables
    zero. *)
Theorem real_pis_cofins_non_cumulative
    (data : FinancialData.t) (activity : ActivityType)
    (config : TaxRateConfig.t) (adj : LalurAdjustments.t) :
  let r := Real.calculateReal data activity config adj in
  let det := Result.detailed r in
  let base :=
    Qmax 0 (FinancialData.revenueAnnual data - FinancialData.deductions data) in
  let creditBase := Real.creditBase data activity in
  Real.debitoPis data config == base * (TaxRateConfig.pis config / 100)
  /\ Real.debitoCofins data config
       == base * (TaxRateConfig.cofins config / 100)
  /\ creditBase
       = match FinancialData.realCreditBase data with
         | Some override => override
         | None =>
             match activity with
             | COMERCIO | INDUSTRIA => FinancialData.cogs data
             | _ => FinancialData.expenses data * 0.20
             end
         end
  /\ Real.creditoPis data activity config
       == creditBase * (TaxRateConfig.pis config / 100)
  /\ Real.creditoCofins data activity config
       == creditBase * (TaxRateConfig.cofins config / 100)
  /\ TaxDetailedBreakdown.pis det
       == Qmax 0 (Real.debitoPis data config
                  - Real.creditoPis data activity config)
  /\ TaxDetailedBreakdown.cofins det
       == Qmax 0 (Real.debitoCofins data config
                  - Real.creditoCofins data activity config)
  /\ 0 <= TaxDetailedBreakdown.pis det
  /\ 0 <= TaxDetailedBreakdown.cofins det
  /\ (creditBase == base ->
      TaxDetailedBreakdown.pis det == 0
      /\ TaxDetailedBreakdown.cofins det == 0).
Proof.
  cbv zeta.
  repeat match goal with |- _ /\ _ => split end;
    try reflexivity; try (simpl; apply max0_nonneg).
  - unfold Real.creditBase. destruct activity; reflexivity.
  - intro H. simpl.
    unfold Real.pisPayable, Real.cofinsPayable, Real.debitoPis,
      Real.debitoCofins, Real.creditoPis, Real.creditoCofins,
      Real.revenueBase.
    rewrite H. split; apply max0_of_nonpos; lra.
Qed.

Lemma real_pis_cofins_full_credit :
  let r := Real.calculateReal Sample.fullCredit COMERCIO DEFAULT_REAL_CONFIG
             Sample.noAdjustments in
  TaxDetailedBreakdown.pis (Result.detailed r) == 0
  /\ TaxDetailedBreakdown.cofins (Result.detailed r) == 0.
Proof.
  cbv zeta.
  apply (real_pis_cofins_non_cumulative Sample.fullCredit COMERCIO
           DEFAULT_REAL_CONFIG Sample.noAdjustments).
  vm_compute. reflexivity.
Defined.

(** ** Lucro Presumido: income tax and surtax *)

Lemma surtax_positive_iff (base rate : Q) :
  0 < rate ->
  (0 < Qmax 0 (base - THRESHOLD_ADICIONAL_IRPJ) * (rate / 100)
   <-> 240000 < base).
Proof.
  intro Hr. unfold THRESHOLD_ADICIONAL_IRPJ.
  assert (Hk : 0 < rate / 100).
  { apply Qlt_shift_div_l; lra. }
  destruct (Qlt_le_dec 240000 base) as [Hb | Hb].
  - rewrite max0_of_nonneg by lra. split; [intros _; exact Hb|].
    intros _. apply Qmult_lt_0_compat; lra.
  - rewrite max0_of_nonpos by lra. split; intro H; lra.
Qed.

(** C3.  The presumed-profit income-tax base is the annual revenue times the
    IRPJ presumption margin plus the financial revenue in full, and the
    social-contribution base is the revenue times its own margin plus the
    financial revenue in full.  Income tax is the base times the IRPJ rate
    plus a surtax of max(0, base - 240,000) times the surtax rate; the social
    contribution is its base times its rate, with no surtax.  With a positive
    surtax rate the surtax is positive exactly when the base exceeds 240,000.
    With the default configuration, revenue 1,000,000 and no financial
    revenue, the base is 320,000, the base income tax 48,000 and the surtax
    8,000. *)
Theorem presumido_income_tax
    (data : FinancialData.t) (activity : ActivityType)
    (config : TaxRateConfig.t) :
  let r := Presumido.calculatePresumido data activity config in
  let det := Result.detailed r in
  let baseIRPJ := Presumido.baseIRPJ data config in
  let baseCSLL := Presumido.baseCSLL data config in
  baseIRPJ ==
    FinancialData.revenueAnnual data * (TaxRateConfig.presuncaoIRPJ config / 100)
    + FinancialData.financialRevenues data
  /\ baseCSLL ==
       FinancialData.revenueAnnual data
       * (TaxRateConfig.presuncaoCSLL config / 100)
       + FinancialData.financialRevenues data
  /\ TaxDetailedBreakdown.irpj det
       == baseIRPJ * (TaxRateConfig.irpj config / 100)
  /\ TaxDetailedBreakdown.irpjAdicional det
       == Qmax 0 (baseIRPJ - 240000)
          * (TaxRateConfig.irpjAdicional config / 100)
  /\ TaxDetailedBreakdown.csll det
       == baseCSLL * (TaxRateConfig.csll config / 100)
  /\ TaxBreakdown.taxIncome (Result.breakdown r)
       == baseIRPJ * (TaxRateConfig.irpj config / 100)
          + Qmax 0 (baseIRPJ - 240000)
            * (TaxRateConfig.irpjAdicional config / 100)
          + baseCSLL * (TaxRateConfig.csll config / 100)
  /\ (0 < TaxRateConfig.irpjAdicional config ->
      (0 < TaxDetailedBreakdown.irpjAdicional det <-> 240000 < baseIRPJ))
  /\ (config = DEFAULT_PRESUMIDO_CONFIG ->
      FinancialData.revenueAnnual data == 1000000 ->
      FinancialData.financialRevenues data == 0 ->
      baseIRPJ == 320000
      /\ TaxDetailedBreakdown.irpj det == 48000
      /\ TaxDetailedBreakdown.irpjAdicional det == 8000).
Proof.
  cbv zeta.
  repeat match goal with |- _ /\ _ => split end; try reflexivity.
  - intro Hr. simpl. unfold Presumido.irpjAdicional.
    exact (surtax_positive_iff _ _ Hr).
  - intros -> Hrev Hfin.
    assert (Hb : Presumido.baseIRPJ data DEFAULT_PRESUMIDO_CONFIG == 320000).
    { unfold Presumido.baseIRPJ, Presumido.calculationBase,
        Presumido.percentualPresuncaoIRPJ. simpl. rewrite Hrev, Hfin.
      reflexivity. }
    split; [exact Hb|]. simpl.
    unfold Presumido.irpjBasico, Presumido.irpjAdicional. rewrite Hb.
    split; reflexivity.
Qed.

Lemma presumido_income_tax_services :
  let data := Sample.services in
  let r := Presumido.calculatePresumido data SERVICO_ANEXO_III
             DEFAULT_PRESUMIDO_CONFIG in
  (0 < TaxDetailedBreakdown.irpjAdicional (Result.detailed r)
   <-> 240000 < Presumido.baseIRPJ data DEFAULT_PRESUMIDO_CONFIG)
  /\ Presumido.baseIRPJ data DEFAULT_PRESUMIDO_CONFIG == 320000
  /\ TaxDetailedBreakdown.irpj (Result.detailed r) == 48000
  /\ TaxDetailedBreakdown.irpjAdicional (Result.detailed r) == 8000.
Proof.
  cbv zeta.
  pose proof (presumido_income_tax Sample.services SERVICO_ANEXO_III
                DEFAULT_PRESUMIDO_CONFIG) as H.
  cbv zeta in H.
  destruct H as (_ & _ & _ & _ & _ & _ & Hs & He).
  split.
  - apply Hs. vm_compute. reflexivity.
  - apply He; [reflexivity | vm_compute; reflexivity ..].
Defined.

(** ** The choice of the best current regime *)

Lemma fold_cheaper_split (rest : list Result.t) (first : Result.t) :
  let best := fold_left Dashboard.cheaper rest first in
  exists before after,
    first :: rest = before ++ best :: after
    /\ (forall x, In x before -> Result.totalTax best <= Result.totalTax x)
    /\ (forall x, In x after -> Result.totalTax best < Result.totalTax x).
Proof.
  cbv zeta. induction rest as [| x rest IH] using rev_ind.
  - exists [], []. simpl. repeat split; intros y [].
  - rewrite fold_left_app. simpl.
    destruct IH as (before & after & Heq & Hb & Ha).
    set (b := fold_left Dashboard.cheaper rest first) in *.
    unfold Dashboard.cheaper.
    destruct (JS.lt (Result.totalTax b) (Result.totalTax x)) eqn:E.
    + apply lt_true_iff in E.
      exists before, (after ++ [x]). repeat split.
      * rewrite app_comm_cons, Heq, <- app_assoc. reflexivity.
      * exact Hb.
      * intros y Hy. apply in_app_or in Hy. destruct Hy as [Hy | [<- | []]].
        -- apply Ha. exact Hy.
        -- exact E.
    + apply lt_false_iff in E.
      exists (first :: rest), []. repeat split.
      * intros y Hy. rewrite Heq in Hy. apply in_app_or in Hy.
        destruct Hy as [Hy | [<- | Hy]].
        -- apply Hb in Hy. lra.
        -- exact E.
        -- apply Ha in Hy. lra.
      * intros y [].
Qed.

(** With equal totals the choice is the last result, not the first: a
    company with no activity owes nothing under any regime and the baseline
    is the actual-profit result; with totals 5000, 5000 and a blocked third
    result the baseline is the second. *)
Lemma best_current_tie_keeps_last :
  let s := Simples.calculateSimples Sample.noActivity COMERCIO in
  let p := Presumido.calculatePresumido Sample.noActivity COMERCIO
             DEFAULT_PRESUMIDO_CONFIG in
  let r := Real.calculateReal Sample.noActivity COMERCIO DEFAULT_REAL_CONFIG
             Sample.noAdjustments in
  let a := Sample.withTotal SimplesNacional 5000 None in
  let b := Sample.withTotal LucroPresumido 5000 None in
  let c := Sample.withTotal LucroReal 8000 (Some true) in
  (Dashboard.allCurrent s p r = [s; p; r]
   /\ Result.totalTax s == Result.totalTax p
   /\ Result.totalTax p == Result.totalTax r
   /\ Dashboard.bestCurrent s p r = r
   /\ Dashboard.bestCurrent s p r <> s)
  /\ (Dashboard.allCurrent a b c = [a; b]
      /\ Dashboard.bestCurrent a b c = b
      /\ Dashboard.bestCurrent a b c <> a).
Proof.
  cbv zeta. repeat split; try reflexivity;
    intro H; apply (f_equal Result.regime) in H; vm_compute in H;
    discriminate.
Qed.

(** C4 (amended).  The candidates are the simplified, presumed and actual
    results, in this order, without the blocked ones.  With no candidate the
    baseline is the actual-profit result, blocked or not.  Otherwise the
    baseline is a candidate of minimum total tax, and among candidates of
    equal minimum total it is the last in the order.  With totals
    {A: blocked, B: 10000, C: 8000} the baseline is C; with
    {A: 5000 not blocked, B: 10000, C: blocked} it is A. *)
Theorem best_current_selection (s p r : Result.t) :
  let candidates := Dashboard.allCurrent s p r in
  let best := Dashboard.bestCurrent s p r in
  candidates
    = filter (fun x => negb (JS.truthy (Result.isBlocked x))) [s; p; r]
  /\ (forall x, In x candidates -> JS.truthy (Result.isBlocked x) = false)
  /\ (candidates = [] -> best = r)
  /\ (candidates <> [] ->
      exists before after,
        candidates = before ++ best :: after
        /\ (forall x, In x before ->
                      Result.totalTax best <= Result.totalTax x)
        /\ (forall x, In x after ->
                      Result.totalTax best < Result.totalTax x))
  /\ (JS.truthy (Result.isBlocked s) = true ->
      JS.truthy (Result.isBlocked p) = false ->
      JS.truthy (Result.isBlocked r) = false ->
      Result.totalTax p == 10000 -> Result.totalTax r == 8000 ->
      best = r)
  /\ (JS.truthy (Result.isBlocked s) = false ->
      JS.truthy (Result.isBlocked r) = true ->
      Result.totalTax s == 5000 -> Result.totalTax p == 10000 ->
      best = s).
Proof.
  cbv zeta. repeat match goal with |- _ /\ _ => split end.
  - reflexivity.
  - intros x Hx. unfold Dashboard.allCurrent in Hx.
    apply filter_In in Hx. destruct Hx as [_ Hx].
    apply negb_true_iff. exact Hx.
  - unfold Dashboard.bestCurrent. intros ->. reflexivity.
  - unfold Dashboard.bestCurrent.
    destruct (Dashboard.allCurrent s p r) as [| first rest]; [congruence|].
    intros _. apply fold_cheaper_split.
  - intros Hs Hp Hr Tp Tr.
    unfold Dashboard.bestCurrent, Dashboard.allCurrent. simpl.
    rewrite Hs, Hp, Hr. simpl. unfold Dashboard.cheaper.
    destruct (JS.lt _ _) eqn:E; [|reflexivity].
    apply lt_true_iff in E. lra.
  - intros Hs Hr Ts Tp.
    unfold Dashboard.bestCurrent, Dashboard.allCurrent. simpl.
    rewrite Hs, Hr. simpl.
    destruct (JS.truthy (Result.isBlocked p)); simpl; [reflexivity|].
    unfold Dashboard.cheaper.
    destruct (JS.lt _ _) eqn:E; [reflexivity|].
    apply lt_false_iff in E. lra.
Qed.

Lemma best_current_selection_examples :
  let a := Sample.withTotal SimplesNacional 5000 None in
  let a' := Sample.withTotal SimplesNacional 0 (Some true) in
  let b := Sample.withTotal LucroPresumido 10000 None in
  let c := Sample.withTotal LucroReal 8000 None in
  let c' := Sample.withTotal LucroReal 8000 (Some true) in
  Dashboard.bestCurrent a' b c = c
  /\ Dashboard.bestCurrent a b c' = a
  /\ Dashboard.bestCurrent a' c' c' = c'.
Proof.
  cbv zeta. split; [|split].
  - destruct (best_current_selection
                (Sample.withTotal SimplesNacional 0 (Some true))
                (Sample.withTotal LucroPresumido 10000 None)
                (Sample.withTotal LucroReal 8000 None))
      as (_ & _ & _ & _ & H & _).
    apply H; vm_compute; reflexivity.
  - destruct (best_current_selection
                (Sample.withTotal SimplesNacional 5000 None)
                (Sample.withTotal LucroPresumido 10000 None)
                (Sample.withTotal LucroReal 8000 (Some true)))
      as (_ & _ & _ & _ & _ & H).
    apply H; vm_compute; reflexivity.
  - destruct (best_current_selection
                (Sample.withTotal SimplesNacional 0 (Some true))
                (Sample.withTotal LucroReal 8000 (Some true))
                (Sample.withTotal LucroReal 8000 (Some true)))
      as (_ & _ & H & _).
    apply H. reflexivity.
Defined.

(** ** Reforma: credits, netting and carry-over *)

Lemma accumulate_not_qualifying cfg acc line :
  qualifiesForCredit line = false -> Reform.accumulate cfg acc line = acc.
Proof.
  unfold qualifiesForCredit, Reform.accumulate. intro H.
  destruct (Reform.isCostOrExpense line); [|reflexivity].
  simpl in H. rewrite H. reflexivity.
Qed.

Lemma accumulate_qualifying cfg acc line :
  qualifiesForCredit line = true ->
  Reform.accumulate cfg acc line
  = (fst acc
     + Reform.eligibleBase line * (ReformConfig.ibsRate cfg / 100),
     snd acc
     + Reform.eligibleBase line * (ReformConfig.cbsRate cfg / 100)).
Proof.
  unfold qualifiesForCredit, Reform.accumulate. intro H.
  apply andb_true_iff in H. destruct H as [-> ->]. reflexivity.
Qed.

Lemma zero_rate_not_qualifying line :
  Reform.creditRate line == 0 -> qualifiesForCredit line = false.
Proof.
  intro H. unfold qualifiesForCredit. apply andb_false_iff. right.
  apply gt_false_iff. rewrite H. apply Qle_refl.
Qed.

(** The accumulators of the loop hold the sums of the credits of the
    qualifying lines seen so far. *)
Lemma fold_accumulate_sum cfg lines : forall acc,
  let out := fold_left (Reform.accumulate cfg) lines acc in
  fst out ==
    fst acc
    + sumQ (map (fun l => Reform.eligibleBase l
                          * (ReformConfig.ibsRate cfg / 100))
                (filter qualifiesForCredit lines))
  /\ snd out ==
       snd acc
       + sumQ (map (fun l => Reform.eligibleBase l
                             * (ReformConfig.cbsRate cfg / 100))
                   (filter qualifiesForCredit lines)).
Proof.
  cbv zeta. induction lines as [| line lines IH]; intro acc; simpl.
  - split; ring.
  - destruct (qualifiesForCredit line) eqn:E.
    + rewrite (accumulate_qualifying cfg acc line E).
      destruct (IH (fst acc
                    + Reform.eligibleBase line
                      * (ReformConfig.ibsRate cfg / 100),
                    snd acc
                    + Reform.eligibleBase line
                      * (ReformConfig.cbsRate cfg / 100))) as [H1 H2].
      simpl in H1, H2. rewrite H1, H2. simpl. split; ring.
    + rewrite (accumulate_not_qualifying cfg acc line E). apply IH.
Qed.

Lemma earnsCreditBySpec_eq line :
  earnsCreditBySpec line = qualifiesForCredit line.
Proof.
  unfold earnsCreditBySpec, qualifiesForCredit, Reform.isCostOrExpense,
    creditPercentage, Reform.creditRate.
  destruct (DRELineItem.lineType line);
    destruct (DRELineItem.tag line) as [[] |]; reflexivity.
Qed.

Lemma spec_credit_sum rate lines :
  sumQ (map (fun l => eligibleAmountBySpec l * (rate / 100))
            (filter earnsCreditBySpec lines))
  = sumQ (map (fun l => Reform.eligibleBase l * (rate / 100))
              (filter qualifiesForCredit lines)).
Proof.
  rewrite (filter_ext _ _ earnsCreditBySpec_eq). reflexivity.
Qed.

Lemma not_earning_not_qualifying line :
  DRELineItem.lineType line = SYNTHETIC
  \/ (DRELineItem.tag line <> Some CUSTO
      /\ DRELineItem.tag line <> Some DESPESA)
  \/ creditPercentage line <= 0 ->
  qualifiesForCredit line = false.
Proof.
  rewrite <- earnsCreditBySpec_eq. unfold earnsCreditBySpec.
  intros [H | [[Hc Hd] | H]].
  - rewrite H. reflexivity.
  - destruct (DRELineItem.lineType line); [|reflexivity].
    destruct (DRELineItem.tag line) as [[] |]; try reflexivity;
      exfalso; [apply Hc | apply Hd]; reflexivity.
  - apply gt_false_iff in H. rewrite H.
    destruct (DRELineItem.lineType line); [|reflexivity].
    destruct (DRELineItem.tag line) as [[] |]; reflexivity.
Qed.

Lemma credits_skip_not_qualifying cfg before line after :
  qualifiesForCredit line = false ->
  Reform.credits (before ++ line :: after) cfg
  = Reform.credits (before ++ after) cfg.
Proof.
  intro H. unfold Reform.credits. rewrite !fold_left_app. simpl.
  rewrite (accumulate_not_qualifying cfg _ line H). reflexivity.
Qed.

(** C5.  In the reform calculator the IBS credit is the sum, over the
    ANALYTICAL lines tagged CUSTO or DESPESA whose credit percentage is
    greater than zero, of the eligible amount (the absolute value of the line
    times the percentage over 100) times the IBS rate, and the CBS credit the
    same sum at the CBS rate.  No other line earns credit: a SYNTHETIC line, a
    line with another tag or none, and a line whose credit percentage is zero
    change neither credit, whatever their value and percentage.  The payable
    of each leg is max(0, debit - credit), and the total VAT is the two
    payables plus the selective tax, which is the floored revenue base times
    its rate and takes no credit.  A single expense line of -100,000 at 50%
    gives an eligible amount of 50,000, an IBS credit of 8,750 at 17.5% and a
    CBS credit of 4,500 at 9%. *)
Theorem reform_credits_and_netting
    (data : FinancialData.t) (lines : list DRELineItem.t)
    (cfg : ReformConfig.t) (best : Result.t) :
  let r := Reform.calculateReform data lines cfg best in
  let det := Result.detailed r in
  ReformResult.creditIBS r
    == sumQ (map (fun l => eligibleAmountBySpec l
                           * (ReformConfig.ibsRate cfg / 100))
                 (filter earnsCreditBySpec lines))
  /\ ReformResult.creditCBS r
       == sumQ (map (fun l => eligibleAmountBySpec l
                              * (ReformConfig.cbsRate cfg / 100))
                    (filter earnsCreditBySpec lines))
  /\ (forall before line after,
        lines = before ++ line :: after ->
        DRELineItem.lineType line = SYNTHETIC
        \/ (DRELineItem.tag line <> Some CUSTO
            /\ DRELineItem.tag line <> Some DESPESA)
        \/ creditPercentage line <= 0 ->
        let r' := Reform.calculateReform data (before ++ after) cfg best in
        ReformResult.creditIBS r = ReformResult.creditIBS r'
        /\ ReformResult.creditCBS r = ReformResult.creditCBS r')
  /\ (forall line,
        DRELineItem.lineType line = ANALYTICAL ->
        DRELineItem.tag line = Some CUSTO
        \/ DRELineItem.tag line = Some DESPESA ->
        0 < creditPercentage line ->
        let one := Reform.calculateReform data [line] cfg best in
        ReformResult.creditIBS one
        == Qabs (DRELineItem.value line) * (creditPercentage line / 100)
           * (ReformConfig.ibsRate cfg / 100)
        /\ ReformResult.creditCBS one
           == Qabs (DRELineItem.value line) * (creditPercentage line / 100)
              * (ReformConfig.cbsRate cfg / 100))
  /\ TaxDetailedBreakdown.ibs det
       = Some (Qmax 0 (ReformResult.debitIBS r - ReformResult.creditIBS r))
  /\ TaxDetailedBreakdown.cbs det
       = Some (Qmax 0 (ReformResult.debitCBS r - ReformResult.creditCBS r))
  /\ TaxDetailedBreakdown.selectiveTax det
       = Some (Qmax 0 (FinancialData.revenueAnnual data
                       - FinancialData.deductions data)
               * (ReformConfig.selectiveTaxRate cfg / 100))
  /\ TaxBreakdown.taxSales (Result.breakdown r)
       == Qmax 0 (ReformResult.debitIBS r - ReformResult.creditIBS r)
          + Qmax 0 (ReformResult.debitCBS r - ReformResult.creditCBS r)
          + Qmax 0 (FinancialData.revenueAnnual data
                    - FinancialData.deductions data)
            * (ReformConfig.selectiveTaxRate cfg / 100)
  /\ (let one :=
        Reform.calculateReform data [Sample.expenseLine] DEFAULT_REFORM_CONFIG
          best in
      eligibleAmountBySpec Sample.expenseLine == 50000
      /\ ReformResult.creditIBS one == 8750
      /\ ReformResult.creditCBS one == 4500).
Proof.
  cbv zeta.
  destruct (fold_accumulate_sum cfg lines (0, 0)) as [Hi Hc].
  simpl in Hi, Hc.
  repeat match goal with |- _ /\ _ => split end; try reflexivity.
  - rewrite spec_credit_sum. simpl.
    unfold Reform.ibsCredit, Reform.credits. rewrite Hi. ring.
  - rewrite spec_credit_sum. simpl.
    unfold Reform.cbsCredit, Reform.credits. rewrite Hc. ring.
  - intros before line after -> Hout. simpl.
    unfold Reform.ibsCredit, Reform.cbsCredit.
    rewrite (credits_skip_not_qualifying cfg before line after
               (not_earning_not_qualifying line Hout)).
    split; reflexivity.
  - intros line Hty Htag Hpos. simpl.
    assert (Hq : qualifiesForCredit line = true).
    { rewrite <- earnsCreditBySpec_eq. unfold earnsCreditBySpec.
      rewrite Hty. apply gt_true_iff in Hpos.
      destruct Htag as [-> | ->]; exact Hpos. }
    unfold Reform.ibsCredit, Reform.cbsCredit, Reform.credits. simpl.
    rewrite (accumulate_qualifying cfg (0, 0) line Hq). simpl.
    unfold Reform.eligibleBase, Reform.creditRate, creditPercentage.
    split; ring.
Qed.

Lemma reform_credits_only_cost_and_expense_lines :
  let best := Simples.calculateSimples Sample.services SERVICO_ANEXO_III in
  let r :=
    Reform.calculateReform Sample.services
      [SampleLines.expensesSubtotal; SampleLines.revenueWithRate;
       Sample.costLineNoCredit; Sample.expenseLine]
      DEFAULT_REFORM_CONFIG best in
  let one :=
    Reform.calculateReform Sample.services [Sample.expenseLine]
      DEFAULT_REFORM_CONFIG best in
  ReformResult.creditIBS r = ReformResult.creditIBS one
  /\ ReformResult.creditCBS r = ReformResult.creditCBS one
  /\ ReformResult.creditIBS one == 100000 * (50 / 100) * (17.5 / 100)
  /\ ReformResult.creditCBS one == 100000 * (50 / 100) * (9.0 / 100).
Proof.
  cbv zeta.
  set (best := Simples.calculateSimples Sample.services SERVICO_ANEXO_III).
  destruct (reform_credits_and_netting Sample.services
              [SampleLines.expensesSubtotal; SampleLines.revenueWithRate;
               Sample.costLineNoCredit; Sample.expenseLine]
              DEFAULT_REFORM_CONFIG best) as (_ & _ & H4 & _).
  destruct (reform_credits_and_netting Sample.services
              [SampleLines.revenueWithRate; Sample.costLineNoCredit;
               Sample.expenseLine]
              DEFAULT_REFORM_CONFIG best) as (_ & _ & H3 & _).
  destruct (reform_credits_and_netting Sample.services
              [Sample.costLineNoCredit; Sample.expenseLine]
              DEFAULT_REFORM_CONFIG best) as (_ & _ & H2 & _).
  destruct (reform_credits_and_netting Sample.services [Sample.expenseLine]
              DEFAULT_REFORM_CONFIG best) as (_ & _ & _ & H1 & _).
  destruct (H4 [] SampleLines.expensesSubtotal
              [SampleLines.revenueWithRate; Sample.costLineNoCredit;
               Sample.expenseLine] eq_refl) as [A4 B4].
  { left. reflexivity. }
  destruct (H3 [] SampleLines.revenueWithRate
              [Sample.costLineNoCredit; Sample.expenseLine] eq_refl)
    as [A3 B3].
  { right. left. split; discriminate. }
  destruct (H2 [] Sample.costLineNoCredit [Sample.expenseLine] eq_refl)
    as [A2 B2].
  { right. right. vm_compute. discriminate. }
  destruct (H1 Sample.expenseLine) as [A1 B1].
  { reflexivity. }
  { right. reflexivity. }
  { vm_compute. reflexivity. }
  simpl app in *.
  split; [congruence|]. split; [congruence|]. split; [exact A1 | exact B1].
Defined.

(** C6.  The income-tax, payroll-tax and employer-charges fields of the
    reform result are the fields of the baseline chosen among the current
    regimes, and the reform total is the total VAT plus these three. *)
Theorem reform_carries_over_baseline
    (editableData : FinancialData.t) (activityType : ActivityType)
    (presumidoConfig realConfig : TaxRateConfig.t)
    (reformConfig : ReformConfig.t) (displayLines : list DRELineItem.t) :
  let res :=
    Dashboard.results editableData activityType presumidoConfig realConfig
      reformConfig displayLines in
  let reform := Dashboard.Results.reform res in
  let baseline := Dashboard.Results.bestCurrent res in
  baseline
    = Dashboard.bestCurrent (Dashboard.Results.simples res)
        (Dashboard.Results.presumido res) (Dashboard.Results.real res)
  /\ TaxBreakdown.taxIncome (Result.breakdown reform)
       = TaxBreakdown.taxIncome (Result.breakdown baseline)
  /\ TaxBreakdown.taxPayroll (Result.breakdown reform)
       = TaxBreakdown.taxPayroll (Result.breakdown baseline)
  /\ TaxBreakdown.charges (Result.breakdown reform)
       = TaxBreakdown.charges (Result.breakdown baseline)
  /\ Result.totalTax reform
       == TaxBreakdown.taxSales (Result.breakdown reform)
          + TaxBreakdown.taxIncome (Result.breakdown baseline)
          + TaxBreakdown.taxPayroll (Result.breakdown baseline)
          + TaxBreakdown.charges (Result.breakdown baseline)
  /\ (forall data lines cfg (scenario : Result.t),
        let r := Reform.calculateReform data lines cfg scenario in
        TaxBreakdown.taxIncome (Result.breakdown r)
          = TaxBreakdown.taxIncome (Result.breakdown scenario)
        /\ TaxBreakdown.taxPayroll (Result.breakdown r)
             = TaxBreakdown.taxPayroll (Result.breakdown scenario)
        /\ TaxBreakdown.charges (Result.breakdown r)
             = TaxBreakdown.charges (Result.breakdown scenario)).
Proof.
  cbv zeta. repeat match goal with |- _ /\ _ => split end;
    try reflexivity.
  intros; repeat split.
Qed.

(** ** Simples Nacional: ceiling and brackets *)

Lemma find_first {A : Type} (f : A -> bool) (l : list A) (x : A) :
  find f l = Some x ->
  exists before after,
    l = before ++ x :: after
    /\ f x = true
    /\ (forall y, In y before -> f y = false).
Proof.
  induction l as [| a l IH]; simpl; [discriminate|].
  destruct (f a) eqn:E.
  - intros [= <-]. exists [], l. repeat split; [exact E | intros y []].
  - intro H. destruct (IH H) as (before & after & -> & Hx & Hb).
    exists (a :: before), after. repeat split; [exact Hx|].
    intros y [<- | Hy]; [exact E | apply Hb; exact Hy].
Qed.

Lemma annex_cases data activity :
  In (Simples.annex data activity) ALL_ANEXOS.
Proof.
  unfold Simples.annex, ALL_ANEXOS.
  destruct activity; simpl; auto 6.
  destruct (JS.ge _ _); simpl; auto 6.
Qed.

(** Every table closes with a bracket whose limit is the ceiling. *)
Lemma annex_has_ceiling_bracket data activity :
  exists before b,
    SimplesAnnex.ranges (Simples.annex data activity) = before ++ [b]
    /\ SimplesTableRange.limit b = SIMPLES_LIMIT.
Proof.
  pose proof (annex_cases data activity) as H. unfold ALL_ANEXOS in H.
  simpl in H.
  destruct H as [<- | [<- | [<- | [<- | [<- | []]]]]];
    match goal with
    | |- context [SimplesAnnex.ranges ?a] =>
        exists (removelast (SimplesAnnex.ranges a)),
               (last (SimplesAnnex.ranges a) (SimplesTableRange.mk 0 0 0))
    end; split; reflexivity.
Qed.

Lemma annex_ranges_not_nil data activity :
  SimplesAnnex.ranges (Simples.annex data activity) <> [].
Proof.
  destruct (annex_has_ceiling_bracket data activity) as (before & b & -> & _).
  destruct before; discriminate.
Qed.

(** Below the ceiling the search always finds a bracket, so the fallback to
    the last bracket is not taken. *)
Lemma found_below_ceiling data activity :
  FinancialData.revenueAnnual data <= SIMPLES_LIMIT ->
  Simples.found data activity = Some (Simples.range data activity).
Proof.
  intro H. unfold Simples.range.
  destruct (Simples.found data activity) as [b |] eqn:E; [reflexivity|].
  exfalso. unfold Simples.found in E.
  destruct (annex_has_ceiling_bracket data activity) as (before & b & Hb & Hl).
  assert (Hin : In b (SimplesAnnex.ranges (Simples.annex data activity))).
  { rewrite Hb. apply in_or_app. right. left. reflexivity. }
  pose proof (find_none _ _ E b Hin) as Hf. simpl in Hf.
  apply le_false_iff in Hf. rewrite Hl in Hf. unfold Simples.rbt12 in Hf.
  lra.
Qed.

(** Above every limit of the table the fallback returns the last bracket. *)
Lemma range_fallback data activity :
  (forall b, In b (SimplesAnnex.ranges (Simples.annex data activity)) ->
             SimplesTableRange.limit b < FinancialData.revenueAnnual data) ->
  exists before,
    SimplesAnnex.ranges (Simples.annex data activity)
    = before ++ [Simples.range data activity].
Proof.
  intro H. unfold Simples.range.
  destruct (Simples.found data activity) as [b |] eqn:E.
  - exfalso. unfold Simples.found in E. apply find_some in E.
    destruct E as [Hin Hle]. apply le_true_iff in Hle.
    specialize (H b Hin). unfold Simples.rbt12 in Hle. lra.
  - destruct (annex_has_ceiling_bracket data activity)
      as (before & b & Hb & _).
    exists before. rewrite Hb at 1. f_equal. f_equal. rewrite Hb.
    symmetry. apply last_last.
Qed.

(** Decides the comparisons of the bracket search from the arithmetic
    facts of the context. *)
Ltac decide_le_tests :=
  repeat match goal with
         | |- context [JS.le ?a ?b] =>
             let E := fresh "E" in
             destruct (JS.le a b) eqn:E;
             [apply le_true_iff in E | apply le_false_iff in E]
         end.

Lemma range_at_limit data activity b :
  In b (SimplesAnnex.ranges (Simples.annex data activity)) ->
  FinancialData.revenueAnnual data == SimplesTableRange.limit b ->
  Simples.range data activity = b.
Proof.
  intros Hin Hrev. unfold Simples.range, Simples.found, Simples.rbt12.
  pose proof (annex_cases data activity) as H. unfold ALL_ANEXOS in H.
  simpl in H.
  destruct H as [E | [E | [E | [E | [E | []]]]]];
    rewrite <- E in Hin |- *; clear E; simpl in Hin;
    destruct Hin as [<- | [<- | [<- | [<- | [<- | [<- | []]]]]]];
    simpl in Hrev; simpl; decide_le_tests;
    solve [reflexivity | exfalso; lra].
Qed.

Lemma das_of_range data activity :
  0 < FinancialData.revenueAnnual data ->
  Simples.dasTax data activity
  == FinancialData.revenueAnnual data
     * (SimplesTableRange.aliquota (Simples.range data activity) / 100)
     - SimplesTableRange.deducao (Simples.range data activity).
Proof.
  intro H. unfold Simples.dasTax, Simples.nominalRate, Simples.rbt12.
  apply gt_true_iff in H. rewrite H. apply gt_true_iff in H.
  field. lra.
Qed.

(** C7.  Above the ceiling of 4,800,000 the simplified calculator returns
    the blocked result: isBlocked true, total zero, a note that names the
    revenue and the ceiling, nothing else computed.  At or below the ceiling
    the result is not blocked and the bracket is the first of the table whose
    limit is greater than or equal to the revenue; were no limit to reach the
    revenue, the bracket would be the last of the table.  Revenue equal to the
    limit of a bracket selects that bracket, and the unified amount is
    computed from the selected bracket. *)
Theorem simples_ceiling_and_brackets
    (data : FinancialData.t) (activity : ActivityType) :
  let r := Simples.calculateSimples data activity in
  let revenue := FinancialData.revenueAnnual data in
  let table := SimplesAnnex.ranges (Simples.annex data activity) in
  let range := Simples.range data activity in
  (SIMPLES_LIMIT < revenue ->
   r = Simples.blockedResult data
   /\ Result.isBlocked r = Some true
   /\ Result.totalTax r = 0
   /\ Result.effectiveRate r = JS.Fin 0
   /\ Result.breakdown r = TaxBreakdown.mk 0 0 0 0
   /\ Result.details r = []
   /\ Result.notes r = Some [NoteExcedeLimite revenue 4800000])
  /\ (revenue <= SIMPLES_LIMIT ->
      Result.isBlocked r = None
      /\ exists before after,
           table = before ++ range :: after
           /\ revenue <= SimplesTableRange.limit range
           /\ (forall b, In b before -> SimplesTableRange.limit b < revenue))
  /\ ((forall b, In b table -> SimplesTableRange.limit b < revenue) ->
      exists before, table = before ++ [range])
  /\ (forall b, In b table -> revenue == SimplesTableRange.limit b ->
                range = b)
  /\ (revenue == SIMPLES_LIMIT -> JS.truthy (Result.isBlocked r) = false)
  /\ (revenue == SIMPLES_LIMIT + 1 -> Result.isBlocked r = Some true)
  /\ (0 < revenue -> revenue <= SIMPLES_LIMIT ->
      TaxBreakdown.taxSales (Result.breakdown r)
      == revenue * (SimplesTableRange.aliquota range / 100)
         - SimplesTableRange.deducao range).
Proof.
  cbv zeta.
  assert (Hblocked : SIMPLES_LIMIT < FinancialData.revenueAnnual data ->
                     Simples.calculateSimples data activity
                     = Simples.blockedResult data).
  { intro H. unfold Simples.calculateSimples.
    apply gt_true_iff in H. rewrite H. reflexivity. }
  assert (Hopen : FinancialData.revenueAnnual data <= SIMPLES_LIMIT ->
                  Result.isBlocked (Simples.calculateSimples data activity)
                  = None).
  { intro H. unfold Simples.calculateSimples.
    apply gt_false_iff in H. rewrite H. reflexivity. }
  repeat match goal with |- _ /\ _ => split end.
  - intro H. rewrite (Hblocked H). repeat split.
  - intro H. split; [exact (Hopen H)|].
    pose proof (found_below_ceiling data activity H) as Hf.
    unfold Simples.found in Hf. apply find_first in Hf.
    destruct Hf as (before & after & Heq & Hle & Hb).
    exists before, after. split; [exact Heq|]. split.
    + apply le_true_iff in Hle. exact Hle.
    + intros b Hin. apply Hb in Hin. apply le_false_iff in Hin. exact Hin.
  - apply range_fallback.
  - apply range_at_limit.
  - intro H. rewrite Hopen; [reflexivity | rewrite H; apply Qle_refl].
  - intro H. rewrite Hblocked; [reflexivity|].
    rewrite H. unfold SIMPLES_LIMIT. lra.
  - intros Hpos Hle. unfold Simples.calculateSimples.
    apply gt_false_iff in Hle. rewrite Hle. simpl.
    apply das_of_range. exact Hpos.
Qed.

(** ** Monotonicity of the total tax in the rates *)

Lemma percent_mono (r r' : Q) : r <= r' -> r / 100 <= r' / 100.
Proof.
  intro H. unfold Qdiv. apply Qmult_le_compat_r; [exact H|].
  apply Qinv_le_0_compat. lra.
Qed.

Lemma percent_nonneg (r : Q) : 0 <= r -> 0 <= r / 100.
Proof.
  intro H. apply Qle_shift_div_l; lra.
Qed.

Lemma rate_scale_nonneg (x r : Q) : 0 <= x -> 0 <= r -> 0 <= x * (r / 100).
Proof.
  intros Hx Hr. apply Qmult_le_0_compat; [exact Hx|].
  apply percent_nonneg. exact Hr.
Qed.

Lemma rate_scale_mono (x r r' : Q) :
  0 <= x -> r <= r' -> x * (r / 100) <= x * (r' / 100).
Proof.
  intros Hx Hr. pose proof (percent_mono r r' Hr) as Hq.
  rewrite !(Qmult_comm x). apply Qmult_le_compat_r; assumption.
Qed.

Lemma rate_scale_mono2 (x x' r r' : Q) :
  0 <= x -> x <= x' -> 0 <= r -> r <= r' ->
  x * (r / 100) <= x' * (r' / 100).
Proof.
  intros Hx Hxx Hr Hrr.
  apply Qle_trans with (x * (r' / 100)).
  - apply rate_scale_mono; assumption.
  - apply Qmult_le_compat_r; [assumption|].
    apply percent_nonneg. lra.
Qed.

Lemma max0_scale_mono (d r r' : Q) :
  0 <= r -> r <= r' -> Qmax 0 (d * r) <= Qmax 0 (d * r').
Proof.
  intros Hr Hrr. destruct (Qlt_le_dec d 0) as [Hd | Hd].
  - assert (d * r <= 0) by nra. assert (d * r' <= 0) by nra.
    qmax_specs. lra.
  - assert (d * r <= d * r') by nra. apply Q.max_le_compat_l. assumption.
Qed.

(** A rise of the taxable income by some amount raises income tax, surtax
    and social contribution together by no more than that amount, as long as
    the three rates total at most 100%. *)
Lemma income_tax_absorbs (i a c t1 t2 : Q) :
  0 <= i -> 0 <= a -> 0 <= c -> i + a + c <= 100 -> t2 <= t1 ->
  (t1 * (i / 100) + Qmax 0 (t1 - 240000) * (a / 100) + t1 * (c / 100))
  - (t2 * (i / 100) + Qmax 0 (t2 - 240000) * (a / 100) + t2 * (c / 100))
  <= t1 - t2.
Proof.
  intros Hi Ha Hc Hs Ht.
  assert (Hm : Qmax 0 (t1 - 240000) - Qmax 0 (t2 - 240000) <= t1 - t2).
  { qmax_specs. lra. }
  assert (Hm0 : 0 <= Qmax 0 (t1 - 240000) - Qmax 0 (t2 - 240000)).
  { qmax_specs. lra. }
  set (d := Qmax 0 (t1 - 240000) - Qmax 0 (t2 - 240000)) in *.
  assert (E : (t1 * (i / 100) + Qmax 0 (t1 - 240000) * (a / 100)
               + t1 * (c / 100))
              - (t2 * (i / 100) + Qmax 0 (t2 - 240000) * (a / 100)
                 + t2 * (c / 100))
              == ((t1 - t2) * (i + c) + d * a) / 100).
  { unfold d. field. }
  rewrite E. clearbody d.
  apply Qle_shift_div_r; [lra|]. nra.
Qed.

Lemma getRate_setRate_same f v c : getRate f (setRate f v c) = v.
Proof. destruct f; reflexivity. Qed.

Lemma getRate_setRate_other f g v c :
  f <> g -> getRate g (setRate f v c) = getRate g c.
Proof. intro H. destruct f, g; solve [reflexivity | contradiction]. Qed.

Lemma setRate_raises f v c :
  getRate f c <= v -> ratesLe c (setRate f v c).
Proof.
  intros H g. destruct f, g; simpl in *; solve [exact H | apply Qle_refl].
Qed.

(** Brings the sign and order facts of every rate field into the context. *)
Ltac rate_facts Hnn Hle :=
  pose proof (Hnn F_pis); pose proof (Hle F_pis);
  pose proof (Hnn F_cofins); pose proof (Hle F_cofins);
  pose proof (Hnn F_irpj); pose proof (Hle F_irpj);
  pose proof (Hnn F_irpjAdicional); pose proof (Hle F_irpjAdicional);
  pose proof (Hnn F_csll); pose proof (Hle F_csll);
  pose proof (Hnn F_ipi); pose proof (Hle F_ipi);
  pose proof (Hnn F_iss); pose proof (Hle F_iss);
  pose proof (Hnn F_icms); pose proof (Hle F_icms);
  pose proof (Hnn F_rat); pose proof (Hle F_rat);
  pose proof (Hnn F_cpp); pose proof (Hle F_cpp);
  pose proof (Hnn F_inssTerceiros); pose proof (Hle F_inssTerceiros);
  pose proof (Hnn F_fgts); pose proof (Hle F_fgts);
  pose proof (Hnn F_presuncaoIRPJ); pose proof (Hle F_presuncaoIRPJ);
  pose proof (Hnn F_presuncaoCSLL); pose proof (Hle F_presuncaoCSLL);
  pose proof (Hnn F_pisFinancial); pose proof (Hle F_pisFinancial);
  pose proof (Hnn F_cofinsFinancial); pose proof (Hle F_cofinsFinancial);
  simpl getRate in *.

Section Monotone.
Variables (data : FinancialData.t) (activity : ActivityType).
Variables (c c' : TaxRateConfig.t).
Hypothesis revenue_nonneg : 0 <= FinancialData.revenueAnnual data.
Hypothesis payroll_nonneg : 0 <= FinancialData.payrollBase data.
Hypothesis financial_nonneg : 0 <= FinancialData.financialRevenues data.
Hypothesis rates_nonneg : nonNegativeRates c.
Hypothesis rates_le : ratesLe c c'.

Lemma charges_mono :
  Presumido.cppAmount data c + Presumido.fgtsVal data c
  <= Presumido.cppAmount data c' + Presumido.fgtsVal data c'.
Proof.
  rate_facts rates_nonneg rates_le.
  unfold Presumido.cppAmount, Presumido.cppVal, Presumido.ratVal,
    Presumido.terceirosVal, Presumido.fgtsVal, Presumido.fgtsRate.
  repeat apply Qplus_le_compat; apply rate_scale_mono; assumption.
Qed.

Lemma presumido_sales_mono :
  Presumido.totalSalesTax data activity c
  <= Presumido.totalSalesTax data activity c'.
Proof.
  rate_facts rates_nonneg rates_le.
  unfold Presumido.totalSalesTax, Presumido.pis, Presumido.cofins,
    Presumido.iss, Presumido.icms, Presumido.ipi, Presumido.calculationBase.
  destruct (isComercioIndustria activity); simpl;
    repeat apply Qplus_le_compat;
    solve [apply rate_scale_mono; assumption | apply Qle_refl].
Qed.

Lemma presumido_income_mono :
  Presumido.totalIRPJ data c + Presumido.totalCSLL data c
  <= Presumido.totalIRPJ data c' + Presumido.totalCSLL data c'.
Proof.
  rate_facts rates_nonneg rates_le.
  assert (Hb0 : 0 <= Presumido.baseIRPJ data c).
  { unfold Presumido.baseIRPJ, Presumido.calculationBase,
      Presumido.percentualPresuncaoIRPJ.
    pose proof (rate_scale_nonneg (FinancialData.revenueAnnual data)
                  (TaxRateConfig.presuncaoIRPJ c)).
    lra. }
  assert (Hb : Presumido.baseIRPJ data c <= Presumido.baseIRPJ data c').
  { unfold Presumido.baseIRPJ, Presumido.calculationBase,
      Presumido.percentualPresuncaoIRPJ.
    apply Qplus_le_compat; [|apply Qle_refl].
    apply rate_scale_mono; assumption. }
  assert (Hc0 : 0 <= Presumido.baseCSLL data c).
  { unfold Presumido.baseCSLL, Presumido.calculationBase,
      Presumido.percentualPresuncaoCSLL.
    pose proof (rate_scale_nonneg (FinancialData.revenueAnnual data)
                  (TaxRateConfig.presuncaoCSLL c)).
    lra. }
  assert (Hc : Presumido.baseCSLL data c <= Presumido.baseCSLL data c').
  { unfold Presumido.baseCSLL, Presumido.calculationBase,
      Presumido.percentualPresuncaoCSLL.
    apply Qplus_le_compat; [|apply Qle_refl].
    apply rate_scale_mono; assumption. }
  unfold Presumido.totalIRPJ, Presumido.irpjBasico, Presumido.irpjAdicional,
    Presumido.totalCSLL.
  repeat apply Qplus_le_compat.
  - apply rate_scale_mono2; assumption.
  - apply rate_scale_mono2; try assumption.
    + apply max0_nonneg.
    + apply Q.max_le_compat_l. lra.
  - apply rate_scale_mono2; assumption.
Qed.

Lemma presumido_total_mono :
  Presumido.totalTax data activity c <= Presumido.totalTax data activity c'.
Proof.
  unfold Presumido.totalTax.
  pose proof charges_mono. pose proof presumido_sales_mono.
  pose proof presumido_income_mono. lra.
Qed.

End Monotone.

Lemma total_regroup (t m s fin cppA fg i a x : Q) :
  t * i + m * a + t * x + s + fin + cppA + fg
  == t * i + m * a + t * x + (s + fin + (cppA + fg)).
Proof. ring. Qed.

Section MonotoneReal.
Variables (data : FinancialData.t) (activity : ActivityType).
Variables (c c' : TaxRateConfig.t) (adj : LalurAdjustments.t).
Hypothesis revenue_nonneg : 0 <= FinancialData.revenueAnnual data.
Hypothesis payroll_nonneg : 0 <= FinancialData.payrollBase data.
Hypothesis financial_nonneg : 0 <= FinancialData.financialRevenues data.
Hypothesis rates_nonneg : nonNegativeRates c.
Hypothesis rates_le : ratesLe c c'.
Hypothesis income_rates_bounded :
  TaxRateConfig.irpj c' + TaxRateConfig.irpjAdicional c'
  + TaxRateConfig.csll c' <= 100.

(** Everything the company pays that is deducted from the profit: sales
    taxes, the PIS/COFINS on financial revenue and the employer charges. *)
Let levies (k : TaxRateConfig.t) : Q :=
  Real.totalSalesTax data activity k + Real.totalFinancialTaxes data k
  + Real.chargesAmount data k.

Lemma real_payable_mono (rate rate' : Q) :
  0 <= rate -> rate <= rate' ->
  Qmax 0 (Real.revenueBase data * (rate / 100)
          - Real.creditBase data activity * (rate / 100))
  <= Qmax 0 (Real.revenueBase data * (rate' / 100)
             - Real.creditBase data activity * (rate' / 100)).
Proof.
  intros H0 Hle.
  assert (E : forall r,
             Real.revenueBase data * (r / 100)
             - Real.creditBase data activity * (r / 100)
             == (Real.revenueBase data - Real.creditBase data activity)
                * (r / 100)) by (intro r; ring).
  rewrite !E. apply max0_scale_mono.
  - apply percent_nonneg. exact H0.
  - apply percent_mono. exact Hle.
Qed.

Lemma real_levies_mono : levies c <= levies c'.
Proof.
  rate_facts rates_nonneg rates_le. unfold levies.
  assert (Hs : Real.totalSalesTax data activity c
               <= Real.totalSalesTax data activity c').
  { unfold Real.totalSalesTax, Real.pisPayable, Real.cofinsPayable,
      Real.debitoPis, Real.debitoCofins, Real.creditoPis, Real.creditoCofins,
      Real.pisRate, Real.cofinsRate, Real.iss, Real.icms, Real.ipi.
    destruct (isComercioIndustria activity); simpl;
      repeat apply Qplus_le_compat;
      solve [ apply real_payable_mono; assumption
            | apply rate_scale_mono; assumption
            | apply Qle_refl ]. }
  assert (Hf : Real.totalFinancialTaxes data c
               <= Real.totalFinancialTaxes data c').
  { unfold Real.totalFinancialTaxes, Real.pisFinancial, Real.cofinsFinancial,
      Real.pisFinRate, Real.cofinsFinRate. rewrite !or_zero_eq.
    apply Qplus_le_compat; apply rate_scale_mono; assumption. }
  assert (Hc : Real.chargesAmount data c <= Real.chargesAmount data c').
  { unfold Real.chargesAmount, Real.cppAmount, Real.cppVal, Real.ratVal,
      Real.terceirosVal, Real.fgtsVal, Real.fgtsRate.
    repeat apply Qplus_le_compat; apply rate_scale_mono; assumption. }
  lra.
Qed.

(** The adjusted profit is an amount that does not depend on the rates,
    less the levies. *)
Lemma real_adjusted_profit (k : TaxRateConfig.t) :
  Real.profitBeforeTax data activity k + LalurAdjustments.additions adj
  - LalurAdjustments.exclusions adj
  == FinancialData.revenueAnnual data - FinancialData.deductions data
     - (FinancialData.cogs data + FinancialData.expenses data
        + FinancialData.payrollBase data)
     + FinancialData.financialRevenues data
     - FinancialData.financialExpenses data
     + LalurAdjustments.additions adj - LalurAdjustments.exclusions adj
     - levies k.
Proof.
  unfold levies, Real.profitBeforeTax, Real.operationalResult,
    Real.financialResult, Real.netRevenue, Real.totalDeductibleExpenses.
  ring.
Qed.

Lemma real_total_shape (k : TaxRateConfig.t) :
  Real.totalTax data activity k adj
  == Real.taxableIncome data activity k adj * (TaxRateConfig.irpj k / 100)
     + Qmax 0 (Real.taxableIncome data activity k adj - 240000)
       * (TaxRateConfig.irpjAdicional k / 100)
     + Real.taxableIncome data activity k adj * (TaxRateConfig.csll k / 100)
     + levies k.
Proof.
  apply total_regroup.
Qed.

Lemma real_total_mono :
  Real.totalTax data activity c adj <= Real.totalTax data activity c' adj.
Proof.
  rewrite !real_total_shape.
  pose proof real_levies_mono as Hl.
  pose proof (real_adjusted_profit c) as Hc.
  pose proof (real_adjusted_profit c') as Hc'.
  set (t1 := Real.taxableIncome data activity c adj) in *.
  set (t2 := Real.taxableIncome data activity c' adj) in *.
  assert (Ht1 : 0 <= t1) by apply max0_nonneg.
  assert (Hdec : t2 <= t1 /\ t1 - t2 <= levies c' - levies c).
  { unfold t1, t2, Real.taxableIncome.
    set (a1 := Real.profitBeforeTax data activity c
               + LalurAdjustments.additions adj
               - LalurAdjustments.exclusions adj) in *.
    set (a2 := Real.profitBeforeTax data activity c'
               + LalurAdjustments.additions adj
               - LalurAdjustments.exclusions adj) in *.
    clearbody a1 a2. qmax_specs. lra. }
  destruct Hdec as [Ht Hd].
  rate_facts rates_nonneg rates_le.
  pose proof (income_tax_absorbs (TaxRateConfig.irpj c')
                (TaxRateConfig.irpjAdicional c') (TaxRateConfig.csll c')
                t1 t2) as Habs.
  assert (Hr1 : t1 * (TaxRateConfig.irpj c / 100)
                <= t1 * (TaxRateConfig.irpj c' / 100))
    by (apply rate_scale_mono; assumption).
  assert (Hr2 : Qmax 0 (t1 - 240000) * (TaxRateConfig.irpjAdicional c / 100)
                <= Qmax 0 (t1 - 240000)
                   * (TaxRateConfig.irpjAdicional c' / 100))
    by (apply rate_scale_mono; [apply max0_nonneg | assumption]).
  assert (Hr3 : t1 * (TaxRateConfig.csll c / 100)
                <= t1 * (TaxRateConfig.csll c' / 100))
    by (apply rate_scale_mono; assumption).
  lra.
Qed.

End MonotoneReal.

(** Raising the ISS rate from 5% to 10% lowers the actual-profit total when
    IRPJ and CSLL are 60% each, since each unit of sales tax then removes
    more than a unit of income tax; and with a negative revenue raising the
    PIS rate lowers the presumed-profit total. *)
Lemma total_tax_not_monotone :
  (let c := heavyIncomeRates in
   let c' := setRate F_iss 10 c in
   getRate F_iss c <= 10
   /\ Result.totalTax (Real.calculateReal Sample.services SERVICO_ANEXO_III
                         c' Sample.noAdjustments)
      < Result.totalTax (Real.calculateReal Sample.services SERVICO_ANEXO_III
                           c Sample.noAdjustments))
  /\ (let c := DEFAULT_PRESUMIDO_CONFIG in
      let c' := setRate F_pis 1 c in
      getRate F_pis c <= 1
      /\ Result.totalTax (Presumido.calculatePresumido Sample.negativeRevenue
                            SERVICO_ANEXO_III c')
         < Result.totalTax (Presumido.calculatePresumido
                              Sample.negativeRevenue SERVICO_ANEXO_III c)).
Proof.
  cbv zeta. repeat split; vm_compute; solve [reflexivity | discriminate].
Qed.

(** C9 (amended).  With non-negative revenue, payroll base and financial
    revenue and non-negative rates, raising one rate field and keeping the
    financial data, the activity and all other rates does not lower the
    presumed-profit total; it does not lower the actual-profit total either
    when, after the raise, the IRPJ, surtax and CSLL rates total at most
    100%. *)
Theorem total_tax_monotone_in_each_rate
    (data : FinancialData.t) (activity : ActivityType)
    (c : TaxRateConfig.t) (adj : LalurAdjustments.t)
    (f : RateField) (v : Q) :
  0 <= FinancialData.revenueAnnual data ->
  0 <= FinancialData.payrollBase data ->
  0 <= FinancialData.financialRevenues data ->
  nonNegativeRates c ->
  getRate f c <= v ->
  let c' := setRate f v c in
  Result.totalTax (Presumido.calculatePresumido data activity c)
    <= Result.totalTax (Presumido.calculatePresumido data activity c')
  /\ (TaxRateConfig.irpj c' + TaxRateConfig.irpjAdicional c'
      + TaxRateConfig.csll c' <= 100 ->
      Result.totalTax (Real.calculateReal data activity c adj)
        <= Result.totalTax (Real.calculateReal data activity c' adj)).
Proof.
  intros Hrev Hpay Hfin Hnn Hv. cbv zeta.
  pose proof (setRate_raises f v c Hv) as Hle. split.
  - simpl. apply presumido_total_mono; assumption.
  - intro Hsum. simpl. apply real_total_mono; assumption.
Qed.

Lemma total_tax_monotone_services :
  let c := DEFAULT_REAL_CONFIG in
  let c' := setRate F_iss 10 c in
  Result.totalTax (Presumido.calculatePresumido Sample.services
                     SERVICO_ANEXO_III c)
    <= Result.totalTax (Presumido.calculatePresumido Sample.services
                          SERVICO_ANEXO_III c')
  /\ Result.totalTax (Real.calculateReal Sample.services SERVICO_ANEXO_III c
                        Sample.noAdjustments)
     <= Result.totalTax (Real.calculateReal Sample.services SERVICO_ANEXO_III
                           c' Sample.noAdjustments).
Proof.
  cbv zeta.
  destruct (total_tax_monotone_in_each_rate Sample.services SERVICO_ANEXO_III
              DEFAULT_REAL_CONFIG Sample.noAdjustments F_iss 10)
    as [Hp Hr].
  - vm_compute. discriminate.
  - vm_compute. discriminate.
  - vm_compute. discriminate.
  - intro g. destruct g; vm_compute; discriminate.
  - vm_compute. discriminate.
  - split; [exact Hp | apply Hr; vm_compute; discriminate].
Defined.

Lemma simples_ceiling_and_brackets_examples :
  Result.isBlocked
    (Simples.calculateSimples (Sample.withRevenue 4800001) SERVICO_ANEXO_III)
  = Some true
  /\ Result.isBlocked
       (Simples.calculateSimples (Sample.withRevenue 4800000)
          SERVICO_ANEXO_III)
     = None
  /\ Simples.range (Sample.withRevenue 360000) SERVICO_ANEXO_III
     = SimplesTableRange.mk 360000 11.2 9360
  /\ TaxBreakdown.taxSales
       (Result.breakdown
          (Simples.calculateSimples (Sample.withRevenue 360000)
             SERVICO_ANEXO_III))
     == 360000 * (11.2 / 100) - 9360.
Proof.
  split; [|split; [|split]].
  - destruct (simples_ceiling_and_brackets (Sample.withRevenue 4800001)
                SERVICO_ANEXO_III) as (H & _).
    apply H. vm_compute. reflexivity.
  - destruct (simples_ceiling_and_brackets (Sample.withRevenue 4800000)
                SERVICO_ANEXO_III) as (_ & H & _).
    apply H. vm_compute. discriminate.
  - destruct (simples_ceiling_and_brackets (Sample.withRevenue 360000)
                SERVICO_ANEXO_III) as (_ & _ & _ & H & _).
    apply H; [simpl; auto | vm_compute; reflexivity].
  - destruct (simples_ceiling_and_brackets (Sample.withRevenue 360000)
                SERVICO_ANEXO_III) as (_ & _ & _ & Hr & _ & _ & H).
    rewrite H; [| vm_compute; reflexivity | vm_compute; discriminate].
    rewrite (Hr (SimplesTableRange.mk 360000 11.2 9360));
      [reflexivity | simpl; auto | vm_compute; reflexivity].
Defined.

(** ** The effective rate without revenue *)

Lemma div_by_zero_not_finite (a b k : Q) :
  b == 0 -> JS.isFinite (JS.mul (JS.div a b) k) = false.
Proof.
  intro H. unfold JS.div. apply Qeq_bool_iff in H. rewrite H.
  destruct (Qeq_bool a 0); [reflexivity|].
  destruct (JS.lt 0 a); simpl; destruct (Qeq_bool k 0);
    try reflexivity; destruct (JS.lt 0 k); reflexivity.
Qed.

(** With a revenue of zero no calculator returns a finite effective rate. *)
Lemma effective_rate_not_finite data activity config adj lines cfg best :
  FinancialData.revenueAnnual data == 0 ->
  JS.isFinite (Result.effectiveRate (Simples.calculateSimples data activity))
  = false
  /\ JS.isFinite
       (Result.effectiveRate
          (Presumido.calculatePresumido data activity config)) = false
  /\ JS.isFinite
       (Result.effectiveRate (Real.calculateReal data activity config adj))
     = false
  /\ JS.isFinite
       (Result.effectiveRate (Reform.calculateReform data lines cfg best))
     = false.
Proof.
  intro H. repeat split; try (simpl; apply div_by_zero_not_finite; exact H).
  unfold Simples.calculateSimples.
  assert (Hle : FinancialData.revenueAnnual data <= SIMPLES_LIMIT)
    by (rewrite H; unfold SIMPLES_LIMIT; lra).
  apply gt_false_iff in Hle. rewrite Hle. simpl.
  apply div_by_zero_not_finite. exact H.
Qed.

(** C8 (the code at revenue zero and below).  For a company with no
    activity every calculator returns NaN as effective rate; with a payroll
    and no revenue the current-regime calculators return an infinite rate;
    with a negative revenue the rate is finite and not zero. *)
Theorem effective_rate_unguarded :
  let zero := Sample.noActivity in
  let res :=
    Dashboard.results zero SERVICO_ANEXO_III DEFAULT_PRESUMIDO_CONFIG
      DEFAULT_REAL_CONFIG DEFAULT_REFORM_CONFIG [] in
  (Result.effectiveRate (Dashboard.Results.simples res) = JS.NaN
   /\ Result.effectiveRate (Dashboard.Results.presumido res) = JS.NaN
   /\ Result.effectiveRate (Dashboard.Results.real res) = JS.NaN
   /\ Result.effectiveRate (Dashboard.Results.reform res) = JS.NaN)
  /\ (Result.effectiveRate
        (Simples.calculateSimples Sample.payrollOnly SERVICO_ANEXO_III)
      = JS.PosInf
      /\ Result.effectiveRate
           (Presumido.calculatePresumido Sample.payrollOnly SERVICO_ANEXO_III
              DEFAULT_PRESUMIDO_CONFIG)
         = JS.PosInf
      /\ Result.effectiveRate
           (Real.calculateReal Sample.payrollOnly SERVICO_ANEXO_III
              DEFAULT_REAL_CONFIG Sample.noAdjustments)
         = JS.PosInf)
  /\ (exists q,
        Result.effectiveRate
          (Simples.calculateSimples Sample.negativeRevenue SERVICO_ANEXO_III)
        = JS.Fin q
        /\ q == -1200).
Proof.
  cbv zeta. repeat split; try (vm_compute; reflexivity).
  eexists. split; [vm_compute; reflexivity | vm_compute; reflexivity].
Qed.

(** ** Employer charges and payroll tax in the breakdown *)

Lemma bestCurrent_is_candidate (s p r : Result.t) :
  In (Dashboard.bestCurrent s p r) [s; p; r].
Proof.
  unfold Dashboard.bestCurrent.
  destruct (Dashboard.allCurrent s p r) as [| first rest] eqn:E.
  - simpl. auto.
  - destruct (fold_cheaper_split rest first) as (before & after & Heq & _).
    assert (Hin : In (fold_left Dashboard.cheaper rest first)
                     (Dashboard.allCurrent s p r)).
    { rewrite E, Heq. apply in_or_app. right. left. reflexivity. }
    unfold Dashboard.allCurrent in Hin. apply filter_In in Hin.
    apply Hin.
Qed.

Lemma simples_charges data activity :
  chargesContainPayrollTax (Simples.calculateSimples data activity).
Proof.
  unfold chargesContainPayrollTax, Simples.calculateSimples.
  destruct (JS.gt _ _); simpl; repeat split; ring.
Qed.

Lemma presumido_charges data activity config :
  chargesContainPayrollTax
    (Presumido.calculatePresumido data activity config).
Proof.
  unfold chargesContainPayrollTax. simpl.
  unfold Presumido.totalTax, Presumido.chargesAmount. repeat split; ring.
Qed.

Lemma real_charges data activity config adj :
  chargesContainPayrollTax (Real.calculateReal data activity config adj).
Proof.
  unfold chargesContainPayrollTax. simpl.
  unfold Real.totalTax, Real.chargesAmount, Real.totalFinancialTaxes.
  repeat split; ring.
Qed.

(** With the end-to-end scenario in general services the baseline is the
    simplified result: the payroll base is 150,000, the payroll tax of the
    baseline is zero, and the reform total is total VAT plus income tax plus
    charges, with nothing counted twice. *)
Lemma reform_total_without_double_count :
  let res :=
    Dashboard.results Sample.services SERVICO_ANEXO_III
      DEFAULT_PRESUMIDO_CONFIG DEFAULT_REAL_CONFIG DEFAULT_REFORM_CONFIG
      [Sample.expenseLine] in
  let best := Dashboard.Results.bestCurrent res in
  let reform := Dashboard.Results.reform res in
  ~ FinancialData.payrollBase Sample.services == 0
  /\ Result.regime best = SimplesNacional
  /\ TaxBreakdown.taxPayroll (Result.breakdown best) == 0
  /\ TaxBreakdown.charges (Result.breakdown best) == 12000
  /\ Result.totalTax reform
     == TaxBreakdown.taxSales (Result.breakdown reform)
        + TaxBreakdown.taxIncome (Result.breakdown best)
        + TaxBreakdown.charges (Result.breakdown best)
  /\ Result.totalTax reform == 251750 + 12000.
Proof.
  cbv zeta. repeat split; vm_compute; solve [reflexivity | discriminate].
Qed.

(** C10 (amended).  In the result of each current-regime calculator the
    charges field is the payroll-tax field plus the FGTS, and the total counts
    the charges once, so the four breakdown fields add up to their share of
    the total plus the payroll tax.  The reform total adds the payroll tax and
    the charges of the baseline to the total VAT, hence contains the payroll
    tax of the baseline twice.  That amount is not zero when the baseline is
    the presumed or the actual result and neither the payroll base nor the
    sum of the CPP, RAT and third-party rates is zero, and when the baseline
    is the simplified result of Anexo IV within the ceiling and the payroll
    base is not zero; when the baseline is the simplified result of another
    activity its payroll tax is zero and the reform total counts nothing
    twice. *)
Theorem charges_contain_payroll_tax
    (data : FinancialData.t) (activity : ActivityType)
    (presumidoConfig realConfig : TaxRateConfig.t)
    (reformConfig : ReformConfig.t) (lines : list DRELineItem.t) :
  let res :=
    Dashboard.results data activity presumidoConfig realConfig reformConfig
      lines in
  let best := Dashboard.Results.bestCurrent res in
  let reform := Dashboard.Results.reform res in
  let payrollTax (x : Result.t) :=
    TaxBreakdown.taxPayroll (Result.breakdown x) in
  let payrollRate (k : TaxRateConfig.t) :=
    TaxRateConfig.cpp k + TaxRateConfig.rat k + TaxRateConfig.inssTerceiros k
  in
  chargesContainPayrollTax (Dashboard.Results.simples res)
  /\ chargesContainPayrollTax (Dashboard.Results.presumido res)
  /\ chargesContainPayrollTax (Dashboard.Results.real res)
  /\ chargesContainPayrollTax best
  /\ Result.totalTax reform
       == TaxBreakdown.taxSales (Result.breakdown reform)
          + TaxBreakdown.taxIncome (Result.breakdown best)
          + 2 * payrollTax best
          + TaxDetailedBreakdown.fgts (Result.detailed best)
  /\ Result.totalTax reform
       - (TaxBreakdown.taxSales (Result.breakdown reform)
          + TaxBreakdown.taxIncome (Result.breakdown best)
          + TaxBreakdown.charges (Result.breakdown best))
     == payrollTax best
  /\ payrollTax (Dashboard.Results.presumido res)
       == FinancialData.payrollBase data * (payrollRate presumidoConfig / 100)
  /\ payrollTax (Dashboard.Results.real res)
       == FinancialData.payrollBase data * (payrollRate realConfig / 100)
  /\ (best = Dashboard.Results.simples res
      \/ best = Dashboard.Results.presumido res
      \/ best = Dashboard.Results.real res)
  /\ (~ FinancialData.payrollBase data == 0 ->
      (best = Dashboard.Results.presumido res ->
       ~ payrollRate presumidoConfig == 0 -> ~ payrollTax best == 0)
      /\ (best = Dashboard.Results.real res ->
          ~ payrollRate realConfig == 0 -> ~ payrollTax best == 0)
      /\ (best = Dashboard.Results.simples res ->
          activity = SERVICO_ANEXO_IV ->
          FinancialData.revenueAnnual data <= SIMPLES_LIMIT ->
          ~ payrollTax best == 0))
  /\ (best = Dashboard.Results.simples res ->
      activity <> SERVICO_ANEXO_IV ->
      payrollTax best == 0
      /\ Result.totalTax reform
         == TaxBreakdown.taxSales (Result.breakdown reform)
            + TaxBreakdown.taxIncome (Result.breakdown best)
            + TaxBreakdown.charges (Result.breakdown best)).
Proof.
  cbv zeta.
  pose proof (simples_charges data activity) as Hs.
  pose proof (presumido_charges data activity presumidoConfig) as Hp.
  pose proof (real_charges data activity realConfig
                (Dashboard.lalurAdjustments lines)) as Hr.
  set (res := Dashboard.results data activity presumidoConfig realConfig
                reformConfig lines).
  assert (Hcand : Dashboard.Results.bestCurrent res
                  = Dashboard.Results.simples res
                  \/ Dashboard.Results.bestCurrent res
                     = Dashboard.Results.presumido res
                  \/ Dashboard.Results.bestCurrent res
                     = Dashboard.Results.real res).
  { unfold res. simpl.
    destruct (bestCurrent_is_candidate
                (Simples.calculateSimples data activity)
                (Presumido.calculatePresumido data activity presumidoConfig)
                (Real.calculateReal data activity realConfig
                   (Dashboard.lalurAdjustments lines)))
      as [H | [H | [H | []]]]; auto. }
  assert (Hbest : chargesContainPayrollTax (Dashboard.Results.bestCurrent res)).
  { destruct Hcand as [-> | [-> | ->]]; assumption. }
  assert (Ep : forall k,
             Presumido.cppAmount data k
             == FinancialData.payrollBase data
                * ((TaxRateConfig.cpp k + TaxRateConfig.rat k
                    + TaxRateConfig.inssTerceiros k) / 100)).
  { intro k. unfold Presumido.cppAmount, Presumido.cppVal, Presumido.ratVal,
      Presumido.terceirosVal. field. }
  assert (Er : forall k,
             Real.cppAmount data k
             == FinancialData.payrollBase data
                * ((TaxRateConfig.cpp k + TaxRateConfig.rat k
                    + TaxRateConfig.inssTerceiros k) / 100)).
  { intro k. unfold Real.cppAmount, Real.cppVal, Real.ratVal,
      Real.terceirosVal. field. }
  assert (Hnz : forall x y, ~ x == 0 -> ~ y == 0 -> ~ x * (y / 100) == 0).
  { intros x y Hx Hy H. apply Qmult_integral in H.
    destruct H as [H | H]; [exact (Hx H)|].
    apply Hy. rewrite <- (Qmult_0_l (/ 100)) in H.
    unfold Qdiv in H. apply Qmult_inj_r in H; [exact H | discriminate]. }
  assert (Htot : Result.totalTax (Dashboard.Results.reform res)
                 == TaxBreakdown.taxSales
                      (Result.breakdown (Dashboard.Results.reform res))
                    + TaxBreakdown.taxIncome
                        (Result.breakdown (Dashboard.Results.bestCurrent res))
                    + TaxBreakdown.taxPayroll
                        (Result.breakdown (Dashboard.Results.bestCurrent res))
                    + TaxBreakdown.charges
                        (Result.breakdown (Dashboard.Results.bestCurrent res)))
    by reflexivity.
  assert (Hsz : activity <> SERVICO_ANEXO_IV ->
                TaxBreakdown.taxPayroll
                  (Result.breakdown (Dashboard.Results.simples res)) == 0).
  { intro Ha. unfold res. simpl. unfold Simples.calculateSimples.
    destruct (JS.gt _ _); simpl; [reflexivity|].
    unfold Simples.cppAmount.
    destruct activity; try reflexivity. contradiction. }
  repeat match goal with |- _ /\ _ => split end; try assumption.
  - destruct Hbest as (Hc & _). cbv zeta in Hc. rewrite Htot, Hc. ring.
  - rewrite Htot. ring.
  - unfold res. simpl. apply Ep.
  - unfold res. simpl. apply Er.
  - intro Hpay. split; [|split].
    + intros -> Hrate. unfold res. simpl. rewrite Ep. apply Hnz; assumption.
    + intros -> Hrate. unfold res. simpl. rewrite Er. apply Hnz; assumption.
    + intros -> -> Hle. unfold res. simpl. unfold Simples.calculateSimples.
      apply gt_false_iff in Hle. rewrite Hle. simpl.
      unfold Simples.cppAmount. intro H. apply Qmult_integral in H.
      destruct H as [H | H]; [exact (Hpay H) | discriminate H].
  - intros Hb Ha. specialize (Hsz Ha). rewrite Htot, Hb.
    split; [exact Hsz|]. rewrite Hsz. ring.
Qed.

Lemma charges_contain_payroll_tax_baselines :
  let iv :=
    Dashboard.results Sample.services SERVICO_ANEXO_IV
      DEFAULT_PRESUMIDO_CONFIG DEFAULT_REAL_CONFIG DEFAULT_REFORM_CONFIG
      [Sample.expenseLine] in
  let above :=
    Dashboard.results (Sample.withRevenue 4800001) SERVICO_ANEXO_III
      DEFAULT_PRESUMIDO_CONFIG DEFAULT_REAL_CONFIG DEFAULT_REFORM_CONFIG
      [Sample.expenseLine] in
  let iii :=
    Dashboard.results Sample.services SERVICO_ANEXO_III
      DEFAULT_PRESUMIDO_CONFIG DEFAULT_REAL_CONFIG DEFAULT_REFORM_CONFIG
      [Sample.expenseLine] in
  ~ TaxBreakdown.taxPayroll
      (Result.breakdown (Dashboard.Results.bestCurrent iv)) == 0
  /\ ~ TaxBreakdown.taxPayroll
        (Result.breakdown (Dashboard.Results.bestCurrent above)) == 0
  /\ TaxBreakdown.taxPayroll
       (Result.breakdown (Dashboard.Results.bestCurrent iii)) == 0.
Proof.
  cbv zeta. split; [|split].
  - destruct (charges_contain_payroll_tax Sample.services SERVICO_ANEXO_IV
                DEFAULT_PRESUMIDO_CONFIG DEFAULT_REAL_CONFIG
                DEFAULT_REFORM_CONFIG [Sample.expenseLine])
      as (_ & _ & _ & _ & _ & _ & _ & _ & _ & H & _).
    destruct H as (_ & _ & Hs); [vm_compute; discriminate|].
    apply Hs; [vm_compute; reflexivity | reflexivity
               | vm_compute; discriminate].
  - destruct (charges_contain_payroll_tax (Sample.withRevenue 4800001)
                SERVICO_ANEXO_III DEFAULT_PRESUMIDO_CONFIG
                DEFAULT_REAL_CONFIG DEFAULT_REFORM_CONFIG
                [Sample.expenseLine])
      as (_ & _ & _ & _ & _ & _ & _ & _ & _ & H & _).
    destruct H as (Hp & _ & _); [vm_compute; discriminate|].
    apply Hp; [vm_compute; reflexivity | vm_compute; discriminate].
  - destruct (charges_contain_payroll_tax Sample.services SERVICO_ANEXO_III
                DEFAULT_PRESUMIDO_CONFIG DEFAULT_REAL_CONFIG
                DEFAULT_REFORM_CONFIG [Sample.expenseLine])
      as (_ & _ & _ & _ & _ & _ & _ & _ & _ & _ & H).
    apply H; [vm_compute; reflexivity | discriminate].
Defined.

(** * Further properties *)

(** ** The summary computed from the lines *)

Lemma sumQ_app (a b : list Q) : sumQ (a ++ b) == sumQ a + sumQ b.
Proof.
  induction a as [| x a IH]; simpl; [ring|]. rewrite IH. ring.
Qed.

Lemma sumQ_nonneg (l : list Q) : (forall x, In x l -> 0 <= x) -> 0 <= sumQ l.
Proof.
  induction l as [| x l IH]; intro H; simpl; [apply Qle_refl|].
  assert (0 <= x) by (apply H; left; reflexivity).
  assert (0 <= sumQ l) by (apply IH; intros y Hy; apply H; right; exact Hy).
  lra.
Qed.

Lemma sumQ_map_le {A : Type} (f g : A -> Q) (l : list A) :
  (forall x, In x l -> f x <= g x) -> sumQ (map f l) <= sumQ (map g l).
Proof.
  induction l as [| x l IH]; intro H; simpl; [apply Qle_refl|].
  assert (f x <= g x) by (apply H; left; reflexivity).
  assert (sumQ (map f l) <= sumQ (map g l))
    by (apply IH; intros y Hy; apply H; right; exact Hy).
  lra.
Qed.

Lemma sumQ_map_plus {A : Type} (f g : A -> Q) (l : list A) :
  sumQ (map (fun x => f x + g x) l) == sumQ (map f l) + sumQ (map g l).
Proof.
  induction l as [| x l IH]; simpl; [ring|]. rewrite IH. ring.
Qed.

Lemma fold_addAbs_sum (l : list DRELineItem.t) : forall acc,
  fold_left Ledger.addAbs l acc
  == acc + sumQ (map (fun x => Qabs (DRELineItem.value x)) l).
Proof.
  induction l as [| x l IH]; intro acc; simpl; [ring|].
  rewrite IH. unfold Ledger.addAbs. ring.
Qed.

Lemma filtered_sum (p : DRELineItem.t -> bool) (l : list DRELineItem.t) :
  fold_left Ledger.addAbs (filter p l) 0 == sumQ (map (absIf p) l).
Proof.
  rewrite fold_addAbs_sum.
  induction l as [| x l IH]; simpl; [ring|].
  unfold absIf at 1. destruct (p x); simpl; lra.
Qed.

Lemma absIf_nonneg p l : 0 <= absIf p l.
Proof.
  unfold absIf. destruct (p l); [apply Qabs_nonneg | apply Qle_refl].
Qed.

Lemma filtered_sum_nonneg p l : 0 <= fold_left Ledger.addAbs (filter p l) 0.
Proof.
  rewrite filtered_sum. apply sumQ_nonneg. intros x Hx.
  apply in_map_iff in Hx. destruct Hx as (y & <- & _). apply absIf_nonneg.
Qed.

Lemma sumByTag_nonneg lines tag : 0 <= Ledger.sumByTag lines tag.
Proof. apply filtered_sum_nonneg. Qed.

Lemma LineTag_eqb_eq a b : LineTag_eqb a b = true <-> a = b.
Proof. destruct a, b; simpl; split; congruence. Qed.

(** X1.  Every total that [recalcTotals] computes is non-negative, the
    credit base is always set and is at most the cost of goods plus the
    operating expenses, and the two fields that are not totals are copied from
    the summary given. *)
Theorem recalcTotals_bounds
    (data : FinancialData.t) (lines : list DRELineItem.t) :
  let d := Ledger.recalcTotals data lines in
  0 <= FinancialData.revenueAnnual d
  /\ 0 <= FinancialData.deductions d
  /\ 0 <= FinancialData.taxesOnSales d
  /\ 0 <= FinancialData.taxesIncome d
  /\ 0 <= FinancialData.payrollBase d
  /\ 0 <= FinancialData.expenses d
  /\ 0 <= FinancialData.financialRevenues d
  /\ 0 <= FinancialData.financialExpenses d
  /\ 0 <= FinancialData.cogs d
  /\ (exists base,
        FinancialData.realCreditBase d = Some base
        /\ 0 <= base
        /\ base <= FinancialData.cogs d + FinancialData.expenses d)
  /\ FinancialData.revenueCurrent d = FinancialData.revenueCurrent data
  /\ FinancialData.profitBeforeTax d = FinancialData.profitBeforeTax data.
Proof.
  cbv zeta. simpl.
  repeat match goal with |- _ /\ _ => split end;
    try apply sumByTag_nonneg; try reflexivity.
  exists (Ledger.creditBase lines). split; [reflexivity|]. split.
  - apply filtered_sum_nonneg.
  - unfold Ledger.creditBase, Ledger.sumByTag. rewrite !filtered_sum.
    rewrite <- sumQ_map_plus. apply sumQ_map_le. intros x _.
    unfold absIf, Ledger.countsForCredit.
    pose proof (Qabs_nonneg (DRELineItem.value x)) as Hv.
    destruct (Ledger.hasTag DESPESA x) eqn:Ed;
      destruct (Ledger.hasTag CUSTO x) eqn:Ec;
      destruct (Ledger.isAnalytical x);
      destruct (JS.truthy (DRELineItem.useForCredit x)); simpl; lra.
Qed.

Lemma outside_totals_filtered l tag :
  tag <> OUTROS -> tag <> IGNORE ->
  outsideTotals l -> Ledger.hasTag tag l && Ledger.isAnalytical l = false.
Proof.
  unfold outsideTotals, Ledger.hasTag, Ledger.isAnalytical.
  intros Ho Hi [H | [H | [H | H]]]; rewrite H.
  - apply andb_false_r.
  - reflexivity.
  - destruct tag; solve [reflexivity | contradiction].
  - destruct tag; solve [reflexivity | contradiction].
Qed.

(** The total of a tag that the summary reads. *)
Lemma sumByTag_skip before l after tag :
  Ledger.hasTag tag l && Ledger.isAnalytical l = false ->
  Ledger.sumByTag (before ++ l :: after) tag
  = Ledger.sumByTag (before ++ after) tag.
Proof.
  intro H. unfold Ledger.sumByTag. rewrite !filter_app. simpl.
  rewrite H. reflexivity.
Qed.

(** X3.  A synthetic line, a line with no tag and a line tagged OUTROS or
    IGNORE contribute to no total when the tag read is one of the nine that
    the summary uses: with or without such a line the summary is the same. *)
Theorem recalcTotals_ignores_structural_lines
    (data : FinancialData.t) (before after : list DRELineItem.t)
    (l : DRELineItem.t) :
  outsideTotals l ->
  Ledger.recalcTotals data (before ++ l :: after)
  = Ledger.recalcTotals data (before ++ after).
Proof.
  intro H. unfold Ledger.recalcTotals.
  rewrite !(sumByTag_skip before l after)
    by (apply outside_totals_filtered; [discriminate | discriminate | exact H]).
  assert (Hc : Ledger.countsForCredit l = false).
  { unfold Ledger.countsForCredit.
    assert (Hd : Ledger.hasTag DESPESA l && Ledger.isAnalytical l = false)
      by (apply outside_totals_filtered;
          [discriminate | discriminate | exact H]).
    assert (Hk : Ledger.hasTag CUSTO l && Ledger.isAnalytical l = false)
      by (apply outside_totals_filtered;
          [discriminate | discriminate | exact H]).
    destruct (Ledger.isAnalytical l); [|apply andb_false_r].
    rewrite andb_true_r in Hd, Hk. rewrite Hd, Hk.
    rewrite andb_false_r. reflexivity. }
  unfold Ledger.creditBase. rewrite !filter_app. simpl. rewrite Hc.
  reflexivity.
Qed.

Lemma recalcTotals_ignores_structural_lines_example :
  Ledger.recalcTotals Sample.noActivity
    ([Sample.expenseLine]
     ++ Ledger.applyEdit (Ledger.EditLineType SYNTHETIC)
          Sample.costLineNoCredit
     :: [])
  = Ledger.recalcTotals Sample.noActivity ([Sample.expenseLine] ++ []).
Proof.
  apply recalcTotals_ignores_structural_lines. left. reflexivity.
Defined.

(** ** Line edits *)

Lemma replaceAt_length i x l : List.length (Ledger.replaceAt i x l) = List.length l.
Proof.
  revert i. induction l as [| a l IH]; intros [| i]; simpl; auto.
Qed.

Lemma replaceAt_same i x l y :
  nth_error l i = Some y -> nth_error (Ledger.replaceAt i x l) i = Some x.
Proof.
  revert i. induction l as [| a l IH]; intros [| i]; simpl;
    try discriminate; auto.
Qed.

Lemma replaceAt_other i j x l :
  j <> i -> nth_error (Ledger.replaceAt i x l) j = nth_error l j.
Proof.
  revert i j. induction l as [| a l IH]; intros [| i] [| j] H; simpl;
    try reflexivity; try contradiction.
  apply IH. intro E. apply H. rewrite E. reflexivity.
Qed.

Lemma replaceAt_keys i x l y :
  nth_error l i = Some y -> Ledger.summaryKey x = Ledger.summaryKey y ->
  map Ledger.summaryKey (Ledger.replaceAt i x l) = map Ledger.summaryKey l.
Proof.
  revert i. induction l as [| a l IH]; intros [| i]; simpl;
    try discriminate.
  - intros [= ->] ->. reflexivity.
  - intros H K. rewrite (IH i H K). reflexivity.
Qed.

(** A total that selects lines by their key is the same for two lists with
    the same keys. *)
Lemma filtered_sum_by_key (p : DRELineItem.t -> bool) :
  (forall a b, Ledger.summaryKey a = Ledger.summaryKey b -> p a = p b) ->
  forall l l' acc,
    map Ledger.summaryKey l = map Ledger.summaryKey l' ->
    fold_left Ledger.addAbs (filter p l) acc
    = fold_left Ledger.addAbs (filter p l') acc.
Proof.
  intros Hp. induction l as [| a l IH]; intros [| b l'] acc; simpl;
    try discriminate; [reflexivity|].
  intro Hm.
  assert (K : Ledger.summaryKey a = Ledger.summaryKey b) by congruence.
  assert (E : map Ledger.summaryKey l = map Ledger.summaryKey l')
    by congruence.
  clear Hm. rewrite (Hp a b K).
  assert (Hv : DRELineItem.value a = DRELineItem.value b).
  { unfold Ledger.summaryKey in K. congruence. }
  destruct (p b); simpl; [|apply IH; exact E].
  unfold Ledger.addAbs at 2 4. rewrite Hv. apply IH. exact E.
Qed.

Lemma recalcTotals_by_key data l l' :
  map Ledger.summaryKey l = map Ledger.summaryKey l' ->
  Ledger.recalcTotals data l = Ledger.recalcTotals data l'.
Proof.
  intro H.
  assert (Ht : forall tag, Ledger.sumByTag l tag = Ledger.sumByTag l' tag).
  { intro tag. unfold Ledger.sumByTag. apply filtered_sum_by_key; [|exact H].
    intros a b K. unfold Ledger.summaryKey in K.
    unfold Ledger.hasTag, Ledger.isAnalytical.
    assert (DRELineItem.tag a = DRELineItem.tag b) as -> by congruence.
    assert (DRELineItem.lineType a = DRELineItem.lineType b) as ->
      by congruence.
    reflexivity. }
  assert (Hc : Ledger.creditBase l = Ledger.creditBase l').
  { unfold Ledger.creditBase. apply filtered_sum_by_key; [|exact H].
    intros a b K. unfold Ledger.summaryKey in K.
    unfold Ledger.countsForCredit, Ledger.hasTag, Ledger.isAnalytical.
    assert (DRELineItem.tag a = DRELineItem.tag b) as -> by congruence.
    assert (DRELineItem.lineType a = DRELineItem.lineType b) as ->
      by congruence.
    assert (DRELineItem.useForCredit a = DRELineItem.useForCredit b) as ->
      by congruence.
    reflexivity. }
  unfold Ledger.recalcTotals. rewrite !Ht, Hc. reflexivity.
Qed.

Lemma skipped_edit_keeps_key e l :
  Ledger.recalculates e = false ->
  Ledger.summaryKey (Ledger.applyEdit e l) = Ledger.summaryKey l.
Proof.
  destruct e; simpl; intro H; try discriminate; reflexivity.
Qed.

(** X4.  [handleLineChange] answers exactly the indices of the list; it
    changes the edited line only and keeps the length; and when the summary
    agreed with the lines before the edit it agrees after it, also for the
    edits of the reform credit rate and of the LALUR flag, after which the
    summary is not recomputed. *)
Theorem handleLineChange_keeps_summary
    (data : FinancialData.t) (st : Ledger.State.t) (index : nat)
    (e : Ledger.LineEdit) :
  (Ledger.handleLineChange data st index e = None
   <-> (List.length (Ledger.State.displayLines st) <= index)%nat)
  /\ (forall st',
        Ledger.handleLineChange data st index e = Some st' ->
        List.length (Ledger.State.displayLines st')
        = List.length (Ledger.State.displayLines st)
        /\ (exists line,
              nth_error (Ledger.State.displayLines st) index = Some line
              /\ nth_error (Ledger.State.displayLines st') index
                 = Some (Ledger.applyEdit e line))
        /\ (forall j, j <> index ->
                      nth_error (Ledger.State.displayLines st') j
                      = nth_error (Ledger.State.displayLines st) j)
        /\ (Ledger.consistent data st -> Ledger.consistent data st')).
Proof.
  unfold Ledger.handleLineChange. split.
  - destruct (nth_error (Ledger.State.displayLines st) index) as [line |]
      eqn:E.
    + split; [discriminate|]. intro H. apply nth_error_None in H. congruence.
    + split; [|reflexivity]. intros _. apply nth_error_None. exact E.
  - intros st'.
    destruct (nth_error (Ledger.State.displayLines st) index) as [line |]
      eqn:E; [|discriminate].
    intros [= <-]. simpl. split; [apply replaceAt_length|]. split.
    + exists line. split; [reflexivity|].
      apply (replaceAt_same _ _ _ line). exact E.
    + split; [intros j Hj; apply replaceAt_other; exact Hj|].
      unfold Ledger.consistent. simpl. intro Hc.
      destruct (Ledger.recalculates e) eqn:R; [reflexivity|].
      rewrite Hc. symmetry. apply recalcTotals_by_key.
      apply (replaceAt_keys _ _ _ line E).
      apply skipped_edit_keeps_key. exact R.
Qed.

Lemma handleLineChange_keeps_summary_example :
  let st :=
    Ledger.initialState (fun s => s) Sample.noActivity
      [Ledger.asRaw Sample.costLineNoCredit; Ledger.asRaw Sample.expenseLine]
  in
  exists st',
    Ledger.handleLineChange Sample.noActivity st 1
      (Ledger.EditReformCreditRate (Some 50)) = Some st'
    /\ Ledger.consistent Sample.noActivity st'.
Proof.
  cbv zeta. eexists. split; [reflexivity|].
  destruct (handleLineChange_keeps_summary Sample.noActivity
              (Ledger.initialState (fun s => s) Sample.noActivity
                 [Ledger.asRaw Sample.costLineNoCredit;
                  Ledger.asRaw Sample.expenseLine])
              1 (Ledger.EditReformCreditRate (Some 50))) as [_ Hs].
  destruct (Hs _ eq_refl) as (_ & _ & _ & Hc). apply Hc. reflexivity.
Defined.

(** ** The summary of the Dashboard in the actual-profit calculator *)

Lemma creditBase_zero_without_flag lines :
  (forall l, In l lines -> JS.truthy (DRELineItem.useForCredit l) = false) ->
  Ledger.creditBase lines = 0.
Proof.
  intro H. unfold Ledger.creditBase.
  assert (E : filter Ledger.countsForCredit lines = []).
  { induction lines as [| a lines IH]; simpl; [reflexivity|].
    unfold Ledger.countsForCredit at 1.
    rewrite (H a) by (left; reflexivity). simpl.
    apply IH. intros l Hl. apply H. right. exact Hl. }
  rewrite E. reflexivity.
Qed.

(** X5.  On a summary made by [recalcTotals] the credit base of the
    actual-profit calculator is the total of the lines ticked for credit,
    whatever the activity: the fallback to the cost of goods or to 20% of the
    expenses is never taken, the PIS and COFINS payable do not depend on the
    activity, and when no line is ticked they are the full debits. *)
Theorem real_credit_base_from_lines
    (data : FinancialData.t) (lines : list DRELineItem.t)
    (activity activity' : ActivityType) (config : TaxRateConfig.t)
    (adj : LalurAdjustments.t) :
  let summary := Ledger.recalcTotals data lines in
  let r := Real.calculateReal summary activity config adj in
  let r' := Real.calculateReal summary activity' config adj in
  Real.creditBase summary activity = Ledger.creditBase lines
  /\ TaxDetailedBreakdown.pis (Result.detailed r)
     = TaxDetailedBreakdown.pis (Result.detailed r')
  /\ TaxDetailedBreakdown.cofins (Result.detailed r)
     = TaxDetailedBreakdown.cofins (Result.detailed r')
  /\ ((forall l, In l lines ->
                 JS.truthy (DRELineItem.useForCredit l) = false) ->
      0 <= TaxRateConfig.pis config -> 0 <= TaxRateConfig.cofins config ->
      TaxDetailedBreakdown.pis (Result.detailed r)
      == Qmax 0 (Ledger.sumByTag lines RECEITA
                 - Ledger.sumByTag lines DEDUCAO)
         * (TaxRateConfig.pis config / 100)
      /\ TaxDetailedBreakdown.cofins (Result.detailed r)
         == Qmax 0 (Ledger.sumByTag lines RECEITA
                    - Ledger.sumByTag lines DEDUCAO)
            * (TaxRateConfig.cofins config / 100)).
Proof.
  cbv zeta. repeat match goal with |- _ /\ _ => split end;
    try reflexivity.
  intros Hno Hp Hc. simpl.
  unfold Real.pisPayable, Real.cofinsPayable, Real.debitoPis,
    Real.debitoCofins, Real.creditoPis, Real.creditoCofins, Real.creditBase,
    Real.revenueBase, Real.pisRate, Real.cofinsRate.
  simpl. rewrite (creditBase_zero_without_flag lines Hno).
  set (base := Qmax 0 (Ledger.sumByTag lines RECEITA
                       - Ledger.sumByTag lines DEDUCAO)).
  assert (Hb : 0 <= base) by apply max0_nonneg.
  pose proof (rate_scale_nonneg base _ Hb Hp).
  pose proof (rate_scale_nonneg base _ Hb Hc).
  split; rewrite max0_of_nonneg; lra.
Qed.

Lemma real_credit_base_from_lines_example :
  let summary :=
    Ledger.recalcTotals Sample.services
      [Sample.expenseLine; Sample.costLineNoCredit] in
  let r :=
    Real.calculateReal summary COMERCIO DEFAULT_REAL_CONFIG
      Sample.noAdjustments in
  TaxDetailedBreakdown.pis (Result.detailed r) == 0
  /\ TaxDetailedBreakdown.cofins (Result.detailed r) == 0.
Proof.
  cbv zeta.
  destruct (real_credit_base_from_lines Sample.services
              [Sample.expenseLine; Sample.costLineNoCredit]
              COMERCIO COMERCIO DEFAULT_REAL_CONFIG Sample.noAdjustments)
    as (_ & _ & _ & H).
  destruct H as [Hp Hc].
  - intros l [<- | [<- | []]]; reflexivity.
  - vm_compute. discriminate.
  - vm_compute. discriminate.
  - split; [rewrite Hp | rewrite Hc]; vm_compute; reflexivity.
Defined.

(** ** The first classification of the lines *)

(** Case analysis on every test of the tag inference. *)
Ltac split_tests :=
  repeat match goal with
         | |- context [if ?c then _ else _] => destruct c eqn:?
         | H : context [if ?c then _ else _] |- _ => destruct c eqn:?
         end.

(** X6.  The inference never overrides an explicit tag other than OUTROS.
    A line gets REC_FIN only when it had that tag or its value is positive,
    DESP_FIN only when it had that tag or its value is not positive, DESPESA
    only when it had that tag or it is a negative line that is no total, and
    IGNORE only when it had that tag. *)
Theorem inferTag_respects_explicit
    (toUpperCase : string -> string) (line : RawLine.t) :
  let tag := Init.inferTag toUpperCase line in
  (forall t, RawLine.tag line = Some t -> t <> OUTROS -> tag = t)
  /\ (tag = REC_FIN ->
      RawLine.tag line = Some REC_FIN \/ 0 < RawLine.value line)
  /\ (tag = DESP_FIN ->
      RawLine.tag line = Some DESP_FIN \/ RawLine.value line <= 0)
  /\ (tag = DESPESA ->
      RawLine.tag line = Some DESPESA
      \/ (RawLine.value line < 0 /\ RawLine.isTotal line = false))
  /\ (tag = IGNORE -> RawLine.tag line = Some IGNORE).
Proof.
  cbv zeta. unfold Init.inferTag.
  repeat match goal with |- _ /\ _ => split end.
  - intros t -> Ht. destruct t; simpl; solve [reflexivity | contradiction].
  - destruct (RawLine.tag line) as [[] |]; simpl; split_tests;
      intro H; try discriminate; auto.
    all: right; apply gt_true_iff; assumption.
  - destruct (RawLine.tag line) as [[] |]; simpl; split_tests;
      intro H; try discriminate; auto.
    all: right; apply gt_false_iff; assumption.
  - destruct (RawLine.tag line) as [[] |]; simpl; split_tests;
      intro H; try discriminate; auto.
    all: right;
      match goal with
      | E : _ && _ = true |- _ =>
          apply andb_true_iff in E; destruct E as [E1 E2];
          apply lt_true_iff in E1; apply negb_true_iff in E2; auto
      end.
  - destruct (RawLine.tag line) as [[] |]; simpl; split_tests;
      intro H; try discriminate; auto.
Qed.

Lemma inferTag_respects_explicit_example :
  Init.inferTag (fun s => s) (Ledger.asRaw Sample.expenseLine) = DESPESA.
Proof.
  destruct (inferTag_respects_explicit (fun s => s)
              (Ledger.asRaw Sample.expenseLine)) as (H & _).
  apply H; [reflexivity | discriminate].
Defined.

(** X7.  Classifying again the lines that the classification produced
    changes nothing. *)
Theorem initialLine_idempotent
    (toUpperCase : string -> string) (line : RawLine.t) :
  Init.initialLine toUpperCase
    (Ledger.asRaw (Init.initialLine toUpperCase line))
  = Init.initialLine toUpperCase line.
Proof.
  unfold Init.initialLine, Ledger.asRaw. simpl. f_equal.
  - f_equal. unfold Init.inferTag at 1. simpl.
    destruct (Init.inferTag toUpperCase line) eqn:E; simpl;
      try reflexivity.
    unfold Init.inferTag in E.
    destruct (RawLine.tag line) as [[] |]; simpl in E |- *;
      try discriminate; split_tests; congruence.
Qed.

(** X8.  Right after the first classification every line has a reform
    credit rate of zero, so the reform calculator takes no credit and, for
    non-negative rates, the VAT payable is the full debit of each leg. *)
Theorem reform_on_initial_lines_takes_no_credit
    (toUpperCase : string -> string) (data : FinancialData.t)
    (originalLines : list RawLine.t) (cfg : ReformConfig.t)
    (best : Result.t) :
  let lines := Init.initialLines toUpperCase originalLines in
  let r := Reform.calculateReform data lines cfg best in
  (forall l, In l lines -> DRELineItem.reformCreditRate l = Some 0)
  /\ ReformResult.creditIBS r = 0
  /\ ReformResult.creditCBS r = 0
  /\ ReformResult.totalCredits r == 0
  /\ (0 <= ReformConfig.ibsRate cfg -> 0 <= ReformConfig.cbsRate cfg ->
      TaxDetailedBreakdown.ibs (Result.detailed r) = Some (Reform.ibsPayable data lines cfg)
      /\ Reform.ibsPayable data lines cfg == ReformResult.debitIBS r
      /\ Reform.cbsPayable data lines cfg == ReformResult.debitCBS r).
Proof.
  cbv zeta.
  assert (Hrate : forall l,
             In l (Init.initialLines toUpperCase originalLines) ->
             DRELineItem.reformCreditRate l = Some 0).
  { intros l Hl. unfold Init.initialLines in Hl. apply in_map_iff in Hl.
    destruct Hl as (raw & <- & _). reflexivity. }
  assert (Hcred : Reform.credits
                    (Init.initialLines toUpperCase originalLines) cfg
                  = (0, 0)).
  { unfold Reform.credits.
    generalize (Init.initialLines toUpperCase originalLines) Hrate.
    intros lines. induction lines as [| a lines IH]; intro H; simpl;
      [reflexivity|].
    rewrite accumulate_not_qualifying.
    - apply IH. intros l Hl. apply H. right. exact Hl.
    - apply zero_rate_not_qualifying. unfold Reform.creditRate.
      rewrite (H a) by (left; reflexivity). reflexivity. }
  split; [exact Hrate|]. simpl.
  unfold Reform.ibsCredit, Reform.cbsCredit. rewrite Hcred. simpl.
  split; [reflexivity|]. split; [reflexivity|]. split; [ring|].
  intros Hi Hc. split; [reflexivity|].
  unfold Reform.ibsPayable, Reform.cbsPayable, Reform.ibsCredit,
    Reform.cbsCredit. rewrite Hcred. simpl.
  unfold Reform.ibsDebit, Reform.cbsDebit, Reform.revenueBase.
  set (base := Qmax 0 (FinancialData.revenueAnnual data
                       - FinancialData.deductions data)).
  assert (Hb : 0 <= base) by apply max0_nonneg.
  pose proof (rate_scale_nonneg base _ Hb Hi).
  pose proof (rate_scale_nonneg base _ Hb Hc).
  split; rewrite max0_of_nonneg; lra.
Qed.

Lemma reform_on_initial_lines_example :
  let lines :=
    Init.initialLines (fun s => s) [Ledger.asRaw Sample.expenseLine] in
  Reform.ibsPayable Sample.services lines DEFAULT_REFORM_CONFIG == 175000
  /\ Reform.cbsPayable Sample.services lines DEFAULT_REFORM_CONFIG == 90000.
Proof.
  cbv zeta.
  destruct (reform_on_initial_lines_takes_no_credit (fun s => s)
              Sample.services [Ledger.asRaw Sample.expenseLine]
              DEFAULT_REFORM_CONFIG
              (Simples.calculateSimples Sample.services SERVICO_ANEXO_III))
    as (_ & _ & _ & _ & H).
  destruct H as (_ & Hi & Hc).
  - vm_compute. discriminate.
  - vm_compute. discriminate.
  - split; [rewrite Hi | rewrite Hc]; vm_compute; reflexivity.
Defined.

(** ** The baseline in the results of the Dashboard *)

Lemma best_is_minimal (s p r x : Result.t) :
  In x (Dashboard.allCurrent s p r) ->
  In (Dashboard.bestCurrent s p r) (Dashboard.allCurrent s p r)
  /\ Result.totalTax (Dashboard.bestCurrent s p r) <= Result.totalTax x.
Proof.
  unfold Dashboard.bestCurrent.
  destruct (Dashboard.allCurrent s p r) as [| first rest]; [intros []|].
  intro Hx.
  destruct (fold_cheaper_split rest first)
    as (before & after & Heq & Hb & Ha).
  split.
  - rewrite Heq. apply in_or_app. right. left. reflexivity.
  - rewrite Heq in Hx. apply in_app_or in Hx.
    destruct Hx as [Hx | [<- | Hx]].
    + apply Hb. exact Hx.
    + apply Qle_refl.
    + apply Qlt_le_weak. apply Ha. exact Hx.
Qed.

(** X9.  In the results of the Dashboard the presumed and the actual
    results are always candidates, since neither calculator sets the block
    flag; so the list of candidates is never empty, the baseline is a
    candidate that is not blocked, and its total is at most the presumed
    total, the actual total and, when the simplified result is not blocked,
    the simplified total. *)
Theorem results_baseline_is_cheapest
    (editableData : FinancialData.t) (activityType : ActivityType)
    (presumidoConfig realConfig : TaxRateConfig.t)
    (reformConfig : ReformConfig.t) (displayLines : list DRELineItem.t) :
  let res :=
    Dashboard.results editableData activityType presumidoConfig realConfig
      reformConfig displayLines in
  let best := Dashboard.Results.bestCurrent res in
  In (Dashboard.Results.presumido res) (Dashboard.Results.allCurrent res)
  /\ In (Dashboard.Results.real res) (Dashboard.Results.allCurrent res)
  /\ In best (Dashboard.Results.allCurrent res)
  /\ JS.truthy (Result.isBlocked best) = false
  /\ Result.totalTax best <= Result.totalTax (Dashboard.Results.presumido res)
  /\ Result.totalTax best <= Result.totalTax (Dashboard.Results.real res)
  /\ (FinancialData.revenueAnnual editableData <= SIMPLES_LIMIT ->
      Result.totalTax best
      <= Result.totalTax (Dashboard.Results.simples res)).
Proof.
  cbv zeta. simpl.
  set (s := Simples.calculateSimples editableData activityType).
  set (p := Presumido.calculatePresumido editableData activityType
              presumidoConfig).
  set (r := Real.calculateReal editableData activityType realConfig
              (Dashboard.lalurAdjustments displayLines)).
  assert (Hp : In p (Dashboard.allCurrent s p r)).
  { unfold Dashboard.allCurrent. apply filter_In. split; [|reflexivity].
    simpl. auto. }
  assert (Hr : In r (Dashboard.allCurrent s p r)).
  { unfold Dashboard.allCurrent. apply filter_In. split; [|reflexivity].
    simpl. auto. }
  destruct (best_is_minimal s p r p Hp) as [Hin Hlp].
  destruct (best_is_minimal s p r r Hr) as [_ Hlr].
  repeat match goal with |- _ /\ _ => split end; try assumption.
  - unfold Dashboard.allCurrent in Hin. apply filter_In in Hin.
    destruct Hin as [_ Hin]. apply negb_true_iff in Hin. exact Hin.
  - intro Hle. apply best_is_minimal.
    unfold Dashboard.allCurrent. apply filter_In. split; [simpl; auto|].
    unfold s, Simples.calculateSimples. apply gt_false_iff in Hle.
    rewrite Hle. reflexivity.
Qed.

Lemma results_baseline_is_cheapest_example :
  let res :=
    Dashboard.results Sample.services SERVICO_ANEXO_III
      DEFAULT_PRESUMIDO_CONFIG DEFAULT_REAL_CONFIG DEFAULT_REFORM_CONFIG [] in
  Result.totalTax (Dashboard.Results.bestCurrent res)
  <= Result.totalTax (Dashboard.Results.simples res).
Proof.
  cbv zeta.
  apply (results_baseline_is_cheapest Sample.services SERVICO_ANEXO_III
           DEFAULT_PRESUMIDO_CONFIG DEFAULT_REAL_CONFIG DEFAULT_REFORM_CONFIG
           []).
  vm_compute. discriminate.
Defined.

(** ** Totals and their parts *)

(** X10.  In the result of each current-regime calculator the fifteen
    amounts of the detailed breakdown add up to the total tax; in the reform
    result these fifteen amounts are zero and the three VAT amounts add up to
    the sales-tax field. *)
Theorem detailed_breakdown_adds_up
    (data : FinancialData.t) (activity : ActivityType)
    (config : TaxRateConfig.t) (adj : LalurAdjustments.t)
    (lines : list DRELineItem.t) (cfg : ReformConfig.t) (best : Result.t) :
  let s := Simples.calculateSimples data activity in
  let p := Presumido.calculatePresumido data activity config in
  let r := Real.calculateReal data activity config adj in
  let f := Reform.calculateReform data lines cfg best in
  detailedTotal (Result.detailed s) == Result.totalTax s
  /\ detailedTotal (Result.detailed p) == Result.totalTax p
  /\ detailedTotal (Result.detailed r) == Result.totalTax r
  /\ detailedTotal (Result.detailed f) == 0
  /\ (exists ibs cbs sel,
        TaxDetailedBreakdown.ibs (Result.detailed f) = Some ibs
        /\ TaxDetailedBreakdown.cbs (Result.detailed f) = Some cbs
        /\ TaxDetailedBreakdown.selectiveTax (Result.detailed f) = Some sel
        /\ ibs + cbs + sel == TaxBreakdown.taxSales (Result.breakdown f)).
Proof.
  cbv zeta. repeat match goal with |- _ /\ _ => split end.
  - unfold Simples.calculateSimples, detailedTotal.
    destruct (JS.gt _ _); simpl; ring.
  - unfold detailedTotal. simpl.
    unfold Presumido.totalTax, Presumido.totalIRPJ, Presumido.totalSalesTax,
      Presumido.cppAmount.
    ring.
  - unfold detailedTotal. simpl.
    unfold Real.totalTax, Real.totalIRPJ, Real.totalSalesTax,
      Real.totalFinancialTaxes, Real.cppAmount.
    ring.
  - unfold detailedTotal. simpl. ring.
  - simpl. do 3 eexists.
    split; [reflexivity|]. split; [reflexivity|]. split; [reflexivity|].
    unfold Reform.totalIVA. ring.
Qed.

(** X11.  The values of the [details] rows add up to the total tax in the
    simplified result (blocked or not) and in the presumed result; in the
    actual-profit result they add up to the total less the IPI, which has no
    row there. *)
Theorem details_rows_add_up
    (data : FinancialData.t) (activity : ActivityType)
    (config : TaxRateConfig.t) (adj : LalurAdjustments.t) :
  let s := Simples.calculateSimples data activity in
  let p := Presumido.calculatePresumido data activity config in
  let r := Real.calculateReal data activity config adj in
  detailsTotal s == Result.totalTax s
  /\ detailsTotal p == Result.totalTax p
  /\ detailsTotal r
     == Result.totalTax r - TaxDetailedBreakdown.ipi (Result.detailed r).
Proof.
  cbv zeta. unfold detailsTotal. repeat match goal with |- _ /\ _ => split end.
  - unfold Simples.calculateSimples.
    destruct (JS.gt _ _); [simpl; ring|].
    destruct activity; simpl; unfold Simples.cppAmount; ring.
  - simpl. unfold Presumido.totalTax, Presumido.totalSalesTax. ring.
  - simpl. unfold Real.totalTax, Real.totalSalesTax. ring.
Qed.

(** ** Signs of the amounts *)

Section NonNegative.
Variables (data : FinancialData.t) (activity : ActivityType).
Variables (c : TaxRateConfig.t) (adj : LalurAdjustments.t).
Hypothesis revenue_nonneg : 0 <= FinancialData.revenueAnnual data.
Hypothesis payroll_nonneg : 0 <= FinancialData.payrollBase data.
Hypothesis financial_nonneg : 0 <= FinancialData.financialRevenues data.
Hypothesis rates_nonneg : nonNegativeRates c.

Lemma presumido_fields_nonneg :
  let b := Result.breakdown (Presumido.calculatePresumido data activity c) in
  0 <= TaxBreakdown.taxSales b /\ 0 <= TaxBreakdown.taxIncome b
  /\ 0 <= TaxBreakdown.taxPayroll b /\ 0 <= TaxBreakdown.charges b.
Proof.
  cbv zeta. simpl.
  pose proof (rates_nonneg F_pis); pose proof (rates_nonneg F_cofins);
    pose proof (rates_nonneg F_irpj);
    pose proof (rates_nonneg F_irpjAdicional);
    pose proof (rates_nonneg F_csll); pose proof (rates_nonneg F_ipi);
    pose proof (rates_nonneg F_iss); pose proof (rates_nonneg F_icms);
    pose proof (rates_nonneg F_rat); pose proof (rates_nonneg F_cpp);
    pose proof (rates_nonneg F_inssTerceiros);
    pose proof (rates_nonneg F_fgts);
    pose proof (rates_nonneg F_presuncaoIRPJ);
    pose proof (rates_nonneg F_presuncaoCSLL).
  simpl getRate in *.
  assert (Hb : 0 <= Presumido.baseIRPJ data c).
  { unfold Presumido.baseIRPJ, Presumido.calculationBase,
      Presumido.percentualPresuncaoIRPJ.
    pose proof (rate_scale_nonneg (FinancialData.revenueAnnual data)
                  (TaxRateConfig.presuncaoIRPJ c)).
    lra. }
  assert (Hc : 0 <= Presumido.baseCSLL data c).
  { unfold Presumido.baseCSLL, Presumido.calculationBase,
      Presumido.percentualPresuncaoCSLL.
    pose proof (rate_scale_nonneg (FinancialData.revenueAnnual data)
                  (TaxRateConfig.presuncaoCSLL c)).
    lra. }
  assert (Hpay : 0 <= Presumido.cppAmount data c).
  { unfold Presumido.cppAmount, Presumido.cppVal, Presumido.ratVal,
      Presumido.terceirosVal.
    pose proof (rate_scale_nonneg (FinancialData.payrollBase data)
                  (TaxRateConfig.cpp c)).
    pose proof (rate_scale_nonneg (FinancialData.payrollBase data)
                  (TaxRateConfig.rat c)).
    pose proof (rate_scale_nonneg (FinancialData.payrollBase data)
                  (TaxRateConfig.inssTerceiros c)).
    lra. }
  repeat match goal with |- _ /\ _ => split end.
  - unfold Presumido.totalSalesTax, Presumido.pis, Presumido.cofins,
      Presumido.iss, Presumido.icms, Presumido.ipi, Presumido.calculationBase.
    pose proof (rate_scale_nonneg (FinancialData.revenueAnnual data)
                  (TaxRateConfig.pis c)).
    pose proof (rate_scale_nonneg (FinancialData.revenueAnnual data)
                  (TaxRateConfig.cofins c)).
    pose proof (rate_scale_nonneg (FinancialData.revenueAnnual data)
                  (TaxRateConfig.ipi c)).
    pose proof (rate_scale_nonneg (FinancialData.revenueAnnual data)
                  (TaxRateConfig.iss c)).
    pose proof (rate_scale_nonneg (FinancialData.revenueAnnual data)
                  (TaxRateConfig.icms c)).
    destruct (isComercioIndustria activity); simpl; lra.
  - unfold Presumido.totalIRPJ, Presumido.irpjBasico,
      Presumido.irpjAdicional, Presumido.totalCSLL.
    pose proof (rate_scale_nonneg _ (TaxRateConfig.irpj c) Hb).
    pose proof (rate_scale_nonneg _ (TaxRateConfig.csll c) Hc).
    pose proof (rate_scale_nonneg _ (TaxRateConfig.irpjAdicional c)
                  (max0_nonneg (Presumido.baseIRPJ data c
                                - THRESHOLD_ADICIONAL_IRPJ))).
    lra.
  - exact Hpay.
  - unfold Presumido.chargesAmount, Presumido.fgtsVal, Presumido.fgtsRate.
    pose proof (rate_scale_nonneg (FinancialData.payrollBase data)
                  (TaxRateConfig.fgts c)).
    lra.
Qed.

Lemma real_fields_nonneg :
  let r := Real.calculateReal data activity c adj in
  let b := Result.breakdown r in
  0 <= TaxBreakdown.taxSales b /\ 0 <= TaxBreakdown.taxIncome b
  /\ 0 <= TaxBreakdown.taxPayroll b /\ 0 <= TaxBreakdown.charges b
  /\ 0 <= TaxDetailedBreakdown.pisFinancial (Result.detailed r)
          + TaxDetailedBreakdown.cofinsFinancial (Result.detailed r).
Proof.
  cbv zeta. simpl.
  pose proof (rates_nonneg F_irpj);
    pose proof (rates_nonneg F_irpjAdicional);
    pose proof (rates_nonneg F_csll); pose proof (rates_nonneg F_ipi);
    pose proof (rates_nonneg F_iss); pose proof (rates_nonneg F_icms);
    pose proof (rates_nonneg F_rat); pose proof (rates_nonneg F_cpp);
    pose proof (rates_nonneg F_inssTerceiros);
    pose proof (rates_nonneg F_fgts);
    pose proof (rates_nonneg F_pisFinancial);
    pose proof (rates_nonneg F_cofinsFinancial).
  simpl getRate in *.
  assert (Hti : 0 <= Real.taxableIncome data activity c adj)
    by apply max0_nonneg.
  assert (Hpay : 0 <= Real.cppAmount data c).
  { unfold Real.cppAmount, Real.cppVal, Real.ratVal, Real.terceirosVal.
    pose proof (rate_scale_nonneg (FinancialData.payrollBase data)
                  (TaxRateConfig.cpp c)).
    pose proof (rate_scale_nonneg (FinancialData.payrollBase data)
                  (TaxRateConfig.rat c)).
    pose proof (rate_scale_nonneg (FinancialData.payrollBase data)
                  (TaxRateConfig.inssTerceiros c)).
    lra. }
  repeat match goal with |- _ /\ _ => split end.
  - unfold Real.totalSalesTax, Real.iss, Real.icms, Real.ipi.
    pose proof (max0_nonneg (Real.debitoPis data c
                             - Real.creditoPis data activity c)).
    pose proof (max0_nonneg (Real.debitoCofins data c
                             - Real.creditoCofins data activity c)).
    pose proof (rate_scale_nonneg (FinancialData.revenueAnnual data)
                  (TaxRateConfig.ipi c)).
    pose proof (rate_scale_nonneg (FinancialData.revenueAnnual data)
                  (TaxRateConfig.iss c)).
    pose proof (rate_scale_nonneg (FinancialData.revenueAnnual data)
                  (TaxRateConfig.icms c)).
    unfold Real.pisPayable, Real.cofinsPayable.
    destruct (isComercioIndustria activity); simpl; lra.
  - unfold Real.totalIRPJ, Real.irpjBasico, Real.irpjAdicional,
      Real.totalCSLL.
    pose proof (rate_scale_nonneg _ (TaxRateConfig.irpj c) Hti).
    pose proof (rate_scale_nonneg _ (TaxRateConfig.csll c) Hti).
    pose proof (rate_scale_nonneg _ (TaxRateConfig.irpjAdicional c)
                  (max0_nonneg (Real.taxableIncome data activity c adj
                                - THRESHOLD_ADICIONAL_IRPJ))).
    lra.
  - exact Hpay.
  - unfold Real.chargesAmount, Real.fgtsVal, Real.fgtsRate.
    pose proof (rate_scale_nonneg (FinancialData.payrollBase data)
                  (TaxRateConfig.fgts c)).
    lra.
  - unfold Real.pisFinancial, Real.cofinsFinancial, Real.pisFinRate,
      Real.cofinsFinRate. rewrite !or_zero_eq.
    pose proof (rate_scale_nonneg (FinancialData.financialRevenues data)
                  (TaxRateConfig.pisFinancial c)).
    pose proof (rate_scale_nonneg (FinancialData.financialRevenues data)
                  (TaxRateConfig.cofinsFinancial c)).
    lra.
Qed.

End NonNegative.

(** X12.  With non-negative revenue, payroll base and financial revenue and
    non-negative rates, every field of the breakdown and the total tax of the
    presumed and of the actual result are non-negative, whatever the costs,
    expenses, deductions and LALUR adjustments. *)
Theorem presumido_real_amounts_nonneg
    (data : FinancialData.t) (activity : ActivityType)
    (c : TaxRateConfig.t) (adj : LalurAdjustments.t) :
  0 <= FinancialData.revenueAnnual data ->
  0 <= FinancialData.payrollBase data ->
  0 <= FinancialData.financialRevenues data ->
  nonNegativeRates c ->
  let p := Presumido.calculatePresumido data activity c in
  let r := Real.calculateReal data activity c adj in
  (0 <= TaxBreakdown.taxSales (Result.breakdown p)
   /\ 0 <= TaxBreakdown.taxIncome (Result.breakdown p)
   /\ 0 <= TaxBreakdown.taxPayroll (Result.breakdown p)
   /\ 0 <= TaxBreakdown.charges (Result.breakdown p)
   /\ 0 <= Result.totalTax p)
  /\ (0 <= TaxBreakdown.taxSales (Result.breakdown r)
      /\ 0 <= TaxBreakdown.taxIncome (Result.breakdown r)
      /\ 0 <= TaxBreakdown.taxPayroll (Result.breakdown r)
      /\ 0 <= TaxBreakdown.charges (Result.breakdown r)
      /\ 0 <= Result.totalTax r).
Proof.
  intros Hrev Hpay Hfin Hnn. cbv zeta.
  destruct (presumido_fields_nonneg data activity c Hrev Hpay Hfin Hnn)
    as (Hs & Hi & Hp & Hc).
  destruct (real_fields_nonneg data activity c adj Hrev Hpay Hfin Hnn)
    as (Hs' & Hi' & Hp' & Hc' & Hf').
  destruct (presumido_charges data activity c) as (_ & Ht & _).
  destruct (real_charges data activity c adj) as (_ & Ht' & _).
  cbv zeta in Ht, Ht'. simpl in *.
  repeat match goal with |- _ /\ _ => split end; try assumption; lra.
Qed.

Lemma presumido_real_amounts_nonneg_example :
  0 <= Result.totalTax
         (Presumido.calculatePresumido Sample.lossMaking SERVICO_ANEXO_III
            DEFAULT_PRESUMIDO_CONFIG)
  /\ 0 <= Result.totalTax
            (Real.calculateReal Sample.lossMaking SERVICO_ANEXO_III
               DEFAULT_REAL_CONFIG Sample.someAdjustments).
Proof.
  split.
  - apply (presumido_real_amounts_nonneg Sample.lossMaking SERVICO_ANEXO_III
             DEFAULT_PRESUMIDO_CONFIG Sample.someAdjustments);
      try (vm_compute; discriminate).
    intro g. destruct g; vm_compute; discriminate.
  - apply (presumido_real_amounts_nonneg Sample.lossMaking SERVICO_ANEXO_III
             DEFAULT_REAL_CONFIG Sample.someAdjustments);
      try (vm_compute; discriminate).
    intro g. destruct g; vm_compute; discriminate.
Defined.

(** ** Simples Nacional: the unified amount *)

Lemma percent_minus_le (x1 a1 d1 x2 a2 d2 : Q) :
  x1 * a1 - 100 * d1 <= x2 * a2 - 100 * d2 ->
  x1 * (a1 / 100) - d1 <= x2 * (a2 / 100) - d2.
Proof.
  intro H.
  assert (E : forall x a d, x * (a / 100) - d == (x * a - 100 * d) / 100)
    by (intros; field).
  rewrite !E. unfold Qdiv. apply Qmult_le_compat_r; [exact H|].
  apply Qinv_le_0_compat. lra.
Qed.

Lemma percent_minus_nonneg (x a d : Q) :
  100 * d <= x * a -> 0 <= x * (a / 100) - d.
Proof.
  intro H.
  assert (E : 0 == 0 * (0 / 100) - 0) by field.
  rewrite E at 1. apply percent_minus_le. lra.
Qed.

Lemma das_without_revenue data activity :
  FinancialData.revenueAnnual data <= 0 ->
  Simples.dasTax data activity == 0.
Proof.
  intro H. unfold Simples.dasTax, Simples.nominalRate, Simples.rbt12.
  apply gt_false_iff in H. rewrite H. ring.
Qed.

(** The selected bracket in terms of the comparisons of the search. *)
Ltac open_range :=
  unfold Simples.range, Simples.found, Simples.rbt12;
  repeat match goal with
         | |- context [Simples.annex ?d ?a] =>
             let H := fresh "H" in
             let E := fresh "E" in
             pose proof (annex_cases d a) as H; unfold ALL_ANEXOS in H;
             simpl in H;
             destruct H as [E | [E | [E | [E | [E | []]]]]];
             rewrite <- E; clear E
         end;
  simpl; decide_le_tests; simpl.

Lemma das_bounds data activity :
  0 < FinancialData.revenueAnnual data ->
  FinancialData.revenueAnnual data <= SIMPLES_LIMIT ->
  0 <= Simples.dasTax data activity
  /\ Simples.dasTax data activity
     <= FinancialData.revenueAnnual data
        * (SimplesTableRange.aliquota (Simples.range data activity) / 100).
Proof.
  intros Hpos Hle. rewrite (das_of_range data activity Hpos).
  unfold SIMPLES_LIMIT in Hle.
  open_range;
    (split; [apply percent_minus_nonneg; lra | lra]).
Qed.

(** X13.  For a revenue above zero and up to the ceiling the unified amount
    (DAS) is non-negative and at most the revenue times the nominal rate of
    the selected bracket; for a revenue of zero or less it is zero.  With a
    non-negative payroll base the total of the simplified regime is then
    non-negative. *)
Theorem simples_das_bounds
    (data : FinancialData.t) (activity : ActivityType) :
  let r := Simples.calculateSimples data activity in
  let revenue := FinancialData.revenueAnnual data in
  let das := TaxBreakdown.taxSales (Result.breakdown r) in
  (revenue <= 0 -> das == 0)
  /\ (0 < revenue -> revenue <= SIMPLES_LIMIT ->
      0 <= das
      /\ das <= revenue
                * (SimplesTableRange.aliquota (Simples.range data activity)
                   / 100))
  /\ (revenue <= SIMPLES_LIMIT -> 0 <= FinancialData.payrollBase data ->
      0 <= das /\ 0 <= Result.totalTax r).
Proof.
  cbv zeta.
  assert (Hopen : FinancialData.revenueAnnual data <= SIMPLES_LIMIT ->
                  TaxBreakdown.taxSales
                    (Result.breakdown (Simples.calculateSimples data activity))
                  = Simples.dasTax data activity
                  /\ Result.totalTax (Simples.calculateSimples data activity)
                     = Simples.dasTax data activity
                       + Simples.cppAmount data activity
                       + Simples.fgtsAmount data).
  { intro H. unfold Simples.calculateSimples. apply gt_false_iff in H.
    rewrite H. split; reflexivity. }
  assert (Hnn : FinancialData.revenueAnnual data <= SIMPLES_LIMIT ->
                0 <= Simples.dasTax data activity).
  { intro H.
    destruct (Qlt_le_dec 0 (FinancialData.revenueAnnual data)) as [Hp | Hz].
    - apply das_bounds; assumption.
    - rewrite das_without_revenue by exact Hz. apply Qle_refl. }
  repeat match goal with |- _ /\ _ => split end.
  - intro H. destruct Hopen as [-> _].
    + unfold SIMPLES_LIMIT. lra.
    + apply das_without_revenue. exact H.
  - intros Hp Hle. destruct (Hopen Hle) as [-> _].
    apply das_bounds; assumption.
  - intros Hle Hpay. destruct (Hopen Hle) as [-> ->].
    specialize (Hnn Hle). split; [exact Hnn|].
    assert (0 <= Simples.cppAmount data activity).
    { unfold Simples.cppAmount. destruct activity; try apply Qle_refl.
      apply Qmult_le_0_compat; [exact Hpay | discriminate]. }
    assert (0 <= Simples.fgtsAmount data).
    { unfold Simples.fgtsAmount.
      apply Qmult_le_0_compat; [exact Hpay | discriminate]. }
    lra.
Qed.

Lemma simples_das_bounds_example :
  let r := Simples.calculateSimples Sample.services SERVICO_ANEXO_III in
  0 <= TaxBreakdown.taxSales (Result.breakdown r)
  /\ TaxBreakdown.taxSales (Result.breakdown r) <= 1000000 * (16 / 100).
Proof.
  cbv zeta.
  destruct (simples_das_bounds Sample.services SERVICO_ANEXO_III)
    as (_ & H & _).
  apply H; vm_compute; [reflexivity | discriminate].
Defined.

Lemma das_monotone_positive d1 d2 activity :
  activity <> SERVICO_ANEXO_V ->
  0 < FinancialData.revenueAnnual d1 ->
  FinancialData.revenueAnnual d1 <= FinancialData.revenueAnnual d2 ->
  FinancialData.revenueAnnual d2 <= 3600000 ->
  Simples.dasTax d1 activity <= Simples.dasTax d2 activity.
Proof.
  intros Ha Hpos Hle Hmax.
  assert (Hpos2 : 0 < FinancialData.revenueAnnual d2) by lra.
  rewrite (das_of_range d1 activity Hpos), (das_of_range d2 activity Hpos2).
  unfold Simples.range, Simples.found, Simples.rbt12, Simples.annex.
  destruct activity; try contradiction; simpl; decide_le_tests; simpl;
    solve [apply percent_minus_le; lra | exfalso; lra].
Qed.

(** X14.  For an activity with a fixed annex the unified amount does not
    decrease when the revenue grows, as long as the revenue stays at or below
    3,600,000, the limit of the fifth bracket.  The bound cannot be raised:
    in trade, one unit of revenue above 3,600,000 lowers the unified amount
    from 427,500 to less than 306,001. *)
Theorem simples_das_monotone_to_fifth_bracket
    (d1 d2 : FinancialData.t) (activity : ActivityType) :
  (activity <> SERVICO_ANEXO_V ->
   FinancialData.revenueAnnual d1 <= FinancialData.revenueAnnual d2 ->
   FinancialData.revenueAnnual d2 <= 3600000 ->
   Simples.dasTax d1 activity <= Simples.dasTax d2 activity)
  /\ (Simples.dasTax (Sample.withRevenue 3600000) COMERCIO == 427500
      /\ Simples.dasTax (Sample.withRevenue 3600001) COMERCIO < 306001).
Proof.
  split.
  - intros Ha Hle Hmax.
    destruct (Qlt_le_dec 0 (FinancialData.revenueAnnual d1)) as [Hp | Hz].
    + apply das_monotone_positive; assumption.
    + rewrite (das_without_revenue d1 activity Hz).
      destruct (Qlt_le_dec 0 (FinancialData.revenueAnnual d2)) as [Hp2 | Hz2].
      * apply das_bounds; [exact Hp2 | unfold SIMPLES_LIMIT; lra].
      * rewrite (das_without_revenue d2 activity Hz2). apply Qle_refl.
  - split; vm_compute; reflexivity.
Qed.

Lemma simples_das_monotone_example :
  Simples.dasTax (Sample.withRevenue 360000) SERVICO_ANEXO_III
  <= Simples.dasTax (Sample.withRevenue 3600000) SERVICO_ANEXO_III.
Proof.
  apply (simples_das_monotone_to_fifth_bracket (Sample.withRevenue 360000)
           (Sample.withRevenue 3600000) SERVICO_ANEXO_III);
    [discriminate | vm_compute; discriminate ..].
Defined.

(** ** Simples Nacional: the Factor R *)

Lemma factorR_clear_above data :
  0 < FinancialData.revenueAnnual data ->
  0.30 * FinancialData.revenueAnnual data
  <= FinancialData.payrollBase data * (1 + 0.1911) ->
  JS.ge (Simples.factorR data SERVICO_ANEXO_V) 0.28 = true.
Proof.
  intros Hpos H. unfold Simples.factorR.
  pose proof Hpos as Hgt. apply gt_true_iff in Hgt. rewrite Hgt.
  rewrite ge_true_iff.
  unfold Simples.payrollTotalEst, Simples.CHARGES_LABOR_ONLY_PCT.
  apply Qle_shift_div_l; [assumption | lra].
Qed.

Lemma factorR_clear_below data :
  FinancialData.revenueAnnual data <= 0
  \/ FinancialData.payrollBase data * (1 + 0.1911)
     <= 0.25 * FinancialData.revenueAnnual data ->
  JS.ge (Simples.factorR data SERVICO_ANEXO_V) 0.28 = false.
Proof.
  intro H. unfold Simples.factorR.
  destruct (JS.gt (FinancialData.revenueAnnual data) 0) eqn:E.
  - apply gt_true_iff in E. destruct H as [H | H]; [lra|].
    apply not_true_iff_false. rewrite ge_true_iff.
    unfold Simples.payrollTotalEst, Simples.CHARGES_LABOR_ONLY_PCT.
    intro Hge.
    assert (FinancialData.payrollBase data * (1 + 0.1911)
              / FinancialData.revenueAnnual data <= 0.25)
      by (apply Qle_shift_div_r; [assumption | lra]).
    lra.
  - reflexivity.
Qed.

(** X15.  For the qualified-services activity the table used is that of
    Anexo III or that of Anexo V.  It is Anexo III when the revenue is
    positive and the payroll base with the 19.11% uplift is at least 30% of
    the revenue, clear above the 28% of the Factor R; it is Anexo V when the
    revenue is not positive (the factor is then zero, with no division) or
    when the uplifted payroll is at most 25% of the revenue, clear below.
    Within the ceiling the result carries the Factor R note exactly when
    Anexo III is the table used, and no other activity ever gets the note. *)
Theorem simples_factor_r
    (data : FinancialData.t) (activity : ActivityType) :
  let revenue := FinancialData.revenueAnnual data in
  let estimate := FinancialData.payrollBase data * (1 + 0.1911) in
  let r := Simples.calculateSimples data activity in
  let qualified := Simples.calculateSimples data SERVICO_ANEXO_V in
  (Simples.annex data SERVICO_ANEXO_V = ANEXO_III
   \/ Simples.annex data SERVICO_ANEXO_V = ANEXO_V)
  /\ (0 < revenue -> 0.30 * revenue <= estimate ->
      Simples.annex data SERVICO_ANEXO_V = ANEXO_III)
  /\ (revenue <= 0 \/ estimate <= 0.25 * revenue ->
      Simples.annex data SERVICO_ANEXO_V = ANEXO_V)
  /\ (revenue <= 0 -> Simples.factorR data SERVICO_ANEXO_V = 0)
  /\ (revenue <= SIMPLES_LIMIT ->
      (Simples.annex data SERVICO_ANEXO_V = ANEXO_III ->
       Result.notes qualified = Some [NoteFatorR])
      /\ (Simples.annex data SERVICO_ANEXO_V = ANEXO_V ->
          Result.notes qualified = Some []))
  /\ (activity <> SERVICO_ANEXO_V -> revenue <= SIMPLES_LIMIT ->
      Result.notes r = Some []).
Proof.
  cbv zeta. repeat match goal with |- _ /\ _ => split end.
  - unfold Simples.annex. destruct (JS.ge _ _); [left | right]; reflexivity.
  - intros Hpos Hle. unfold Simples.annex.
    rewrite (factorR_clear_above data Hpos Hle). reflexivity.
  - intro H. unfold Simples.annex.
    rewrite (factorR_clear_below data H). reflexivity.
  - intro Hz. unfold Simples.factorR. apply gt_false_iff in Hz.
    rewrite Hz. reflexivity.
  - intro Hc. unfold Simples.calculateSimples.
    apply gt_false_iff in Hc. rewrite Hc. cbn [Result.notes].
    unfold Simples.annex.
    destruct (JS.ge _ _); split; intro Ha;
      solve [reflexivity | discriminate Ha].
  - intros Ha Hc. unfold Simples.calculateSimples.
    apply gt_false_iff in Hc. rewrite Hc. simpl.
    destruct activity; try contradiction; simpl;
      rewrite ?andb_false_r; reflexivity.
Qed.

Lemma simples_factor_r_example :
  Simples.annex (Sample.withRevenue 500000) SERVICO_ANEXO_V = ANEXO_III
  /\ Result.notes
       (Simples.calculateSimples (Sample.withRevenue 500000) SERVICO_ANEXO_V)
     = Some [NoteFatorR]
  /\ Simples.annex Sample.services SERVICO_ANEXO_V = ANEXO_V
  /\ Simples.annex Sample.payrollOnly SERVICO_ANEXO_V = ANEXO_V
  /\ Result.notes (Simples.calculateSimples Sample.services SERVICO_ANEXO_IV)
     = Some [].
Proof.
  destruct (simples_factor_r (Sample.withRevenue 500000) SERVICO_ANEXO_V)
    as (_ & H1 & _ & _ & H2 & _).
  destruct (simples_factor_r Sample.services SERVICO_ANEXO_V)
    as (_ & _ & H3 & _).
  destruct (simples_factor_r Sample.payrollOnly SERVICO_ANEXO_V)
    as (_ & _ & H4 & _).
  destruct (simples_factor_r Sample.services SERVICO_ANEXO_IV)
    as (_ & _ & _ & _ & _ & H5).
  assert (A : Simples.annex (Sample.withRevenue 500000) SERVICO_ANEXO_V
              = ANEXO_III)
    by (apply H1; vm_compute; [reflexivity | discriminate]).
  split; [exact A|]. split.
  - destruct H2 as [H2 _]; [vm_compute; discriminate|]. exact (H2 A).
  - split; [|split].
    + apply H3. right. vm_compute. discriminate.
    + apply H4. left. vm_compute. discriminate.
    + apply H5; [discriminate | vm_compute; discriminate].
Defined.

(** ** Lucro Real: credit base and LALUR adjustments *)

Lemma real_taxable_by_levies data activity k adj :
  Real.taxableIncome data activity k adj
  == Qmax 0 (profitBeforeLevies data adj - realLevies data activity k).
Proof.
  unfold Real.taxableIncome. apply Q.max_compat; [reflexivity|].
  unfold profitBeforeLevies, realLevies, Real.profitBeforeTax,
    Real.operationalResult, Real.financialResult, Real.netRevenue,
    Real.totalDeductibleExpenses.
  ring.
Qed.

Lemma real_total_by_levies data activity k adj :
  Real.totalTax data activity k adj
  == incomeTaxOn k (Real.taxableIncome data activity k adj)
     + realLevies data activity k.
Proof.
  apply total_regroup.
Qed.

Lemma income_tax_monotone k t1 t2 :
  nonNegativeRates k -> 0 <= t1 -> t1 <= t2 ->
  incomeTaxOn k t1 <= incomeTaxOn k t2.
Proof.
  intros Hnn H0 Hle. unfold incomeTaxOn.
  pose proof (Hnn F_irpj) as Hi. pose proof (Hnn F_irpjAdicional) as Ha.
  pose proof (Hnn F_csll) as Hc. simpl in Hi, Ha, Hc.
  repeat apply Qplus_le_compat.
  - apply Qmult_le_compat_r; [exact Hle | apply percent_nonneg; exact Hi].
  - apply Qmult_le_compat_r; [|apply percent_nonneg; exact Ha].
    apply Q.max_le_compat_l. lra.
  - apply Qmult_le_compat_r; [exact Hle | apply percent_nonneg; exact Hc].
Qed.

(** The total as a function of the levies: more levies, more total, by no
    more than the added levies. *)
Lemma total_by_levies_monotone k profit x1 x2 :
  nonNegativeRates k ->
  TaxRateConfig.irpj k + TaxRateConfig.irpjAdicional k + TaxRateConfig.csll k
  <= 100 ->
  x1 <= x2 ->
  incomeTaxOn k (Qmax 0 (profit - x1)) + x1
  <= incomeTaxOn k (Qmax 0 (profit - x2)) + x2
  /\ (incomeTaxOn k (Qmax 0 (profit - x2)) + x2)
     - (incomeTaxOn k (Qmax 0 (profit - x1)) + x1)
     <= x2 - x1.
Proof.
  intros Hnn Hsum Hle.
  pose proof (Hnn F_irpj) as Hi. pose proof (Hnn F_irpjAdicional) as Ha.
  pose proof (Hnn F_csll) as Hc. simpl in Hi, Ha, Hc.
  assert (Ht : Qmax 0 (profit - x2) <= Qmax 0 (profit - x1)
               /\ Qmax 0 (profit - x1) - Qmax 0 (profit - x2) <= x2 - x1
               /\ 0 <= Qmax 0 (profit - x2)).
  { qmax_specs. lra. }
  destruct Ht as (Ht & Hd & H0).
  pose proof (income_tax_absorbs _ _ _ _ _ Hi Ha Hc Hsum Ht) as Habs.
  pose proof (income_tax_monotone k _ _ Hnn H0 Ht) as Hmono.
  unfold incomeTaxOn in *. split; lra.
Qed.

(** X16.  With non-negative rates whose IRPJ, surtax and CSLL total at most
    100%, a larger credit base never raises the PIS payable, the COFINS
    payable or the total tax of the actual-profit regime, and the total falls
    by no more than the two payables fall. *)
Theorem real_credit_base_never_raises_tax
    (data : FinancialData.t) (activity : ActivityType)
    (k : TaxRateConfig.t) (adj : LalurAdjustments.t) (base base' : Q) :
  nonNegativeRates k ->
  TaxRateConfig.irpj k + TaxRateConfig.irpjAdicional k + TaxRateConfig.csll k
  <= 100 ->
  base <= base' ->
  let lo := Real.calculateReal (withCreditBase base data) activity k adj in
  let hi := Real.calculateReal (withCreditBase base' data) activity k adj in
  let pis x := TaxDetailedBreakdown.pis (Result.detailed x) in
  let cofins x := TaxDetailedBreakdown.cofins (Result.detailed x) in
  pis hi <= pis lo
  /\ cofins hi <= cofins lo
  /\ Result.totalTax hi <= Result.totalTax lo
  /\ Result.totalTax lo - Result.totalTax hi
     <= (pis lo - pis hi) + (cofins lo - cofins hi).
Proof.
  intros Hnn Hsum Hle. cbv zeta. simpl.
  pose proof (Hnn F_pis) as Hp. pose proof (Hnn F_cofins) as Hc.
  simpl in Hp, Hc.
  assert (Hpay : forall rate, 0 <= rate ->
            Qmax 0 (Real.revenueBase data * (rate / 100)
                    - base' * (rate / 100))
            <= Qmax 0 (Real.revenueBase data * (rate / 100)
                       - base * (rate / 100))).
  { intros rate Hr. apply Q.max_le_compat_l.
    assert (base * (rate / 100) <= base' * (rate / 100))
      by (apply Qmult_le_compat_r; [exact Hle | apply percent_nonneg; exact Hr]).
    lra. }
  assert (Hpis : Real.pisPayable (withCreditBase base' data) activity k
                 <= Real.pisPayable (withCreditBase base data) activity k)
    by (apply (Hpay _ Hp)).
  assert (Hcof : Real.cofinsPayable (withCreditBase base' data) activity k
                 <= Real.cofinsPayable (withCreditBase base data) activity k)
    by (apply (Hpay _ Hc)).
  split; [exact Hpis|]. split; [exact Hcof|].
  rewrite !real_total_by_levies. unfold incomeTaxOn.
  rewrite !real_taxable_by_levies.
  assert (Hlev : forall b,
             realLevies (withCreditBase b data) activity k
             == Real.pisPayable (withCreditBase b data) activity k
                + Real.cofinsPayable (withCreditBase b data) activity k
                + (Real.iss data activity k + Real.icms data activity k
                   + Real.ipi data k + Real.totalFinancialTaxes data k
                   + Real.chargesAmount data k)).
  { intro b. unfold realLevies, Real.totalSalesTax.
    change (Real.iss (withCreditBase b data) activity k)
      with (Real.iss data activity k).
    change (Real.icms (withCreditBase b data) activity k)
      with (Real.icms data activity k).
    change (Real.ipi (withCreditBase b data) k) with (Real.ipi data k).
    change (Real.totalFinancialTaxes (withCreditBase b data) k)
      with (Real.totalFinancialTaxes data k).
    change (Real.chargesAmount (withCreditBase b data) k)
      with (Real.chargesAmount data k).
    ring. }
  change (profitBeforeLevies (withCreditBase base' data) adj)
    with (profitBeforeLevies data adj).
  change (profitBeforeLevies (withCreditBase base data) adj)
    with (profitBeforeLevies data adj).
  assert (Hx : realLevies (withCreditBase base' data) activity k
               <= realLevies (withCreditBase base data) activity k)
    by (rewrite !Hlev; lra).
  destruct (total_by_levies_monotone k (profitBeforeLevies data adj) _ _
              Hnn Hsum Hx) as [Hm Hd].
  unfold incomeTaxOn in Hm, Hd.
  split; [exact Hm|].
  pose proof (Hlev base) as E1. pose proof (Hlev base') as E2. lra.
Qed.

Lemma real_credit_base_example :
  Result.totalTax
    (Real.calculateReal (withCreditBase 960000 Sample.services) COMERCIO
       DEFAULT_REAL_CONFIG Sample.noAdjustments)
  <= Result.totalTax
       (Real.calculateReal (withCreditBase 0 Sample.services) COMERCIO
          DEFAULT_REAL_CONFIG Sample.noAdjustments).
Proof.
  apply (real_credit_base_never_raises_tax Sample.services COMERCIO
           DEFAULT_REAL_CONFIG Sample.noAdjustments 0 960000).
  - intro g. destruct g; vm_compute; discriminate.
  - vm_compute. discriminate.
  - vm_compute. discriminate.
Defined.

(** X17.  With non-negative rates, more LALUR additions or fewer exclusions
    never lower the taxable income, the income tax or the total tax of the
    actual-profit regime, and leave sales taxes and charges as they are. *)
Theorem real_lalur_monotone
    (data : FinancialData.t) (activity : ActivityType)
    (k : TaxRateConfig.t) (adj adj' : LalurAdjustments.t) :
  nonNegativeRates k ->
  LalurAdjustments.additions adj <= LalurAdjustments.additions adj' ->
  LalurAdjustments.exclusions adj' <= LalurAdjustments.exclusions adj ->
  let r := Real.calculateReal data activity k adj in
  let r' := Real.calculateReal data activity k adj' in
  Real.taxableIncome data activity k adj
    <= Real.taxableIncome data activity k adj'
  /\ TaxBreakdown.taxIncome (Result.breakdown r)
     <= TaxBreakdown.taxIncome (Result.breakdown r')
  /\ TaxBreakdown.taxSales (Result.breakdown r)
     = TaxBreakdown.taxSales (Result.breakdown r')
  /\ TaxBreakdown.charges (Result.breakdown r)
     = TaxBreakdown.charges (Result.breakdown r')
  /\ Result.totalTax r <= Result.totalTax r'.
Proof.
  intros Hnn Ha He. cbv zeta. simpl.
  assert (Ht : Real.taxableIncome data activity k adj
               <= Real.taxableIncome data activity k adj').
  { unfold Real.taxableIncome. apply Q.max_le_compat_l. lra. }
  assert (H0 : 0 <= Real.taxableIncome data activity k adj)
    by apply max0_nonneg.
  pose proof (income_tax_monotone k _ _ Hnn H0 Ht) as Hm.
  split; [exact Ht|]. split.
  - unfold Real.totalIRPJ, Real.irpjBasico, Real.irpjAdicional,
      Real.totalCSLL, THRESHOLD_ADICIONAL_IRPJ.
    unfold incomeTaxOn in Hm. lra.
  - split; [reflexivity|]. split; [reflexivity|].
    rewrite !real_total_by_levies. lra.
Qed.

Lemma real_lalur_monotone_example :
  Result.totalTax
    (Real.calculateReal Sample.services SERVICO_ANEXO_III DEFAULT_REAL_CONFIG
       Sample.noAdjustments)
  <= Result.totalTax
       (Real.calculateReal Sample.services SERVICO_ANEXO_III
          DEFAULT_REAL_CONFIG (LalurAdjustments.mk 5000 0)).
Proof.
  apply (real_lalur_monotone Sample.services SERVICO_ANEXO_III
           DEFAULT_REAL_CONFIG Sample.noAdjustments
           (LalurAdjustments.mk 5000 0)).
  - intro g. destruct g; vm_compute; discriminate.
  - vm_compute. discriminate.
  - vm_compute. discriminate.
Defined.

(** ** Reforma: what the credits can do *)

Lemma eligible_nonneg_when_qualifying line :
  qualifiesForCredit line = true -> 0 <= Reform.eligibleBase line.
Proof.
  unfold qualifiesForCredit. intro H. apply andb_true_iff in H.
  destruct H as [_ H]. apply gt_true_iff in H. unfold Reform.eligibleBase.
  apply Qmult_le_0_compat; [apply Qabs_nonneg|].
  apply percent_nonneg. apply Qlt_le_weak. exact H.
Qed.

Lemma credit_sum_nonneg rate lines :
  0 <= rate ->
  0 <= sumQ (map (fun l => Reform.eligibleBase l * (rate / 100))
                 (filter qualifiesForCredit lines)).
Proof.
  intro Hr. apply sumQ_nonneg. intros x Hx. apply in_map_iff in Hx.
  destruct Hx as (l & <- & Hl). apply filter_In in Hl.
  apply Qmult_le_0_compat.
  - apply eligible_nonneg_when_qualifying. apply Hl.
  - apply percent_nonneg. exact Hr.
Qed.

Lemma reform_credits_as_sums lines cfg :
  Reform.ibsCredit lines cfg
  == sumQ (map (fun l => Reform.eligibleBase l
                         * (ReformConfig.ibsRate cfg / 100))
               (filter qualifiesForCredit lines))
  /\ Reform.cbsCredit lines cfg
     == sumQ (map (fun l => Reform.eligibleBase l
                            * (ReformConfig.cbsRate cfg / 100))
                  (filter qualifiesForCredit lines)).
Proof.
  destruct (fold_accumulate_sum cfg lines (0, 0)) as [Hi Hc].
  simpl in Hi, Hc. unfold Reform.ibsCredit, Reform.cbsCredit, Reform.credits.
  split; [rewrite Hi | rewrite Hc]; ring.
Qed.

(** X18.  With non-negative IBS and CBS rates the credits are non-negative,
    the payable of each leg lies between zero and the debit, and the reform
    total lies between the total with no VAT payable at all (selective tax and
    carried-over amounts only) and the total computed with no lines; the
    credits lower the total by no more than the credits taken. *)
Theorem reform_credits_bounds
    (data : FinancialData.t) (lines : list DRELineItem.t)
    (cfg : ReformConfig.t) (best : Result.t) :
  0 <= ReformConfig.ibsRate cfg -> 0 <= ReformConfig.cbsRate cfg ->
  let r := Reform.calculateReform data lines cfg best in
  let r0 := Reform.calculateReform data [] cfg best in
  let carried :=
    TaxBreakdown.taxIncome (Result.breakdown best)
    + TaxBreakdown.taxPayroll (Result.breakdown best)
    + TaxBreakdown.charges (Result.breakdown best) in
  0 <= ReformResult.creditIBS r
  /\ 0 <= ReformResult.creditCBS r
  /\ 0 <= Reform.ibsPayable data lines cfg <= ReformResult.debitIBS r
  /\ 0 <= Reform.cbsPayable data lines cfg <= ReformResult.debitCBS r
  /\ Reform.selectiveTax data cfg + carried <= Result.totalTax r
  /\ Result.totalTax r <= Result.totalTax r0
  /\ Result.totalTax r0 - Result.totalTax r <= ReformResult.totalCredits r.
Proof.
  intros Hi Hc. cbv zeta. simpl.
  destruct (reform_credits_as_sums lines cfg) as [Ei Ec].
  pose proof (credit_sum_nonneg _ lines Hi) as Hci.
  pose proof (credit_sum_nonneg _ lines Hc) as Hcc.
  rewrite <- Ei in Hci. rewrite <- Ec in Hcc.
  assert (Hb : 0 <= Reform.revenueBase data) by apply max0_nonneg.
  assert (Hdi : 0 <= Reform.ibsDebit data cfg)
    by (apply rate_scale_nonneg; assumption).
  assert (Hdc : 0 <= Reform.cbsDebit data cfg)
    by (apply rate_scale_nonneg; assumption).
  unfold Reform.totalTax, Reform.totalIVA, Reform.ibsPayable,
    Reform.cbsPayable, Reform.taxIncome, Reform.taxPayroll, Reform.charges.
  change (Reform.ibsCredit [] cfg) with 0.
  change (Reform.cbsCredit [] cfg) with 0.
  generalize dependent (Reform.ibsCredit lines cfg).
  generalize dependent (Reform.cbsCredit lines cfg).
  intros cc _ Hcc ci _ Hci.
  qmax_specs. repeat split; lra.
Qed.

Lemma reform_credits_bounds_example :
  let best := Simples.calculateSimples Sample.services SERVICO_ANEXO_III in
  Result.totalTax
    (Reform.calculateReform Sample.services [Sample.expenseLine]
       DEFAULT_REFORM_CONFIG best)
  <= Result.totalTax
       (Reform.calculateReform Sample.services [] DEFAULT_REFORM_CONFIG best).
Proof.
  cbv zeta.
  apply (reform_credits_bounds Sample.services [Sample.expenseLine]
           DEFAULT_REFORM_CONFIG
           (Simples.calculateSimples Sample.services SERVICO_ANEXO_III));
    vm_compute; discriminate.
Defined.

(** ** The LALUR totals of the Dashboard *)

Lemma addAdjustment_step acc l :
  Dashboard.hasAdjustment l = true ->
  LalurAdjustments.additions (Dashboard.addAdjustment acc l)
  == LalurAdjustments.additions acc + absIf (hasLalur ADDITION) l
  /\ LalurAdjustments.exclusions (Dashboard.addAdjustment acc l)
     == LalurAdjustments.exclusions acc + absIf (hasLalur EXCLUSION) l.
Proof.
  unfold Dashboard.hasAdjustment, Dashboard.addAdjustment, absIf, hasLalur.
  destruct (DRELineItem.lineType l);
    destruct (DRELineItem.lalurAdjustment l) as [[] |]; simpl;
    intro H; try discriminate; split; ring.
Qed.

Lemma no_adjustment_no_amount a l :
  Dashboard.hasAdjustment l = false -> absIf (hasLalur a) l = 0.
Proof.
  unfold Dashboard.hasAdjustment, absIf, hasLalur.
  destruct (DRELineItem.lineType l);
    destruct (DRELineItem.lalurAdjustment l) as [[] |]; destruct a;
    intro H; try discriminate; reflexivity.
Qed.

Lemma fold_addAdjustment_sums lines : forall acc,
  let out :=
    fold_left Dashboard.addAdjustment
      (filter Dashboard.hasAdjustment lines) acc in
  LalurAdjustments.additions out
  == LalurAdjustments.additions acc
     + sumQ (map (absIf (hasLalur ADDITION)) lines)
  /\ LalurAdjustments.exclusions out
     == LalurAdjustments.exclusions acc
        + sumQ (map (absIf (hasLalur EXCLUSION)) lines).
Proof.
  cbv zeta. induction lines as [| l lines IH]; intro acc.
  - simpl. split; ring.
  - cbn [filter map].
    change (sumQ (absIf (hasLalur ADDITION) l
                  :: map (absIf (hasLalur ADDITION)) lines))
      with (absIf (hasLalur ADDITION) l
            + sumQ (map (absIf (hasLalur ADDITION)) lines)).
    change (sumQ (absIf (hasLalur EXCLUSION) l
                  :: map (absIf (hasLalur EXCLUSION)) lines))
      with (absIf (hasLalur EXCLUSION) l
            + sumQ (map (absIf (hasLalur EXCLUSION)) lines)).
    destruct (Dashboard.hasAdjustment l) eqn:E.
    + cbn [fold_left].
      destruct (IH (Dashboard.addAdjustment acc l)) as [H1 H2].
      destruct (addAdjustment_step acc l E) as [S1 S2].
      split; [rewrite H1, S1 | rewrite H2, S2]; ring.
    + destruct (IH acc) as [H1 H2].
      rewrite !(no_adjustment_no_amount _ l E).
      split; [rewrite H1 | rewrite H2]; ring.
Qed.

(** X20.  The additions handed to the actual-profit calculator are the sum
    of the absolute values of the analytical lines flagged ADDITION, and the
    exclusions the same sum over the lines flagged EXCLUSION; synthetic lines
    count in neither, and both totals are non-negative. *)
Theorem lalur_totals (lines : list DRELineItem.t) :
  let adj := Dashboard.lalurAdjustments lines in
  LalurAdjustments.additions adj
    == sumQ (map (absIf (hasLalur ADDITION)) lines)
  /\ LalurAdjustments.exclusions adj
     == sumQ (map (absIf (hasLalur EXCLUSION)) lines)
  /\ 0 <= LalurAdjustments.additions adj
  /\ 0 <= LalurAdjustments.exclusions adj.
Proof.
  cbv zeta. unfold Dashboard.lalurAdjustments.
  destruct (fold_addAdjustment_sums lines (LalurAdjustments.mk 0 0))
    as [Ha He].
  cbv zeta in Ha, He. simpl in Ha, He.
  assert (Hn : forall a l, 0 <= sumQ (map (absIf (hasLalur a)) l)).
  { intros a l. apply sumQ_nonneg. intros x Hx. apply in_map_iff in Hx.
    destruct Hx as (y & <- & _). apply absIf_nonneg. }
  pose proof (Hn ADDITION lines). pose proof (Hn EXCLUSION lines).
  repeat match goal with |- _ /\ _ => split end; lra.
Qed.

(** ** Figures computed while rendering *)

(** X21.  The percentage of the revenue shown beside an amount is always a
    finite number: with a revenue of zero the divisor is one, so the figure
    is the absolute amount times 100, and otherwise it is the absolute amount
    over the revenue times 100; it is non-negative when the revenue is. *)
Theorem vertical_percent_finite
    (editableData : FinancialData.t) (amount : Q) :
  let revenue := FinancialData.revenueAnnual editableData in
  exists q,
    Render.verticalPercent editableData amount = JS.Fin q
    /\ (revenue == 0 -> q == Qabs amount * 100)
    /\ (~ revenue == 0 -> q == Qabs amount / revenue * 100)
    /\ (0 <= revenue -> 0 <= q).
Proof.
  cbv zeta. unfold Render.verticalPercent, Render.orOne, JS.div.
  pose proof (Qabs_nonneg amount) as Ha.
  destruct (Qeq_bool (FinancialData.revenueAnnual editableData) 0) eqn:E.
  - apply Qeq_bool_eq in E. simpl. eexists. split; [reflexivity|].
    split; [intros _; field|]. split; [intro H; contradiction|].
    intros _. assert (Qabs amount / 1 == Qabs amount) by field. lra.
  - pose proof E as Eb. apply Qeq_bool_neq in E. simpl. rewrite Eb. simpl.
    eexists. split; [reflexivity|].
    split; [intro H; contradiction|]. split; [intros _; reflexivity|].
    intro H0.
    assert (Hpos : 0 < FinancialData.revenueAnnual editableData).
    { apply Qle_lteq in H0. destruct H0 as [H0 | H0]; [exact H0|].
      exfalso. apply E. symmetry. exact H0. }
    assert (0 <= Qabs amount / FinancialData.revenueAnnual editableData)
      by (apply Qle_shift_div_l; [exact Hpos | lra]).
    lra.
Qed.

Lemma vertical_percent_examples :
  (exists q, Render.verticalPercent Sample.noActivity (-250) = JS.Fin q
             /\ q == 25000)
  /\ (exists q, Render.verticalPercent Sample.services (-250000) = JS.Fin q
                /\ q == 25).
Proof.
  split.
  - destruct (vertical_percent_finite Sample.noActivity (-250))
      as (q & Hq & H0 & _).
    exists q. split; [exact Hq|]. rewrite H0; reflexivity.
  - destruct (vertical_percent_finite Sample.services (-250000))
      as (q & Hq & _ & H1 & _).
    exists q. split; [exact Hq|]. rewrite H1; [reflexivity | discriminate].
Defined.

(** X22.  The impact shown in the reform table, the reform total less the
    baseline total, is the total VAT less the sales taxes of the baseline and
    less its PIS/COFINS on financial revenue, plus the payroll tax of the
    baseline; it is shown as a saving exactly when it is negative, so equal
    totals are shown as an increase. *)
Theorem reform_impact
    (editableData : FinancialData.t) (activityType : ActivityType)
    (presumidoConfig realConfig : TaxRateConfig.t)
    (reformConfig : ReformConfig.t) (displayLines : list DRELineItem.t) :
  let res :=
    Dashboard.results editableData activityType presumidoConfig realConfig
      reformConfig displayLines in
  let best := Dashboard.Results.bestCurrent res in
  let reform := Dashboard.Results.reform res in
  let current :=
    TaxBreakdown.taxSales (Result.breakdown best)
    + (TaxDetailedBreakdown.pisFinancial (Result.detailed best)
       + TaxDetailedBreakdown.cofinsFinancial (Result.detailed best)) in
  let projected :=
    TaxBreakdown.taxSales (Result.breakdown reform)
    + TaxBreakdown.taxPayroll (Result.breakdown best) in
  Render.diff res == projected - current
  /\ (Render.isSaving res = true <-> projected < current)
  /\ (Result.totalTax reform == Result.totalTax best ->
      Render.isSaving res = false).
Proof.
  cbv zeta.
  set (res := Dashboard.results editableData activityType presumidoConfig
                realConfig reformConfig displayLines).
  assert (Hbest : chargesContainPayrollTax (Dashboard.Results.bestCurrent res)).
  { unfold res. simpl.
    destruct (bestCurrent_is_candidate
                (Simples.calculateSimples editableData activityType)
                (Presumido.calculatePresumido editableData activityType
                   presumidoConfig)
                (Real.calculateReal editableData activityType realConfig
                   (Dashboard.lalurAdjustments displayLines)))
      as [<- | [<- | [<- | []]]].
    - apply simples_charges.
    - apply presumido_charges.
    - apply real_charges. }
  destruct Hbest as (Hc & Ht & _). cbv zeta in Hc, Ht.
  assert (Hr : Result.totalTax (Dashboard.Results.reform res)
               == TaxBreakdown.taxSales
                    (Result.breakdown (Dashboard.Results.reform res))
                  + TaxBreakdown.taxIncome
                      (Result.breakdown (Dashboard.Results.bestCurrent res))
                  + TaxBreakdown.taxPayroll
                      (Result.breakdown (Dashboard.Results.bestCurrent res))
                  + TaxBreakdown.charges
                      (Result.breakdown (Dashboard.Results.bestCurrent res)))
    by reflexivity.
  assert (Hd : Render.diff res
               == TaxBreakdown.taxSales
                    (Result.breakdown (Dashboard.Results.reform res))
                  + TaxBreakdown.taxPayroll
                      (Result.breakdown (Dashboard.Results.bestCurrent res))
                  - (TaxBreakdown.taxSales
                       (Result.breakdown (Dashboard.Results.bestCurrent res))
                     + (TaxDetailedBreakdown.pisFinancial
                          (Result.detailed (Dashboard.Results.bestCurrent res))
                        + TaxDetailedBreakdown.cofinsFinancial
                            (Result.detailed
                               (Dashboard.Results.bestCurrent res))))).
  { unfold Render.diff. rewrite Hr, Ht. ring. }
  split; [exact Hd|]. split.
  - unfold Render.isSaving. rewrite lt_true_iff. rewrite Hd. split; intro H; lra.
  - intro He. unfold Render.isSaving. apply lt_false_iff.
    unfold Render.diff. lra.
Qed.

Lemma reform_impact_example :
  Render.isSaving
    (Dashboard.results Sample.noActivity SERVICO_ANEXO_III
       DEFAULT_PRESUMIDO_CONFIG DEFAULT_REAL_CONFIG DEFAULT_REFORM_CONFIG [])
  = false.
Proof.
  apply (reform_impact Sample.noActivity SERVICO_ANEXO_III
           DEFAULT_PRESUMIDO_CONFIG DEFAULT_REAL_CONFIG DEFAULT_REFORM_CONFIG
           []).
  vm_compute. reflexivity.
Defined.
